(** * Git-Analyzer: the change analysis engine

    A shallow embedding of the three classes that make up the change
    analysis engine of Git-Analyzer,

      - [FileContentAnalyzer]  (src/analysis/file_content_analyzer.js),
      - [CodeAnalyzer]         (src/analysis/code_analyzer.js),
      - [DiffAnalyzer]         (second part of src/git/security.js),

    together with what [DiffAnalyzer] calls of [Repository]
    (src/git/repository.js) and of [SecurityManager] (first part of
    src/git/security.js) and with the checks of [SecurityManager] and the
    parser of [Repository] that work on strings alone, followed by the
    properties of the specification that were checked against them and by
    further properties of the code.

    Conventions of the embedding.

    - A JavaScript string is a Rocq [string]; a character is an [ascii].
      On ASCII text this is the code-unit semantics of JavaScript.  Text
      outside ASCII stands as its UTF-8 bytes: there [length] counts
      bytes where the source counts UTF-16 code units, and the class [\s]
      and [trim] are the ASCII ones, while ECMAScript also takes the
      spaces U+00A0, U+1680, U+2000 to U+200A, U+2028, U+2029, U+202F,
      U+205F, U+3000 and U+FEFF.
    - A regular expression literal of the source is a term of [Regex.regex]
      and is run by a backtracking matcher that follows the ECMAScript
      rules (leftmost match, alternatives in order, greedy and lazy
      repetition, numbered capture groups, the flags [i], [m] and [g]).
    - [null] and [undefined] are modelled by [option] or by the type
      [JS.value]; a [TypeError] is thrown in the code modelled here by a
      property access on them, or by the use of a property that an object
      literal inherits where the code expects one of its own.
    - A call that spreads an array over its arguments throws a
      [RangeError] when the array is longer than the engine accepts; the
      bound is implementation-defined and is a parameter.  The functions
      of [CodeAnalyzer] give the value that is returned when no such call
      fails, and [CodeAnalyzer.analyzeCode_completion] says when one
      does.
    - Numbers are [nat] or [Z] when the code only counts, [Q] when it
      multiplies by 0.5 or 1.5 or divides two counts (all the values
      involved are exactly representable), and a binary64 [float] for the
      product [commits.length * 0.7], whose rounding matters. *)

From Stdlib Require Import String Ascii List Bool Arith ZArith QArith Qround Lia Lqa.
From Stdlib Require Import DecimalString.
From Stdlib Require Import Floats Uint63.
Import ListNotations.

Close Scope Q_scope.
Local Open Scope nat_scope.
Local Open Scope string_scope.
Local Open Scope list_scope.

Set Implicit Arguments.

(* ================================================================== *)
(** ** JavaScript strings and values *)
(* ================================================================== *)

Module JS.

(** A JavaScript value as far as the analysers can tell values apart:
    absent, or a string. *)
Inductive value : Type :=
| Undefined
| Null
| Str (s : string).

(** [ToBoolean] on such a value: absent values and the empty string are
    falsy. *)
Definition truthy (v : value) : bool :=
  match v with
  | Str s => negb (String.eqb s "")
  | _ => false
  end.

(** Truthiness of an optional string ([undefined] when absent). *)
Definition truthy_opt (o : option string) : bool :=
  match o with
  | Some s => negb (String.eqb s "")
  | None => false
  end.

(** A thrown value: a [TypeError] or a [RangeError] of the runtime, or
    the object [{code, message, command, ...}] that the security manager
    throws. *)
Inductive exn : Type :=
| TypeError (msg : string)
| RangeError (msg : string)
| Blocked (code : nat) (message command : string).

(** Result of a call that may throw. *)
Inductive completion (A : Type) : Type :=
| Return (a : A)
| Throw (e : exn).
Arguments Return {A} a.
Arguments Throw {A} e.

Definition chars (s : string) : list ascii := list_ascii_of_string s.
Definition str (l : list ascii) : string := string_of_list_ascii l.

(** White space among the ASCII characters: the space and the
    characters 9 to 13.  The spaces of ECMAScript outside ASCII are not
    single characters here. *)
Definition is_space (c : ascii) : bool :=
  let n := N_of_ascii c in
  (N.eqb n 32 || (N.leb 9 n && N.leb n 13))%bool.

(** An ASCII character, and a text made of such characters: on these a
    character is a code unit of the source. *)
Definition is_ascii (c : ascii) : bool := N.ltb (N_of_ascii c) 128.
Definition ascii_text (s : string) : bool := forallb is_ascii (chars s).

Definition is_digit (c : ascii) : bool :=
  let n := N_of_ascii c in (N.leb 48 n && N.leb n 57)%bool.

Definition is_upper (c : ascii) : bool :=
  let n := N_of_ascii c in (N.leb 65 n && N.leb n 90)%bool.

Definition is_lower (c : ascii) : bool :=
  let n := N_of_ascii c in (N.leb 97 n && N.leb n 122)%bool.

Definition is_word (c : ascii) : bool :=
  (is_digit c || is_upper c || is_lower c || Ascii.eqb c "_")%bool.

Definition is_line_terminator (c : ascii) : bool :=
  (Ascii.eqb c "010" || Ascii.eqb c "013")%bool.

Definition to_lower (c : ascii) : ascii :=
  if is_upper c then ascii_of_N (N_of_ascii c + 32) else c.

Definition to_upper (c : ascii) : ascii :=
  if is_lower c then ascii_of_N (N_of_ascii c - 32) else c.

(** [s.toLowerCase()] *)
Definition toLowerCase (s : string) : string :=
  str (map to_lower (chars s)).

(** [s.length] on ASCII text; on other text the number of UTF-8 bytes,
    where the source counts UTF-16 code units. *)
Definition length (s : string) : nat := String.length s.

(** [s.startsWith(p)] *)
Definition startsWith (s p : string) : bool := String.prefix p s.

(** [s.includes(p)]: [p] occurs in [s] as a substring. *)
Fixpoint includes (s p : string) : bool :=
  if String.prefix p s then true
  else match s with
       | EmptyString => false
       | String _ s' => includes s' p
       end.

(** [s.split(sep)] for a one-character separator: always at least one
    piece. *)
Fixpoint split_on (sep : ascii) (s : string) : list string :=
  match s with
  | EmptyString => [EmptyString]
  | String c s' =>
      if Ascii.eqb c sep then EmptyString :: split_on sep s'
      else match split_on sep s' with
           | piece :: more => String c piece :: more
           | [] => [String c EmptyString]
           end
  end.

Definition lines (s : string) : list string := split_on "010" s.

Fixpoint drop_space (l : list ascii) : list ascii :=
  match l with
  | c :: l' => if is_space c then drop_space l' else l
  | [] => []
  end.

(** [s.trim()], for the white space of ASCII. *)
Definition trim (s : string) : string :=
  str (rev (drop_space (rev (drop_space (chars s))))).

(** [a.join(sep)] *)
Fixpoint join (sep : string) (l : list string) : string :=
  match l with
  | [] => ""
  | [x] => x
  | x :: l' => x ++ sep ++ join sep l'
  end.

(** Membership in an array or a [Set] of strings. *)
Definition has (l : list string) (x : string) : bool :=
  existsb (String.eqb x) l.

(** [[...new Set(l)]]: the first occurrence of every element, in
    insertion order. *)
Fixpoint dedupe_from (seen : list string) (l : list string) : list string :=
  match l with
  | [] => []
  | x :: l' =>
      if has seen x then dedupe_from seen l'
      else x :: dedupe_from (x :: seen) l'
  end.

Definition new_Set (l : list string) : list string := dedupe_from [] l.

(** [Math.round]: the nearest integer, a tie going up. *)
Definition Math_round (x : Q) : Z := Qfloor (x + (1 # 2))%Q.

(** [x < y] and [x > y] on numbers. *)
Definition lt (x y : Q) : bool := negb (Qle_bool y x).
Definition gt (x y : Q) : bool := lt y x.

(** A count as a number. *)
Definition num (n : nat) : Q := inject_Z (Z.of_nat n).

(** [n || 1] on a count. *)
Definition or_one (n : nat) : nat := match n with O => 1 | _ => n end.

(** A count as a binary64 number, and [x > y] on such numbers. *)
Definition float_of_nat (n : nat) : float :=
  PrimFloat.of_uint63 (Uint63.of_Z (Z.of_nat n)).
Definition fgt (x y : float) : bool := PrimFloat.ltb y x.

(** The literal [0.7]: the binary64 number nearest to seven tenths. *)
Definition seven_tenths : float := 0x1.6666666666666p-1%float.

(** Floating-point results that involve [Math.log2] are kept as the
    expression that computes them. *)
Inductive fexpr : Type :=
| FNum (n : nat)
| FMul (a b : fexpr)
| FDiv (a b : fexpr)
| FLog2 (a : fexpr)
| FRound (a : fexpr).

End JS.

(* ================================================================== *)
(** ** Regular expressions *)
(* ================================================================== *)

Module Regex.

(** What may stand inside a bracket expression. *)
Inductive atom : Type :=
| ALit (c : ascii)
| ARange (lo hi : ascii)
| AWord          (* \w *)
| ADigit         (* \d *)
| ASpace         (* \s *)
| ANotSpace.     (* \S *)

Inductive cclass : Type :=
| One (a : atom)
| Dot                       (* any character but a line terminator *)
| AnyOf (l : list atom)     (* [ ... ]  *)
| NoneOf (l : list atom).   (* [^ ... ] *)

Inductive regex : Type :=
| Empty
| Chr (c : cclass)
| Seq (r1 r2 : regex)
| Alt (r1 r2 : regex)
| Star (r : regex)            (* r*  *)
| LazyStar (r : regex)        (* r*? *)
| Group (n : nat) (r : regex) (* the n-th capturing parenthesis *)
| Bol                         (* ^  *)
| Eol                         (* $  *)
| WordB.                      (* \b *)

Record flags : Type := { ignoreCase : bool; multiline : bool }.

Definition no_flags : flags := {| ignoreCase := false; multiline := false |}.
Definition flag_i : flags := {| ignoreCase := true; multiline := false |}.
Definition flag_m : flags := {| ignoreCase := false; multiline := true |}.

(** Derived forms. *)
Definition Plus (r : regex) : regex := Seq r (Star r).
Definition LazyPlus (r : regex) : regex := Seq r (LazyStar r).
Definition Opt (r : regex) : regex := Alt r Empty.
Definition C (c : ascii) : regex := Chr (One (ALit c)).
Definition cw : regex := Chr (One AWord).                   (* \w *)
Definition cd : regex := Chr (One ADigit).                  (* \d *)
Definition cs : regex := Chr (One ASpace).                  (* \s *)
Definition any : regex := Chr (AnyOf [ASpace; ANotSpace]).  (* [\s\S] *)
Definition dot : regex := Chr Dot.                          (* . *)
Definition ws0 : regex := Star cs.                          (* \s* *)
Definition ws1 : regex := Plus cs.                          (* \s+ *)
Definition word1 : regex := Plus cw.                        (* \w+ *)
Definition dquote : ascii := "034".
Definition squote : ascii := "039".
(** A quote character, single or double, and a run of characters that are
    neither. *)
Definition quote : regex := Chr (AnyOf [ALit squote; ALit dquote]).
Definition unquoted1 : regex := Plus (Chr (NoneOf [ALit squote; ALit dquote])).
Definition but (c : ascii) : regex := Chr (NoneOf [ALit c]).  (* [^c] *)

Fixpoint lit_chars (l : list ascii) : regex :=
  match l with
  | [] => Empty
  | [c] => C c
  | c :: l' => Seq (C c) (lit_chars l')
  end.

(** A run of literal characters. *)
Definition Lit (t : string) : regex := lit_chars (JS.chars t).

Fixpoint seqs (l : list regex) : regex :=
  match l with
  | [] => Empty
  | [r] => r
  | r :: l' => Seq r (seqs l')
  end.

Fixpoint alts (l : list regex) : regex :=
  match l with
  | [] => Empty
  | [r] => r
  | r :: l' => Alt r (alts l')
  end.

(** An alternative of literal words, [(a|b|c)] without the capture. *)
Definition oneOf (l : list string) : regex := alts (map Lit l).

Definition atom_matches (a : atom) (x : ascii) : bool :=
  match a with
  | ALit c => Ascii.eqb c x
  | ARange lo hi =>
      (N.leb (N_of_ascii lo) (N_of_ascii x) && N.leb (N_of_ascii x) (N_of_ascii hi))%bool
  | AWord => JS.is_word x
  | ADigit => JS.is_digit x
  | ASpace => JS.is_space x
  | ANotSpace => negb (JS.is_space x)
  end.

(** With the flag [i] a character matches when one of its case variants
    does. *)
Definition atom_matches_fl (fl : flags) (a : atom) (x : ascii) : bool :=
  if ignoreCase fl
  then (atom_matches a x || atom_matches a (JS.to_lower x)
        || atom_matches a (JS.to_upper x))%bool
  else atom_matches a x.

Definition class_matches (fl : flags) (c : cclass) (x : ascii) : bool :=
  match c with
  | One a => atom_matches_fl fl a x
  | Dot => negb (JS.is_line_terminator x)
  | AnyOf l => existsb (fun a => atom_matches_fl fl a x) l
  | NoneOf l => negb (existsb (fun a => atom_matches_fl fl a x) l)
  end.

(** The state of the matcher: the character before the current position,
    the position, the input that is left and the captures so far (the
    most recent binding of a group first). *)
Record mstate : Type := {
  prev : option ascii;
  pos : nat;
  rest : list ascii;
  caps : list (nat * string)
}.

Definition is_word_opt (o : option ascii) : bool :=
  match o with Some c => JS.is_word c | None => false end.

Definition at_bol (fl : flags) (st : mstate) : bool :=
  match prev st with
  | None => true
  | Some c => (multiline fl && JS.is_line_terminator c)%bool
  end.

Definition at_eol (fl : flags) (st : mstate) : bool :=
  match rest st with
  | [] => true
  | c :: _ => (multiline fl && JS.is_line_terminator c)%bool
  end.

Definition at_word_boundary (st : mstate) : bool :=
  xorb (is_word_opt (prev st)) (is_word_opt (hd_error (rest st))).

(** The backtracking matcher, in continuation-passing style: [k] is what
    remains to be matched after [r].  A repetition stops as soon as an
    iteration consumes nothing, so the number of iterations is bounded by
    the input that is left. *)
Fixpoint run (fl : flags) (r : regex) (st : mstate)
         (k : mstate -> option mstate) {struct r} : option mstate :=
  match r with
  | Empty => k st
  | Chr c =>
      match rest st with
      | x :: tl =>
          if class_matches fl c x
          then k {| prev := Some x; pos := S (pos st); rest := tl; caps := caps st |}
          else None
      | [] => None
      end
  | Seq r1 r2 => run fl r1 st (fun st1 => run fl r2 st1 k)
  | Alt r1 r2 =>
      match run fl r1 st k with
      | Some res => Some res
      | None => run fl r2 st k
      end
  | Star r1 =>
      (fix loop (fuel : nat) (st0 : mstate) {struct fuel} : option mstate :=
         match fuel with
         | O => k st0
         | S fuel' =>
             match run fl r1 st0
                     (fun st1 => if Nat.ltb (pos st0) (pos st1)
                                 then loop fuel' st1 else None) with
             | Some res => Some res
             | None => k st0
             end
         end) (S (List.length (rest st))) st
  | LazyStar r1 =>
      (fix loop (fuel : nat) (st0 : mstate) {struct fuel} : option mstate :=
         match fuel with
         | O => k st0
         | S fuel' =>
             match k st0 with
             | Some res => Some res
             | None =>
                 run fl r1 st0
                     (fun st1 => if Nat.ltb (pos st0) (pos st1)
                                 then loop fuel' st1 else None)
             end
         end) (S (List.length (rest st))) st
  | Group n r1 =>
      run fl r1 st
          (fun st1 =>
             k {| prev := prev st1; pos := pos st1; rest := rest st1;
                  caps := (n, JS.str (firstn (pos st1 - pos st) (rest st)))
                            :: caps st1 |})
  | Bol => if at_bol fl st then k st else None
  | Eol => if at_eol fl st then k st else None
  | WordB => if at_word_boundary st then k st else None
  end.

(** One successful match: where it starts and ends, the matched text
    ([match[0]]) and the capture groups. *)
Record result : Type := {
  index : nat;
  lastIndex : nat;
  whole : string;
  groups : list (nat * string)
}.

(** [match[n]], [undefined] when the group did not take part. *)
Fixpoint group (n : nat) (g : list (nat * string)) : option string :=
  match g with
  | [] => None
  | (m, t) :: g' => if Nat.eqb n m then Some t else group n g'
  end.

Definition capture (n : nat) (m : result) : option string := group n (groups m).

(** A match attempt anchored at the current position. *)
Definition match_here (fl : flags) (r : regex) (p : option ascii) (i : nat)
           (l : list ascii) : option result :=
  match run fl r {| prev := p; pos := i; rest := l; caps := [] |}
            (fun st => Some st) with
  | Some st =>
      Some {| index := i; lastIndex := pos st;
              whole := JS.str (firstn (pos st - i) l);
              groups := caps st |}
  | None => None
  end.

(** The leftmost match at or after the current position. *)
Fixpoint search (fl : flags) (r : regex) (p : option ascii) (i : nat)
         (l : list ascii) : option result :=
  match match_here fl r p i l with
  | Some m => Some m
  | None =>
      match l with
      | [] => None
      | c :: l' => search fl r (Some c) (S i) l'
      end
  end.

(** [re.exec(t)] for a regular expression without the flag [g], and
    [t.match(re)]. *)
Definition exec (fl : flags) (r : regex) (t : string) : option result :=
  search fl r None 0 (JS.chars t).

(** [re.test(t)] *)
Definition test (fl : flags) (r : regex) (t : string) : bool :=
  match exec fl r t with Some _ => true | None => false end.

(** All matches of a regular expression with the flag [g], left to right
    and without overlap: [t.match(re)], [t.matchAll(re)] and the loop
    [while ((m = re.exec(t)) !== null)].  [skip] counts the characters
    still covered by the previous match; after an empty match the search
    resumes one character further. *)
Fixpoint scan (fl : flags) (r : regex) (p : option ascii) (i : nat)
         (l : list ascii) (skip : nat) : list result :=
  match skip with
  | S skip' =>
      match l with
      | [] => []
      | c :: l' => scan fl r (Some c) (S i) l' skip'
      end
  | O =>
      match match_here fl r p i l with
      | Some m =>
          m :: match l with
               | [] => []
               | c :: l' => scan fl r (Some c) (S i) l' (lastIndex m - i - 1)
               end
      | None =>
          match l with
          | [] => []
          | c :: l' => scan fl r (Some c) (S i) l' 0
          end
      end
  end.

Definition matchAll (fl : flags) (r : regex) (t : string) : list result :=
  scan fl r None 0 (JS.chars t) 0.

(** [(t.match(re) || []).length] for a regular expression with [g]. *)
Definition count (fl : flags) (r : regex) (t : string) : nat :=
  List.length (matchAll fl r t).

(** The character classes and the capture groups that occur in a regular
    expression. *)
Fixpoint char_classes (r : regex) : list cclass :=
  match r with
  | Chr c => [c]
  | Seq r1 r2 | Alt r1 r2 => char_classes r1 ++ char_classes r2
  | Star r1 | LazyStar r1 | Group _ r1 => char_classes r1
  | Empty | Bol | Eol | WordB => []
  end.

Fixpoint group_numbers (r : regex) : list nat :=
  match r with
  | Seq r1 r2 | Alt r1 r2 => group_numbers r1 ++ group_numbers r2
  | Star r1 | LazyStar r1 => group_numbers r1
  | Group n r1 => n :: group_numbers r1
  | Empty | Chr _ | Bol | Eol | WordB => []
  end.

(** The text with every match cut out and the replacement put in its
    place; [i] is the position of the first character of [l]. *)
Fixpoint rebuild (ms : list result) (i : nat) (l : list ascii) (replacement : list ascii)
  : list ascii :=
  match ms with
  | [] => l
  | m :: ms' =>
      firstn (index m - i) l ++ replacement
        ++ rebuild ms' (lastIndex m) (skipn (lastIndex m - i) l) replacement
  end.

(** [t.replace(re, replacement)] for a regular expression with the flag
    [g] and a replacement text without [$]. *)
Definition replaceAll (fl : flags) (r : regex) (t replacement : string) : string :=
  JS.str (rebuild (matchAll fl r t) 0 (JS.chars t) (JS.chars replacement)).

End Regex.

(* ================================================================== *)
(** ** The two functions of Node's [path] module that the code calls *)
(* ================================================================== *)

Module NodePath.

Definition slash : ascii := "/".
Definition period : ascii := ".".

Fixpoint drop_slashes (l : list ascii) : list ascii :=
  match l with
  | c :: l' => if Ascii.eqb c slash then drop_slashes l' else l
  | [] => []
  end.

(** The longest prefix without the character [c]. *)
Fixpoint take_until (c : ascii) (l : list ascii) : list ascii :=
  match l with
  | x :: l' => if Ascii.eqb x c then [] else x :: take_until c l'
  | [] => []
  end.

(** [path.basename(p)]: the last portion of the path, trailing
    separators ignored. *)
Definition basename (p : string) : string :=
  JS.str (rev (take_until slash (drop_slashes (rev (JS.chars p))))).

(** [path.extname(p)]: from the last period of the last portion to its
    end; empty when there is no period, when the only period is the first
    character of the portion, and for the portion [..]. *)
Definition extname (p : string) : string :=
  let b := basename p in
  let r := rev (JS.chars b) in
  let after := take_until period r in
  if Nat.eqb (List.length after) (List.length r) then ""
  else if Nat.eqb (S (List.length after)) (List.length r) then ""
  else if String.eqb b ".." then ""
  else JS.str (period :: rev after).

End NodePath.

(* ================================================================== *)
(** ** FileContentAnalyzer (src/analysis/file_content_analyzer.js) *)
(* ================================================================== *)

Module FileContentAnalyzer.
Import Regex.

(** A pattern is a regular expression with its flags. *)
Definition pattern : Type := (flags * regex)%type.
Definition re (r : regex) : pattern := (no_flags, r).
Definition re_i (r : regex) : pattern := (flag_i, r).
Definition ptest (p : pattern) (t : string) : bool := test (fst p) (snd p) t.

Definition verbs5 : regex := oneOf ["get"; "post"; "put"; "delete"; "patch"].

(** [initializePatterns]: category, then type, then the patterns of the
    type, in the order of the object literal. *)
Definition initializePatterns : list (string * list (string * list pattern)) :=
  [ ("component",
     [ ("react",
        [ re (seqs [Lit "import"; ws1; Lit "React"]);
          re (seqs [Lit "extends"; ws1; Opt (Group 1 (Lit "React.")); Lit "Component"]);
          re (seqs [Lit "function"; ws1; word1; ws0; C "("; Star (but ")"); C ")";
                    ws0; C "{"; Star any; Lit "return"; ws0; C "("]);
          re (seqs [Lit "const"; ws1; word1; ws0; C "="; ws0; C "("; Star (but ")");
                    C ")"; ws0; Lit "=>"; ws0; Star any; Lit "return"; ws0; C "("]);
          re (seqs [Lit "export"; ws1; Lit "default"; ws1; Lit "function"; ws1; word1]) ]);
       ("vue",
        [ re (Lit "<template>");
          re (Lit "<script>");
          re (seqs [Lit "export"; ws1; Lit "default"; ws0; C "{"; Star any;
                    Lit "data"; ws0; Lit "()"]);
          re (Lit "Vue.component") ]);
       ("angular",
        [ re (seqs [Lit "@Component"; ws0; C "("]);
          re (seqs [Lit "@Injectable"; ws0; C "("]);
          re (seqs [Lit "@NgModule"; ws0; C "("]);
          re (seqs [Lit "import"; ws0; C "{"; ws0; Lit "Component"; ws0; C "}"; ws0;
                    Lit "from"; ws0; quote; Lit "@angular"]) ]) ]);
    ("api",
     [ ("rest",
        [ re (seqs [Lit "app."; Group 1 verbs5; ws0; C "("]);
          re (seqs [Lit "router."; Group 1 verbs5; ws0; C "("]);
          re (Lit "express()");
          re (seqs [C "@"; Group 1 (oneOf ["Get"; "Post"; "Put"; "Delete"; "Patch"]);
                    Lit "Mapping"]);
          re (Lit "@RestController") ]);
       ("graphql",
        [ re (seqs [Lit "type"; ws1; Lit "Query"; ws0; C "{"]);
          re (seqs [Lit "type"; ws1; Lit "Mutation"; ws0; C "{"]);
          re (Lit "GraphQLSchema");
          re (Lit "buildSchema(");
          re (Lit "@Resolver") ]) ]);
    ("database",
     [ ("model",
        [ re (Lit "mongoose.Schema");
          re (Lit "sequelize.define");
          re (seqs [Lit "@Entity"; ws0; C "("]);
          re (seqs [Lit "class"; ws1; word1; ws1; Lit "extends"; ws1; Lit "Model"]);
          re_i (seqs [Lit "CREATE"; ws1; Lit "TABLE"]) ]);
       ("migration",
        [ re (seqs [Lit "exports.up"; ws0; C "="]);
          re (seqs [Lit "exports.down"; ws0; C "="]);
          re (seqs [Lit "class"; ws1; word1; Lit "Migration"]);
          re (seqs [Lit "def"; ws1; Lit "up"; ws0; C "("]);
          re (seqs [Lit "def"; ws1; Lit "down"; ws0; C "("]) ]) ]);
    ("test",
     [ ("unit",
        [ re (seqs [Lit "describe"; ws0; C "("]);
          re (seqs [Lit "it"; ws0; C "("]);
          re (seqs [Lit "test"; ws0; C "("]);
          re (seqs [Lit "expect"; ws0; C "("]);
          re (Lit "@Test");
          re (Lit "assert") ]);
       ("integration",
        [ re (Lit "supertest");
          re (Lit "request(app)");
          re (Lit "@SpringBootTest");
          re (Lit "TestBed.configureTestingModule") ]) ]);
    ("config",
     [ ("build",
        [ re (Lit "webpack.config");
          re (Lit "rollup.config");
          re (Lit "vite.config");
          re (Lit "tsconfig.json");
          re (Lit "babel.config") ]);
       ("environment",
        [ re (Lit ".env");
          re (seqs [Lit "config."; Group 1 (oneOf ["js"; "ts"; "json"]); Eol]);
          re (seqs [Lit "settings."; Group 1 (oneOf ["py"; "js"; "ts"]); Eol]) ]) ]);
    ("style",
     [ ("css",
        [ re (Seq (Lit ".css") Eol);
          re (Seq (Lit ".scss") Eol);
          re (Seq (Lit ".sass") Eol);
          re (Seq (Lit ".less") Eol);
          re (Lit "styled-components");
          re (Lit "@emotion") ]) ]);
    ("documentation",
     [ ("markdown",
        [ re (Seq (Lit ".md") Eol);
          re (Lit "README");
          re (Lit "CHANGELOG");
          re (Lit "CONTRIBUTING") ]);
       ("jsdoc",
        [ re (seqs [Lit "/**"; Star any; Lit "@param"]);
          re (seqs [Lit "/**"; Star any; Lit "@returns"]);
          re (seqs [Lit "/**"; Star any; Lit "@description"]) ]) ]) ].

(** The first type, in table order, one of whose patterns matches. *)
Fixpoint first_type (category : string) (types : list (string * list pattern))
         (content : string) : option string :=
  match types with
  | [] => None
  | (type, patterns) :: more =>
      if existsb (fun p => ptest p content) patterns
      then Some (category ++ "-" ++ type)%string
      else first_type category more content
  end.

Fixpoint first_category (table : list (string * list (string * list pattern)))
         (content : string) : option string :=
  match table with
  | [] => None
  | (category, types) :: more =>
      match first_type category types content with
      | Some tag => Some tag
      | None => first_category more content
      end
  end.

(** Every tag the table can give. *)
Definition tags_of (table : list (string * list (string * list pattern))) : list string :=
  flat_map (fun entry =>
              map (fun t => (fst entry ++ "-" ++ fst t)%string) (snd entry)) table.

Definition typeMap : list (string * string) :=
  [ (".js", "javascript"); (".jsx", "react-component"); (".ts", "typescript");
    (".tsx", "react-component"); (".vue", "vue-component"); (".py", "python");
    (".java", "java"); (".go", "go"); (".rs", "rust"); (".rb", "ruby");
    (".php", "php") ].

Fixpoint lookup (m : list (string * string)) (key : string) : option string :=
  match m with
  | [] => None
  | (k, v) :: m' => if String.eqb k key then Some v else lookup m' key
  end.

Definition detectFileType (filePath content : string) : string :=
  let fileName := NodePath.basename filePath in
  let ext := NodePath.extname filePath in
  if test no_flags (alts [Lit "test."; Lit "spec."; Lit ".test."; Lit ".spec."]) fileName
  then "test"
  else if test no_flags (oneOf ["config"; "settings"; "setup"]) fileName
  then "configuration"
  else if test no_flags
            (seqs [Lit "index."; Group 1 (oneOf ["js"; "ts"; "jsx"; "tsx"]); Eol]) fileName
  then "entry-point"
  else if test no_flags
            (seqs [C "."; Group 1 (oneOf ["css"; "scss"; "sass"; "less"]); Eol]) fileName
  then "stylesheet"
  else if test no_flags
            (seqs [C "."; Group 1 (oneOf ["md"; "markdown"; "txt"; "rst"]); Eol]) fileName
  then "documentation"
  else
    match first_category initializePatterns content with
    | Some tag => tag
    | None =>
        match lookup typeMap ext with
        | Some t => t
        | None => "unknown"
        end
    end.

(** The rules of [detectFileType] on the name of the file, in the order
    in which it tries them: the pattern and the type it gives. *)
Definition fileNameRules : list (regex * string) :=
  [ (alts [Lit "test."; Lit "spec."; Lit ".test."; Lit ".spec."], "test");
    (oneOf ["config"; "settings"; "setup"], "configuration");
    (seqs [Lit "index."; Group 1 (oneOf ["js"; "ts"; "jsx"; "tsx"]); Eol], "entry-point");
    (seqs [C "."; Group 1 (oneOf ["css"; "scss"; "sass"; "less"]); Eol], "stylesheet");
    (seqs [C "."; Group 1 (oneOf ["md"; "markdown"; "txt"; "rst"]); Eol], "documentation") ].

(** A directory of the path: [/(a|b|c)\//]. *)
Definition in_dir (names : list regex) : regex :=
  seqs [C "/"; Group 1 (alts names); C "/"].

(** [purposes.push(tag)] when [cond] holds. *)
Definition push_if (cond : bool) (tag : string) (purposes : list string) : list string :=
  if cond then purposes ++ [tag] else purposes.

Definition detectFilePurpose (filePath content : string) : list string :=
  let purposes := [] in
  let purposes :=
    push_if (test no_flags (in_dir [Lit "api"; Lit "routes"; Lit "controllers"]) filePath)
            "APIエンドポイント" purposes in
  let purposes :=
    push_if (test no_flags (in_dir [Lit "components"; Lit "views"; Lit "pages"]) filePath)
            "UIコンポーネント" purposes in
  let purposes :=
    push_if (test no_flags (in_dir [Lit "models"; Lit "entities"; Lit "schemas"]) filePath)
            "データモデル" purposes in
  let purposes :=
    push_if (test no_flags
               (in_dir [Lit "services"; Lit "handlers";
                        seqs [Lit "use"; Opt (C "-"); Lit "cases"]]) filePath)
            "ビジネスロジック" purposes in
  let purposes :=
    push_if (test no_flags (in_dir [Lit "utils"; Lit "helpers"; Lit "lib"]) filePath)
            "ユーティリティ" purposes in
  let purposes :=
    push_if (test no_flags
               (in_dir [Lit "middleware"; Lit "interceptors"; Lit "filters"]) filePath)
            "ミドルウェア" purposes in
  let purposes :=
    push_if (test no_flags
               (seqs [Lit "export"; ws1; Lit "default"; ws1; Lit "class"; Star dot;
                      Lit "extends"; Star dot; Lit "Component"]) content)
            "Reactコンポーネント" purposes in
  let purposes :=
    push_if (test no_flags
               (seqs [Lit "app."; Group 1 (oneOf ["get"; "post"; "put"; "delete"]); C "("])
               content)
            "RESTful API" purposes in
  let purposes :=
    push_if (test no_flags
               (alts [seqs [Lit "async"; ws1; Lit "function"; Star dot; Lit "fetch"];
                      Lit "axios";
                      Lit "fetch("]) content)
            "API通信" purposes in
  let purposes :=
    push_if (test no_flags (alts [Lit "mongoose.Schema"; Lit "sequelize.define"]) content)
            "データベースモデル" purposes in
  match purposes with
  | [] => ["汎用モジュール"]
  | _ => purposes
  end.

Record Structure : Type := {
  s_lines : nat;
  s_imports : nat;
  s_exports : nat;
  s_functions : nat;
  s_classes : nat;
  s_interfaces : nat;
  s_comments : nat;
  s_emptyLines : nat
}.

Definition bump (cond : bool) (n : nat) : nat := if cond then S n else n.

(** The body of the loop over the lines in [analyzeStructure]. *)
Definition structure_step (st : Structure) (line : string) : Structure :=
  let trimmed := JS.trim line in
  {| s_lines := s_lines st;
     s_emptyLines := bump (String.eqb trimmed "") (s_emptyLines st);
     s_comments :=
       bump (JS.startsWith trimmed "//" || JS.startsWith trimmed "/*"
             || JS.startsWith trimmed "*") (s_comments st);
     s_imports :=
       bump (test no_flags (seqs [Bol; Lit "import"; cs]) trimmed
             || test no_flags (seqs [Bol; Lit "const"; Star dot; Lit "require("]) trimmed)
            (s_imports st);
     s_exports := bump (test no_flags (seqs [Bol; Lit "export"; cs]) trimmed) (s_exports st);
     s_functions :=
       bump (test no_flags
               (seqs [Bol; Opt (Group 1 (Seq (Lit "async") ws1)); Lit "function"; cs]) trimmed
             || test no_flags
                  (seqs [Bol; Lit "const"; ws1; word1; ws0; C "="; ws0;
                         Opt (Group 1 (Seq (Lit "async") ws0)); C "("]) trimmed)
            (s_functions st);
     s_classes := bump (test no_flags (seqs [Bol; Lit "class"; cs]) trimmed) (s_classes st);
     s_interfaces :=
       bump (test no_flags (seqs [Bol; Lit "interface"; cs]) trimmed
             || test no_flags (seqs [Bol; Lit "type"; cs]) trimmed)
            (s_interfaces st) |}.

Definition analyzeStructure (content language : string) : Structure :=
  let lines := JS.lines content in
  fold_left structure_step lines
    {| s_lines := List.length lines; s_imports := 0; s_exports := 0; s_functions := 0;
       s_classes := 0; s_interfaces := 0; s_comments := 0; s_emptyLines := 0 |}.

(** [match[n]] of a group that takes part in every match. *)
Definition get (n : nat) (m : result) : string :=
  match capture n m with Some t => t | None => "" end.

Definition external (spec : string) : bool := negb (JS.startsWith spec ".").

Definition extractDependencies (content language : string) : list string :=
  let importRegex :=
    seqs [Lit "import"; ws1; Opt (seqs [LazyStar any; Lit "from"; ws1]);
          quote; Group 1 unquoted1; quote] in
  let requireRegex :=
    seqs [Lit "require"; ws0; C "("; quote; Group 1 unquoted1; quote; C ")"] in
  let dependencies := [] in
  let dependencies :=
    dependencies ++ filter external (map (get 1) (matchAll no_flags importRegex content)) in
  let dependencies :=
    dependencies ++ filter external (map (get 1) (matchAll no_flags requireRegex content)) in
  let dependencies :=
    if String.eqb language "python"
    then
      let pythonImportRegex :=
        seqs [Bol; Opt (seqs [Lit "from"; ws1; Group 1 (Plus (Chr (One ANotSpace))); ws1]);
              Lit "import"; ws1] in
      dependencies
        ++ flat_map (fun m => match capture 1 m with
                              | Some t => if String.eqb t "" then [] else [t]
                              | None => []
                              end)
                    (matchAll flag_m pythonImportRegex content)
    else dependencies in
  JS.new_Set dependencies.

Record Export : Type := { e_type : string; e_name : string }.

Definition extractExports (content language : string) : list Export :=
  let defaultRegex := seqs [Lit "export"; ws1; Lit "default"; ws1; Group 1 word1] in
  let exports :=
    match exec no_flags defaultRegex content with
    | Some m => [{| e_type := "default"; e_name := get 1 m |}]
    | None => []
    end in
  let namedExportRegex :=
    seqs [Lit "export"; ws1; oneOf ["const"; "let"; "var"; "function"; "class"]; ws1;
          Group 1 word1] in
  let exports :=
    exports ++ map (fun m => {| e_type := "named"; e_name := get 1 m |})
                   (matchAll no_flags namedExportRegex content) in
  let exportFromRegex :=
    seqs [Lit "export"; ws0; C "{"; ws0; Group 1 (Plus (but "}")); ws0; C "}"; ws0;
          Lit "from"] in
  exports ++ flat_map (fun m =>
                         map (fun n => {| e_type := "reexport"; e_name := JS.trim n |})
                             (JS.split_on "," (get 1 m)))
                      (matchAll no_flags exportFromRegex content).

Inductive FunctionKind : Type :=
| Declaration     (* neither [arrow] nor [method] is set *)
| Arrow           (* arrow: true *)
| Method.         (* method: true *)

Record Function : Type := {
  f_name : string;
  f_params : list string;
  f_async : bool;
  f_kind : FunctionKind
}.

(** [text.split(',').map(p => p.trim()).filter(p => p)] *)
Definition params_of (text : string) : list string :=
  filter (fun p => negb (String.eqb p "")) (map JS.trim (JS.split_on "," text)).

Definition function_of (kind : FunctionKind) (m : result) : Function :=
  {| f_name := get 1 m;
     f_params := params_of (get 2 m);
     f_async := JS.includes (whole m) "async";
     f_kind := kind |}.

Definition extractFunctions (content language : string) : list Function :=
  let funcDeclRegex :=
    seqs [Opt (Seq (Lit "async") ws1); Lit "function"; ws1; Group 1 word1; ws0;
          C "("; Group 2 (Star (but ")")); C ")"] in
  let functions := map (function_of Declaration) (matchAll no_flags funcDeclRegex content) in
  let arrowFuncRegex :=
    seqs [oneOf ["const"; "let"; "var"]; ws1; Group 1 word1; ws0; C "="; ws0;
          Opt (Seq (Lit "async") ws0); C "("; Group 2 (Star (but ")")); C ")"; ws0;
          Lit "=>"] in
  let functions :=
    functions ++ map (function_of Arrow) (matchAll no_flags arrowFuncRegex content) in
  let methodRegex :=
    seqs [Opt (Seq (Lit "async") ws1); Group 1 word1; ws0; C "("; Group 2 (Star (but ")"));
          C ")"; ws0; C "{"] in
  functions
    ++ map (function_of Method)
           (filter (fun m => negb (JS.has ["function"; "if"; "for"; "while"; "switch"; "catch"]
                                          (get 1 m)))
                   (matchAll no_flags methodRegex content)).

Record Class : Type := {
  c_name : string;
  c_extends : option string       (* [null] when the class has no parent *)
}.

Definition extractClasses (content language : string) : list Class :=
  let classRegex :=
    seqs [Lit "class"; ws1; Group 1 word1;
          Opt (seqs [ws1; Lit "extends"; ws1; Group 2 word1]); ws0; C "{"] in
  map (fun m => {| c_name := get 1 m;
                   c_extends := if JS.truthy_opt (capture 2 m) then capture 2 m else None |})
      (matchAll no_flags classRegex content).

Definition decisionPatterns : list regex :=
  [ seqs [Lit "if"; ws0; C "("];
    seqs [Lit "else"; ws1; Lit "if"; ws0; C "("];
    seqs [Lit "for"; ws0; C "("];
    seqs [Lit "while"; ws0; C "("];
    seqs [Lit "do"; ws0; C "{"];
    seqs [Lit "switch"; ws0; C "("];
    seqs [Lit "case"; ws1];
    seqs [Lit "catch"; ws0; C "("];
    seqs [C "?"; ws0; Plus (but ":"); ws0; C ":"];
    Lit "&&";
    Lit "||" ].

Definition calculateComplexity (content : string) : nat :=
  fold_left (fun complexity pattern => complexity + count no_flags pattern content)
            decisionPatterns 1.

Definition detectCharacteristics (content language : string) : list string :=
  let characteristics := [] in
  let characteristics :=
    push_if (test no_flags (alts [Lit "async"; Lit "await"; Lit "Promise"; Lit "then("]) content)
            "非同期処理" characteristics in
  let characteristics :=
    push_if (test no_flags
               (alts [seqs [Lit "try"; ws0; C "{"]; seqs [Lit "catch"; ws0; C "("];
                      seqs [Lit "throw"; ws1]]) content)
            "エラーハンドリング" characteristics in
  let characteristics :=
    push_if (test no_flags (oneOf ["useState"; "setState"; "redux"; "vuex"; "mobx"]) content)
            "状態管理" characteristics in
  let characteristics :=
    push_if (test no_flags (oneOf ["fetch("; "axios"; "http.request"; "ajax"]) content)
            "API通信" characteristics in
  let characteristics :=
    push_if (test no_flags
               (oneOf ["addEventListener"; "onClick"; "onChange"; "onSubmit"; "emit("]) content)
            "イベント処理" characteristics in
  let characteristics :=
    push_if (test no_flags
               (oneOf ["SELECT"; "INSERT"; "UPDATE"; "DELETE"; "find("; "save("; "create(";
                       "update("]) content)
            "データベース操作" characteristics in
  let characteristics :=
    push_if (test no_flags
               (oneOf ["auth"; "token"; "jwt"; "session"; "login"; "logout"; "password"])
               content)
            "認証・認可" characteristics in
  let characteristics :=
    push_if (test no_flags
               (oneOf ["validate"; "validator"; "schema.validate"; "yup"; "joi"]) content)
            "バリデーション" characteristics in
  let characteristics :=
    push_if (test no_flags
               (oneOf ["cache"; "redis"; "memcached"; "localStorage"; "sessionStorage"])
               content)
            "キャッシュ処理" characteristics in
  let characteristics :=
    push_if (test no_flags
               (oneOf ["console.log"; "logger"; "winston"; "morgan"; "debug"]) content)
            "ログ出力" characteristics in
  characteristics.

Record Analysis : Type := {
  path : string;
  language : string;
  type : string;
  purpose : list string;
  structure : Structure;
  dependencies : list string;
  exports : list Export;
  functions : list Function;
  classes : list Class;
  complexity : nat;
  characteristics : list string;
  description : string
}.

(** A number inside a template literal. *)
Definition show (n : nat) : string := NilZero.string_of_uint (Nat.to_uint n).

(** [generateFileDescription], from the fields it reads. *)
Definition generateFileDescription (type : string) (purpose : list string)
           (structure : Structure) (exports : list Export)
           (characteristics : list string) (complexity : nat) : string :=
  let description :=
    ("このファイルは" ++ JS.join "、" purpose ++ "として機能する" ++ type
       ++ "ファイルです。")%string in
  let description :=
    if Nat.ltb 0 (s_classes structure)
    then (description ++ show (s_classes structure) ++ "個のクラス")%string
    else description in
  let description :=
    if Nat.ltb 0 (s_functions structure)
    then (description ++ (if String.eqb description "" then "" else "、")
            ++ show (s_functions structure) ++ "個の関数")%string
    else description in
  let description :=
    if Nat.ltb 0 (s_imports structure)
    then (description ++ "を含み、" ++ show (s_imports structure)
            ++ "個の依存関係があります。")%string
    else (description ++ "を含んでいます。")%string in
  let description :=
    match find (fun e => String.eqb (e_type e) "default") exports with
    | Some defaultExport =>
        (description ++ "主要なエクスポートは" ++ e_name defaultExport ++ "です。")%string
    | None => description
    end in
  let description :=
    if Nat.ltb 0 (List.length characteristics)
    then (description ++ "主な特徴: " ++ JS.join "、" characteristics ++ "。")%string
    else description in
  if Nat.ltb 10 complexity
  then (description ++ "複雑度が高い(" ++ show complexity
          ++ ")ため、リファクタリングを検討してください。")%string
  else description.

(** [analyzeFileContent].  The content is whatever the caller passes: on
    a value that is not a string the first method call on it,
    [content.split] in [analyzeStructure], throws. *)
Definition analyzeFileContent (filePath : string) (content : JS.value)
           (language : string) : JS.completion Analysis :=
  match content with
  | JS.Str text =>
      let type := detectFileType filePath text in
      let purpose := detectFilePurpose filePath text in
      let structure := analyzeStructure text language in
      let dependencies := extractDependencies text language in
      let exports := extractExports text language in
      let functions := extractFunctions text language in
      let classes := extractClasses text language in
      let complexity := calculateComplexity text in
      let characteristics := detectCharacteristics text language in
      JS.Return
        {| path := filePath;
           language := language;
           type := type;
           purpose := purpose;
           structure := structure;
           dependencies := dependencies;
           exports := exports;
           functions := functions;
           classes := classes;
           complexity := complexity;
           characteristics := characteristics;
           description :=
             generateFileDescription type purpose structure exports characteristics
                                     complexity |}
  | JS.Null =>
      JS.Throw (JS.TypeError "Cannot read properties of null (reading 'split')")
  | JS.Undefined =>
      JS.Throw (JS.TypeError "Cannot read properties of undefined (reading 'split')")
  end.

End FileContentAnalyzer.

(* ================================================================== *)
(** ** CodeAnalyzer (src/analysis/code_analyzer.js) *)
(* ================================================================== *)

Module CodeAnalyzer.
Import Regex.

(** The end of an arrow function binding: an optional [async], a
    parenthesis with anything on one line inside, and the arrow. *)
Definition arrow_tail : regex :=
  seqs [Opt (Seq (Lit "async") ws0); C "("; LazyStar dot; C ")"; ws0; Lit "=>"].

(** One entry of [languagePatterns]; a key that the entry does not have
    is [None]. *)
Record Patterns : Type := {
  p_functions : option regex;
  p_classes : option regex;
  p_imports : option regex;
  p_exports : option regex;
  p_interfaces : option regex;
  p_types : option regex;
  p_decorators : option regex;
  p_annotations : option regex;
  p_comments : option regex
}.

Definition js_functions : regex :=
  alts [ seqs [Lit "function"; ws1; Group 1 word1];
         seqs [Lit "const"; ws1; Group 2 word1; ws0; C "="; ws0; arrow_tail];
         seqs [Group 3 word1; ws0; C ":"; ws0; arrow_tail] ].
Definition class_name : regex := seqs [Lit "class"; ws1; Group 1 word1].
Definition js_imports : regex :=
  seqs [Lit "import"; ws1; LazyStar dot; Lit "from"; ws1; quote; Group 1 (LazyPlus dot);
        quote].
Definition c_comments : regex :=
  alts [ seqs [Lit "/*"; LazyStar any; Lit "*/"]; seqs [Lit "//"; Star dot] ].
Definition at_name : regex := seqs [C "@"; Group 1 word1].

Definition javascript : Patterns :=
  {| p_functions := Some js_functions;
     p_classes := Some class_name;
     p_imports := Some js_imports;
     p_exports :=
       Some (seqs [Lit "export"; ws1; Opt (Seq (Lit "default") ws1);
                   oneOf ["class"; "function"; "const"; "let"; "var"]; ws1; Group 1 word1]);
     p_interfaces := None;
     p_types := None;
     p_decorators := None;
     p_annotations := None;
     p_comments := Some c_comments |}.

Definition typescript : Patterns :=
  {| p_functions := Some js_functions;
     p_classes := Some class_name;
     p_imports := Some js_imports;
     p_exports :=
       Some (seqs [Lit "export"; ws1; Opt (Seq (Lit "default") ws1);
                   oneOf ["class"; "function"; "const"; "let"; "var"; "interface"; "type"];
                   ws1; Group 1 word1]);
     p_interfaces := Some (seqs [Lit "interface"; ws1; Group 1 word1]);
     p_types := Some (seqs [Lit "type"; ws1; Group 1 word1]);
     p_decorators := None;
     p_annotations := None;
     p_comments := Some c_comments |}.

Definition python : Patterns :=
  {| p_functions := Some (seqs [Lit "def"; ws1; Group 1 word1; ws0; C "("]);
     p_classes := Some class_name;
     p_imports :=
       Some (alts [ seqs [Lit "import"; ws1; Group 1 word1];
                    seqs [Lit "from"; ws1; Group 2 word1; ws1; Lit "import"] ]);
     p_exports := None;
     p_interfaces := None;
     p_types := None;
     p_decorators := Some at_name;
     p_annotations := None;
     p_comments := Some (Seq (C "#") (Star dot)) |}.

Definition java : Patterns :=
  {| p_functions :=
       Some (seqs [ Plus (alts [Lit "public"; Lit "private"; Lit "protected"; Lit "static"; cs]);
                    Plus (Chr (AnyOf [AWord; ALit "<"; ALit ">"; ALit "["; ALit "]"]));
                    ws1; Group 1 word1; ws0; C "("; Star (but ")"); C ")"; ws0;
                    Opt (seqs [Lit "throws"; ws1; word1;
                               Star (seqs [ws0; C ","; ws0; word1])]);
                    ws0; C "{" ]);
     p_classes := Some class_name;
     p_imports :=
       Some (seqs [Lit "import"; ws1; Group 1 (Plus (Chr (AnyOf [AWord; ALit "."]))); C ";"]);
     p_exports := None;
     p_interfaces := Some (seqs [Lit "interface"; ws1; Group 1 word1]);
     p_types := None;
     p_decorators := None;
     p_annotations := Some at_name;
     p_comments := Some c_comments |}.

(** What a property access on the object literal finds: an own key, a
    property inherited from [Object.prototype] (which is truthy and has
    none of the pattern keys), or nothing. *)
Definition no_patterns : Patterns :=
  {| p_functions := None; p_classes := None; p_imports := None; p_exports := None;
     p_interfaces := None; p_types := None; p_decorators := None; p_annotations := None;
     p_comments := None |}.

Definition object_prototype_keys : list string :=
  [ "constructor"; "__defineGetter__"; "__defineSetter__"; "hasOwnProperty";
    "__lookupGetter__"; "__lookupSetter__"; "isPrototypeOf"; "propertyIsEnumerable";
    "toString"; "valueOf"; "__proto__"; "toLocaleString" ].

Definition initializeLanguagePatterns (language : string) : option Patterns :=
  if String.eqb language "javascript" then Some javascript
  else if String.eqb language "typescript" then Some typescript
  else if String.eqb language "python" then Some python
  else if String.eqb language "java" then Some java
  else if JS.has object_prototype_keys language then Some no_patterns
  else None.

Record Metrics : Type := {
  totalLines : nat;
  codeLines : nat;
  emptyLines : nat;
  commentLines : nat;
  averageLineLength : Z;
  longestLine : nat
}.

Definition non_empty (line : string) : bool := Nat.ltb 0 (JS.length (JS.trim line)).

Definition calculateAverageLineLength (lines : list string) : Z :=
  let nonEmptyLines := filter non_empty lines in
  if Nat.eqb (List.length nonEmptyLines) 0 then 0%Z
  else
    let totalLength := fold_left (fun sum line => sum + JS.length line) nonEmptyLines 0 in
    JS.Math_round (JS.num totalLength / JS.num (List.length nonEmptyLines))%Q.

(** [calculateMetrics]: the metrics it returns.  [longestLine] is
    [Math.max(...lines.map(l => l.length))], a call with one argument for
    every line: see [spread_sizes] for when that call throws. *)
Definition calculateMetrics (content : string) : Metrics :=
  let lines := JS.lines content in
  let nonEmptyLines := filter non_empty lines in
  let codeLines :=
    filter (fun line =>
              negb (JS.startsWith (JS.trim line) "//")
              && negb (JS.startsWith (JS.trim line) "#")
              && negb (JS.startsWith (JS.trim line) "*"))%bool
           nonEmptyLines in
  {| totalLines := List.length lines;
     codeLines := List.length codeLines;
     emptyLines := List.length lines - List.length nonEmptyLines;
     commentLines := List.length nonEmptyLines - List.length codeLines;
     averageLineLength := calculateAverageLineLength lines;
     longestLine := fold_left Nat.max (map JS.length lines) 0 |}.

Definition opening (c : ascii) : bool :=
  (Ascii.eqb c "{" || Ascii.eqb c "(" || Ascii.eqb c "[")%bool.
Definition closing (c : ascii) : bool :=
  (Ascii.eqb c "}" || Ascii.eqb c ")" || Ascii.eqb c "]")%bool.

(** The loop of [calculateMaxNesting] on the state
    [(maxNesting, currentNesting)]. *)
Definition nesting_step (st : nat * nat) (c : ascii) : nat * nat :=
  let (maxNesting, currentNesting) := st in
  if opening c then (Nat.max maxNesting (S currentNesting), S currentNesting)
  else if closing c then (maxNesting, Nat.max 0 (currentNesting - 1))
  else st.

Definition calculateMaxNesting (content : string) : nat :=
  fst (fold_left nesting_step (JS.chars content) (0, 0)).

Definition extractOperators (content language : string) : list string :=
  let operatorPatterns :=
    [ alts [ Lit "++"; Lit "--"; Lit "=="; Lit "!="; Lit "<="; Lit ">="; Lit "&&"; Lit "||";
             Lit "<<"; Lit ">>";
             Chr (AnyOf [ALit "+"; ALit "-"; ALit "*"; ALit "/"; ALit "%"; ALit "=";
                         ALit "<"; ALit ">"; ALit "!"; ALit "&"; ALit "|"; ALit "^";
                         ALit "~"]) ] ] in
  flat_map (fun pattern => map whole (matchAll no_flags pattern content)) operatorPatterns.

Definition extractOperands (content language : string) : list string :=
  let identifierPattern :=
    seqs [WordB; Chr (AnyOf [ARange "a" "z"; ARange "A" "Z"; ALit "_"]); Star cw; WordB] in
  let numberPattern :=
    seqs [WordB; Plus cd; Opt (Group 1 (Seq (C ".") (Plus cd))); WordB] in
  let delimiter := Chr (AnyOf [ALit dquote; ALit squote; ALit "`"]) in
  let stringPattern := seqs [delimiter; LazyStar dot; delimiter] in
  map whole (matchAll no_flags identifierPattern content)
    ++ map whole (matchAll no_flags numberPattern content)
    ++ map whole (matchAll no_flags stringPattern content).

Record Halstead : Type := {
  vocabulary : nat;
  length : nat;
  volume : JS.fexpr;
  difficulty : JS.fexpr;
  effort : JS.fexpr
}.

Definition calculateHalsteadMetrics (content language : string) : Halstead :=
  let operators := extractOperators content language in
  let operands := extractOperands content language in
  let n1 := List.length (JS.new_Set operators) in
  let n2 := List.length (JS.new_Set operands) in
  let N1 := List.length operators in
  let N2 := List.length operands in
  let vocabulary := n1 + n2 in
  let length := N1 + N2 in
  let volume := JS.FMul (JS.FNum length) (JS.FLog2 (JS.FNum (JS.or_one vocabulary))) in
  let difficulty :=
    JS.FMul (JS.FDiv (JS.FNum n1) (JS.FNum 2))
            (JS.FDiv (JS.FNum N2) (JS.FNum (JS.or_one n2))) in
  let effort := JS.FMul volume difficulty in
  {| vocabulary := vocabulary;
     length := length;
     volume := JS.FRound volume;
     difficulty := JS.FDiv (JS.FRound (JS.FMul difficulty (JS.FNum 100))) (JS.FNum 100);
     effort := JS.FRound effort |}.

Definition logicalOperators : regex := alts [Lit "&&"; Lit "||"].

(** The body of the loop over the lines in [calculateCognitiveComplexity]
    on the state [(complexity, nestingLevel)]. *)
Definition cognitive_step (st : nat * nat) (line : string) : nat * nat :=
  let (complexity, nestingLevel) := st in
  let trimmed := JS.trim line in
  let nestingLevel := if JS.includes trimmed "{" then S nestingLevel else nestingLevel in
  let complexity :=
    if test no_flags
         (seqs [WordB;
                Group 1 (oneOf ["if"; "else if"; "for"; "while"; "do"; "switch"]);
                WordB]) trimmed
    then complexity + (1 + nestingLevel) else complexity in
  let complexity :=
    if test no_flags (seqs [WordB; Lit "catch"; WordB]) trimmed
    then complexity + 1 else complexity in
  let complexity :=
    if test no_flags
         (alts [seqs [WordB; Lit "break"; WordB]; seqs [WordB; Lit "continue"; WordB]])
         trimmed
    then complexity + 1 else complexity in
  let complexity := complexity + count no_flags logicalOperators trimmed in
  let nestingLevel :=
    if JS.includes trimmed "}" then Nat.max 0 (nestingLevel - 1) else nestingLevel in
  (complexity, nestingLevel).

Definition calculateCognitiveComplexity (content : string) : nat :=
  fst (fold_left cognitive_step (JS.lines content) (0, 0)).

Record Complexity : Type := {
  cyclomatic : nat;
  cognitive : nat;
  nesting : nat;
  halstead : Halstead
}.

Definition keyword (k : string) : regex := seqs [WordB; Lit k; WordB].

Definition controlFlowPatterns : list regex :=
  [ keyword "if";
    seqs [WordB; Lit "else"; ws1; Lit "if"; WordB];
    keyword "for";
    keyword "while";
    keyword "do";
    keyword "switch";
    keyword "case";
    keyword "catch";
    seqs [C "?"; ws0; Star dot; ws0; C ":"] ].

Definition calculateComplexity (content language : string) : Complexity :=
  let cyclomatic :=
    fold_left (fun cyclomatic pattern => cyclomatic + count no_flags pattern content)
              controlFlowPatterns 1 in
  let cyclomatic := cyclomatic + count no_flags logicalOperators content in
  {| cyclomatic := cyclomatic;
     cognitive := calculateCognitiveComplexity content;
     nesting := calculateMaxNesting content;
     halstead := calculateHalsteadMetrics content language |}.

Record Structure : Type := {
  functions : list string;
  classes : list string;
  imports : list string;
  exports : list string;
  interfaces : list string;
  types : list string
}.

(** [a || b] on two captures: the first that is present and not empty. *)
Definition or_else (a b : option string) : option string :=
  if JS.truthy_opt a then a else b.

(** [matches.map(pick).filter(Boolean)] *)
Definition names (pick : result -> option string) (ms : list result) : list string :=
  flat_map (fun m => if JS.truthy_opt (pick m)
                     then match pick m with Some t => [t] | None => [] end
                     else []) ms.

(** [[...content.matchAll(pattern)]] when the entry has the pattern. *)
Definition matches_of (pattern : option regex) (content : string) : list result :=
  match pattern with
  | Some r => matchAll no_flags r content
  | None => []
  end.

Definition analyzeStructure (content language : string) : Structure :=
  let patterns :=
    match initializeLanguagePatterns language with
    | Some p => p
    | None => javascript
    end in
  {| functions :=
       names (fun m => or_else (or_else (capture 1 m) (capture 2 m)) (capture 3 m))
             (matches_of (p_functions patterns) content);
     classes := names (capture 1) (matches_of (p_classes patterns) content);
     imports :=
       names (fun m => or_else (capture 1 m) (capture 2 m))
             (matches_of (p_imports patterns) content);
     exports := names (capture 1) (matches_of (p_exports patterns) content);
     interfaces := names (capture 1) (matches_of (p_interfaces patterns) content);
     types := names (capture 1) (matches_of (p_types patterns) content) |}.

(** The field of an issue that differs from rule to rule. *)
Inductive IssueDetail : Type :=
| Pattern (text : string)
| Count (n : nat)
| Value (n : nat).

Record Issue : Type := {
  i_type : string;
  i_severity : string;
  i_message : string;
  i_detail : IssueDetail
}.

Definition issue_if (cond : bool) (i : Issue) : list Issue := if cond then [i] else [].

Definition detectPotentialBugs (content language : string) : list Issue :=
  issue_if (test no_flags (alts [seqs [Lit "=="; ws0; Lit "null"];
                                 seqs [Lit "!="; ws0; Lit "null"]]) content
            && String.eqb language "javascript")
           {| i_type := "null-comparison"; i_severity := "low";
              i_message := "Use === or !== for null comparisons";
              i_detail := Pattern "== null or != null" |}
  ++ issue_if (test no_flags
                 (seqs [Lit "console."; Group 1 (oneOf ["log"; "error"; "warn"; "info"])])
                 content)
              {| i_type := "console-statement"; i_severity := "low";
                 i_message := "Console statements found in code";
                 i_detail := Pattern "console.*" |}
  ++ issue_if (test no_flags (oneOf ["TODO"; "FIXME"; "XXX"; "HACK"]) content)
              {| i_type := "todo-comment"; i_severity := "info";
                 i_message := "TODO/FIXME comments found";
                 i_detail := Pattern "TODO|FIXME|XXX|HACK" |}.

Definition secret_word : regex :=
  alts [Lit "password"; Lit "secret";
        seqs [Lit "api"; Opt (Chr (AnyOf [ALit "_"; ALit "-"])); Lit "key"]].

Definition detectSecurityIssues (content : string) : list Issue :=
  issue_if (test no_flags (seqs [Lit "eval"; ws0; C "("]) content)
           {| i_type := "eval-usage"; i_severity := "high";
              i_message := "eval() usage detected - potential security risk";
              i_detail := Pattern "eval(" |}
  ++ issue_if (test no_flags (seqs [Lit "innerHTML"; ws0; C "="]) content)
              {| i_type := "innerHTML"; i_severity := "medium";
                 i_message := "innerHTML assignment detected - potential XSS risk";
                 i_detail := Pattern "innerHTML =" |}
  ++ (if test flag_i secret_word content
      then
        let hardcodedPattern :=
          seqs [Group 1 secret_word; ws0; C "="; ws0; quote; unquoted1; quote] in
        issue_if (test flag_i hardcodedPattern content)
                 {| i_type := "hardcoded-secret"; i_severity := "critical";
                    i_message := "Potential hardcoded secret detected";
                    i_detail := Pattern "hardcoded password/secret/api-key" |}
      else []).

Definition js_or_ts (language : string) : bool :=
  (String.eqb language "javascript" || String.eqb language "typescript")%bool.

Definition detectPerformanceIssues (content language : string) : list Issue :=
  if js_or_ts language
  then
    issue_if (test no_flags (Lit ".forEach(") content && Nat.ltb 1000 (JS.length content))
             {| i_type := "forEach-usage"; i_severity := "low";
                i_message := "Consider using for...of for better performance";
                i_detail := Pattern ".forEach(" |}
    ++ (let nestedLoops :=
          seqs [Lit "for"; ws0; C "("; Star (but ")"); C ")"; ws0; C "{"; Star (but "}");
                Lit "for"; ws0; C "("] in
        issue_if (test no_flags nestedLoops content)
                 {| i_type := "nested-loops"; i_severity := "medium";
                    i_message := "Nested loops detected - potential performance issue";
                    i_detail := Pattern "nested for loops" |})
  else [].

Definition show (n : nat) : string := NilZero.string_of_uint (Nat.to_uint n).

Definition detectStyleIssues (content language : string) : list Issue :=
  let lines := JS.lines content in
  let longLines := filter (fun line => Nat.ltb 120 (JS.length line)) lines in
  issue_if (Nat.ltb 0 (List.length longLines))
           {| i_type := "long-lines"; i_severity := "info";
              i_message := (show (List.length longLines) ++ " lines exceed 120 characters")%string;
              i_detail := Count (List.length longLines) |}
  ++ (if js_or_ts language
      then issue_if (test no_flags (seqs [Lit "var"; ws1; word1; ws0; C "="]) content)
                    {| i_type := "var-usage"; i_severity := "low";
                       i_message := "Use const or let instead of var";
                       i_detail := Pattern "var declaration" |}
      else []).

Definition detectMaintenanceIssues (content language : string) : list Issue :=
  let complexity := calculateComplexity content language in
  let metrics := calculateMetrics content in
  issue_if (Nat.ltb 10 (cyclomatic complexity))
           {| i_type := "high-complexity"; i_severity := "medium";
              i_message :=
                ("High cyclomatic complexity: " ++ show (cyclomatic complexity))%string;
              i_detail := Value (cyclomatic complexity) |}
  ++ issue_if (Nat.ltb 5 (nesting complexity))
              {| i_type := "deep-nesting"; i_severity := "medium";
                 i_message := ("Deep nesting level: " ++ show (nesting complexity))%string;
                 i_detail := Value (nesting complexity) |}
  ++ issue_if (Nat.ltb 500 (totalLines metrics))
              {| i_type := "large-file"; i_severity := "low";
                 i_message :=
                   ("Large file: " ++ show (totalLines metrics) ++ " lines")%string;
                 i_detail := Value (totalLines metrics) |}.

Record Issues : Type := {
  bugs : list Issue;
  security : list Issue;
  performance : list Issue;
  style : list Issue;
  maintenance : list Issue
}.

Definition detectIssues (content language : string) : Issues :=
  {| bugs := detectPotentialBugs content language;
     security := detectSecurityIssues content;
     performance := detectPerformanceIssues content language;
     style := detectStyleIssues content language;
     maintenance := detectMaintenanceIssues content language |}.

Inductive Grade : Type := A | B | C | D | F.

Definition getGrade (score : Z) : Grade :=
  if Z.leb 90 score then A
  else if Z.leb 80 score then B
  else if Z.leb 70 score then C
  else if Z.leb 60 score then D
  else F.

Record Factors : Type := {
  fc_complexity : string;
  fc_size : string;
  fc_documentation : string
}.

Record Quality : Type := {
  score : Z;
  grade : Grade;
  factors : Factors
}.

(** [score -= n] when [cond] holds. *)
Definition deduct (cond : bool) (n : Z) (score : Z) : Z :=
  if cond then (score - n)%Z else score.

(** [assessQuality].  The issues it asks for are computed and not used.
    The ratio of two line counts is compared with one tenth exactly: for
    counts below 2^53 the binary64 quotient and the literal 0.1 compare the
    same way. *)
Definition assessQuality (content language : string) : Quality :=
  let metrics := calculateMetrics content in
  let complexity := calculateComplexity content language in
  let issues := detectIssues content language in
  let score := 100%Z in
  let score := deduct (Nat.ltb 10 (cyclomatic complexity)) 10 score in
  let score := deduct (Nat.ltb 20 (cyclomatic complexity)) 10 score in
  let score := deduct (Nat.ltb 5 (nesting complexity)) 5 score in
  let score := deduct (Nat.ltb 500 (totalLines metrics)) 5 score in
  let score := deduct (Nat.ltb 1000 (totalLines metrics)) 10 score in
  let commentRatio :=
    (JS.num (commentLines metrics) / JS.num (JS.or_one (codeLines metrics)))%Q in
  let score := deduct (JS.lt commentRatio (1 # 10)) 5 score in
  let score := Z.max 0 (Z.min 100 score) in
  {| score := score;
     grade := getGrade score;
     factors :=
       {| fc_complexity :=
            if Nat.leb (cyclomatic complexity) 10 then "good" else "needs-improvement";
          fc_size := if Nat.leb (totalLines metrics) 500 then "good" else "large";
          fc_documentation :=
            if negb (JS.lt commentRatio (1 # 10)) then "adequate" else "insufficient" |} |}.

Record Analysis : Type := {
  language : string;
  metrics : Metrics;
  complexity : Complexity;
  structure : Structure;
  issues : Issues;
  quality : Quality
}.

(** What [analyzeCode] returns: the object with the single key [error],
    or the analysis. *)
Inductive Outcome : Type :=
| Error (error : string)
| Report (analysis : Analysis).

Definition analyzeCode (content : JS.value) (language : string) : Outcome :=
  if negb (JS.truthy content)
  then Error "No content to analyze"
  else
    match content with
    | JS.Str text =>
        Report {| language := language;
                  metrics := calculateMetrics text;
                  complexity := calculateComplexity text language;
                  structure := analyzeStructure text language;
                  issues := detectIssues text language;
                  quality := assessQuality text language |}
    | _ => Error "No content to analyze"
    end.

(** The three patterns of [extractOperands], in the order in which it
    runs them. *)
Definition operandPatterns : list regex :=
  [ seqs [WordB; Chr (AnyOf [ARange "a" "z"; ARange "A" "Z"; ALit "_"]); Star cw; WordB];
    seqs [WordB; Plus cd; Opt (Group 1 (Seq (Regex.C ".") (Plus cd))); WordB];
    (let delimiter := Chr (AnyOf [ALit dquote; ALit squote; ALit "`"]) in
     seqs [delimiter; LazyStar dot; delimiter]) ].

(** The calls of the class that spread an array over the arguments of a
    call, [f(...array)]: [Math.max(...lines.map(...))] in
    [calculateMetrics], [operators.push(...matches)] in
    [extractOperators], the three [operands.push(...)] of
    [extractOperands] and the five [push(...)] of [detectIssues].
    [spread_sizes content language] is the length of the array in each
    of them when [analyzeCode] runs on a non-empty content; the calls
    that [detectMaintenanceIssues] and [assessQuality] repeat spread
    arrays of the same lengths. *)
Definition spread_sizes (content language : string) : list nat :=
  [ List.length (JS.lines content);
    List.length (extractOperators content language) ]
    ++ map (fun pattern => count no_flags pattern content) operandPatterns
    ++ [ List.length (detectPotentialBugs content language);
         List.length (detectSecurityIssues content);
         List.length (detectPerformanceIssues content language);
         List.length (detectStyleIssues content language);
         List.length (detectMaintenanceIssues content language) ].

(** How a call of [analyzeCode] completes on an engine that accepts at
    most [max_arguments] arguments in a call and throws a [RangeError]
    beyond (the bound is implementation-defined): it returns what
    [analyzeCode] gives unless one of the spread arrays is longer than
    the bound. *)
Definition analyzeCode_completion (max_arguments : nat) (content : JS.value)
           (language : string) : JS.completion Outcome :=
  if negb (JS.truthy content)
  then JS.Return (Error "No content to analyze")
  else
    match content with
    | JS.Str text =>
        if forallb (fun size => Nat.leb size max_arguments) (spread_sizes text language)
        then JS.Return (analyzeCode content language)
        else JS.Throw (JS.RangeError "Maximum call stack size exceeded")
    | _ => JS.Return (Error "No content to analyze")
    end.

End CodeAnalyzer.

(* ================================================================== *)
(** ** SecurityManager (first part of src/git/security.js) *)
(* ================================================================== *)

Module SecurityManager.
Import Regex.

Definition SECURITY_COMMAND_BLOCKED : nat := 2002.

Definition blockedCommands : list string :=
  [ "git push"; "git commit"; "git merge"; "git rebase"; "git checkout -b";
    "git branch -d"; "git branch -D"; "git tag"; "git reset"; "git clean"; "git rm";
    "git add"; "git stash"; "git cherry-pick"; "git revert"; "git config --set";
    "git config --unset"; "git remote add"; "git remote remove"; "git remote set-url" ].

Definition blockedPatterns : list regex :=
  [ Lit "--force";
    seqs [Lit "-f"; WordB];
    Lit "--hard";
    Lit "--soft";
    Lit "--mixed";
    Lit ">>";
    seqs [C "|"; Star dot; C ">"];
    seqs [Lit "&&"; Star dot; C ">"];
    seqs [C ";"; Star dot; C ">"] ].

(** [validateGitCommand]: throws on a blocked command or pattern and
    returns [true] otherwise (the warning it may print is not part of
    the result). *)
Definition validateGitCommand (command : string) : JS.completion bool :=
  let normalizedCommand := JS.toLowerCase (JS.trim command) in
  match find (fun blocked => JS.startsWith normalizedCommand blocked) blockedCommands with
  | Some blocked =>
      JS.Throw (JS.Blocked SECURITY_COMMAND_BLOCKED
                           ("Blocked command: " ++ blocked)%string command)
  | None =>
      if existsb (fun pattern => test no_flags pattern normalizedCommand) blockedPatterns
      then JS.Throw (JS.Blocked SECURITY_COMMAND_BLOCKED
                                "Dangerous pattern detected in command" command)
      else JS.Return true
  end.

Definition SECURITY_WRITE_BLOCKED : nat := 2001.
Definition SECURITY_PATH_TRAVERSAL : nat := 2003.
Definition SECURITY_PATH_INVALID : nat := 2004.

(** The result of a method that returns a value or throws an object
    [{code, message, ...}]. *)
Inductive checked (A : Type) : Type :=
| Accepted (a : A)
| Rejected (code : nat) (message : string).
Arguments Accepted {A} a.
Arguments Rejected {A} code message.

(** The characters [sanitizePath] keeps: [\w], [-], [_], [.] and [/]. *)
Definition path_characters : list atom :=
  [AWord; ALit "-"; ALit "_"; ALit "."; ALit "/"].

Definition dangerousPathPatterns : list regex :=
  [ Seq Bol (C "/");
    Seq Bol (C "~");
    Lit "${";
    Lit "$(";
    C "`";
    C "|";
    C ";";
    C "&";
    C ">";
    C "<" ].

Definition sanitizePath (filePath : JS.value) : checked string :=
  match filePath with
  | JS.Str text =>
      if negb (JS.truthy filePath)
      then Rejected SECURITY_PATH_INVALID "Invalid file path"
      else if JS.includes text ".."
      then Rejected SECURITY_PATH_TRAVERSAL "Path traversal detected"
      else if existsb (fun pattern => test no_flags pattern text) dangerousPathPatterns
      then Rejected SECURITY_PATH_INVALID "Dangerous path pattern detected"
      else Accepted (replaceAll no_flags (Chr (NoneOf path_characters)) text "")
  | _ => Rejected SECURITY_PATH_INVALID "Invalid file path"
  end.

Record FileAccess : Type := {
  fa_path : string;
  fa_mode : string;
  fa_allowed : bool
}.

Definition validateFileAccess (filePath : JS.value) (mode : string) : checked FileAccess :=
  let allowedModes := ["read"] in
  if negb (JS.has allowedModes mode)
  then Rejected SECURITY_WRITE_BLOCKED
                ("File access mode '" ++ mode ++ "' is not allowed")%string
  else
    match sanitizePath filePath with
    | Accepted sanitized =>
        Accepted {| fa_path := sanitized; fa_mode := mode; fa_allowed := true |}
    | Rejected code message => Rejected code message
    end.

(** The patterns of [checkCommandInjection], each with the text that
    [pattern.toString()] gives. *)
Definition injectionPatterns : list (string * regex) :=
  [ ("/;/", C ";");
    ("/&&/", Lit "&&");
    ("/\|\|/", Lit "||");
    ("/\|/", C "|");
    ("/>/", C ">");
    ("/</", C "<");
    ("/`/", C "`");
    ("/\$\(/", Lit "$(");
    ("/\$\{/", Lit "${");
    ("/\n/", C "010");
    ("/\r/", C "013") ].

(** What [checkCommandInjection] returns: [{safe: false, pattern, reason}]
    or [{safe: true, sanitized}]. *)
Inductive InjectionCheck : Type :=
| Unsafe (pattern reason : string)
| Safe (sanitized : string).

(** The characters [checkCommandInjection] keeps: those of a path and
    white space. *)
Definition command_characters : list atom :=
  [AWord; ASpace; ALit "-"; ALit "_"; ALit "."; ALit "/"].

Definition checkCommandInjection (input : string) : InjectionCheck :=
  match find (fun entry => test no_flags (snd entry) input) injectionPatterns with
  | Some (source, _) => Unsafe source "Potential command injection detected"
  | None => Safe (replaceAll no_flags (Chr (NoneOf command_characters)) input "")
  end.

Record KeyCheck : Type := {
  k_valid : bool;
  k_reason : option string
}.

(** The characters of an API key after its prefix: [[0-9A-Za-z\-_]]. *)
Definition key_characters : list atom :=
  [ARange "0" "9"; ARange "A" "Z"; ARange "a" "z"; ALit "-"; ALit "_"].

Definition key_pattern (prefix : string) : regex :=
  seqs [Bol; Lit prefix; Plus (Chr (AnyOf key_characters)); Eol].

Definition keyPatterns : list (string * regex) :=
  [ ("gemini", key_pattern "AIza");
    ("claude", key_pattern "sk-");
    ("openai", key_pattern "sk-") ].

Fixpoint pattern_of (m : list (string * regex)) (key : string) : option regex :=
  match m with
  | [] => None
  | (k, r) :: m' => if String.eqb k key then Some r else pattern_of m' key
  end.

(** The names every object literal inherits from [Object.prototype]: a
    lookup of one of them finds a value that is not a pattern. *)
Definition inherited_names : list string :=
  [ "constructor"; "__defineGetter__"; "__defineSetter__"; "hasOwnProperty";
    "__lookupGetter__"; "__lookupSetter__"; "isPrototypeOf"; "propertyIsEnumerable";
    "toString"; "valueOf"; "__proto__"; "toLocaleString" ].

(** [validateAPIKey].  For a service whose name is inherited by the
    pattern table, [patterns[service].test] is not a function and the
    call throws. *)
Definition validateAPIKey (key : JS.value) (service : string) : JS.completion KeyCheck :=
  match key with
  | JS.Str text =>
      if negb (JS.truthy key)
      then JS.Return {| k_valid := false; k_reason := Some "API key is required" |}
      else if Nat.ltb (JS.length text) 20
      then JS.Return {| k_valid := false;
                        k_reason := Some "API key appears to be too short" |}
      else
        match pattern_of keyPatterns service with
        | Some pattern =>
            if negb (test no_flags pattern text)
            then JS.Return {| k_valid := false;
                              k_reason := Some ("API key format is invalid for " ++ service)%string |}
            else JS.Return {| k_valid := true; k_reason := None |}
        | None =>
            if JS.has inherited_names service
            then JS.Throw (JS.TypeError "patterns[service].test is not a function")
            else JS.Return {| k_valid := true; k_reason := None |}
        end
  | _ => JS.Return {| k_valid := false; k_reason := Some "API key is required" |}
  end.

(** A configuration object, as far as [validateConfiguration] reads it:
    whether [allowWrites] is [true], and the array [commands] when there
    is one. *)
Record Configuration : Type := {
  allowWrites : bool;
  commands : option (list string)
}.

Record ConfigIssue : Type := {
  ci_level : string;
  ci_field : string;
  ci_message : string
}.

Record ConfigCheck : Type := {
  c_valid : bool;
  c_issues : list ConfigIssue
}.

Definition thrown {A : Type} (c : JS.completion A) : bool :=
  match c with JS.Throw _ => true | JS.Return _ => false end.

Definition is_error (i : ConfigIssue) : bool := String.eqb (ci_level i) "error".

(** [validateConfiguration]; [None] is a configuration that is not an
    object. *)
Definition validateConfiguration (config : option Configuration) : ConfigCheck :=
  match config with
  | None =>
      {| c_valid := false;
         c_issues := [ {| ci_level := "error"; ci_field := "config";
                          ci_message := "Configuration must be an object" |} ] |}
  | Some config =>
      let issues :=
        if allowWrites config
        then [ {| ci_level := "error"; ci_field := "allowWrites";
                  ci_message := "Write operations cannot be enabled for security reasons" |} ]
        else [] in
      let issues :=
        match commands config with
        | Some commands =>
            issues
              ++ flat_map (fun command =>
                             if thrown (validateGitCommand command)
                             then [ {| ci_level := "error"; ci_field := "commands";
                                       ci_message :=
                                         ("Invalid command in configuration: " ++ command)%string |} ]
                             else [])
                          commands
        | None => issues
        end in
      {| c_valid := Nat.eqb (List.length (filter is_error issues)) 0;
         c_issues := issues |}
  end.

End SecurityManager.

(* ================================================================== *)
(** ** Repository (src/git/repository.js): what DiffAnalyzer calls *)
(* ================================================================== *)

Module Repository.

Record Commit : Type := {
  hash : string;
  abbrevHash : string;
  author : string;
  authorEmail : string;
  date : string;
  message : string;
  body : string
}.

(** The filter object; a key that was dropped is [None]. *)
Record Filters : Type := {
  commit : option string;
  fromCommit : option string;
  toCommit : option string;
  since : option string;
  until : option string;
  f_author : option string;
  file : option string;
  files : option string;
  exclude : option string
}.

Definition no_filters : Filters :=
  {| commit := None; fromCommit := None; toCommit := None; since := None; until := None;
     f_author := None; file := None; files := None; exclude := None |}.

(** The options of [git log] other than the count. *)
Record LogOptions : Type := {
  from : string;
  o_since : option string;
  o_until : option string;
  o_file : option string
}.

(** The git commands the code issues through simple-git. *)
Inductive Command : Type :=
| Log (options : LogOptions) (maxCount : nat)
| Show (ref filePath : string).

(** The repository as git answers about it: [listing o] is what
    [git log] lists for the options [o] when no count is given, the most
    recent commit first; [show ref path] is the content of the file at
    the ref, or [None] when [git show] fails. *)
Record Git : Type := {
  listing : LogOptions -> list Commit;
  show : string -> string -> option string
}.

(** Computations that issue git commands and may throw: the state is the
    list of the commands issued so far. *)
Definition M (A : Type) : Type := list Command -> JS.completion A * list Command.

Definition ret {A : Type} (a : A) : M A := fun tr => (JS.Return a, tr).

Definition bind {A B : Type} (c : M A) (k : A -> M B) : M B :=
  fun tr =>
    match c tr with
    | (JS.Return a, tr') => k a tr'
    | (JS.Throw e, tr') => (JS.Throw e, tr')
    end.

(** A call that may throw and issues no command. *)
Definition lift {A : Type} (c : JS.completion A) : M A := fun tr => (c, tr).

(** Issue a command. *)
Definition issue (c : Command) : M unit := fun tr => (JS.Return tt, tr ++ [c]).

Declare Scope repo_scope.
Delimit Scope repo_scope with repo.
Notation "x <- c ;; k" := (bind c (fun x => k))
  (at level 61, c at next level, right associativity) : repo_scope.
Notation "' pat <- c ;; k" := (bind c (fun x => match x with pat => k end))
  (at level 61, pat pattern, c at next level, right associativity) : repo_scope.
Notation "c ;; k" := (bind c (fun _ => k))
  (at level 61, right associativity) : repo_scope.

Local Open Scope repo_scope.

(** [for (const x of l) { acc.push(await body(x)) }] *)
Fixpoint mapM {A B : Type} (body : A -> M B) (l : list A) : M (list B) :=
  match l with
  | [] => ret []
  | x :: l' => y <- body x ;; ys <- mapM body l' ;; ret (y :: ys)
  end.

(** What [git log] lists for a count: simple-git passes [--max-count]
    only for a count that is truthy, so the count 0 gives the whole
    listing and another count its first entries. *)
Definition window (maxCount : nat) (l : list Commit) : list Commit :=
  match maxCount with
  | O => l
  | S _ => firstn maxCount l
  end.

(** [git.log(logOptions)] with [maxCount], for a command that git runs
    to its end; a [git log] that fails is not part of [Git]. *)
Definition git_log (g : Git) (o : LogOptions) (maxCount : nat) : M (list Commit) :=
  issue (Log o maxCount) ;; ret (window maxCount (listing g o)).

(** An option is set only when the filter is truthy. *)
Definition if_truthy (o : option string) : option string :=
  if JS.truthy_opt o then o else None.

Definition value_of (o : option string) : string :=
  match o with Some s => s | None => "" end.

Definition matches_commit (c : Commit) (prefix : string) : bool :=
  (JS.startsWith (hash c) prefix || JS.startsWith (abbrevHash c) prefix)%bool.

(** [commits.findIndex(p)] *)
Fixpoint findIndex {A : Type} (p : A -> bool) (l : list A) : option nat :=
  match l with
  | [] => None
  | x :: l' => if p x then Some 0
               else match findIndex p l' with
                    | Some i => Some (S i)
                    | None => None
                    end
  end.

(** [l.slice(start, end)] for indices within the list. *)
Definition slice {A : Type} (l : list A) (startIndex endIndex : nat) : list A :=
  firstn (endIndex - startIndex) (skipn startIndex l).

Definition filterCommitRange (commits : list Commit) (fromCommit toCommit : option string)
  : list Commit :=
  let startIndex :=
    if JS.truthy_opt fromCommit
    then match findIndex (fun c => matches_commit c (value_of fromCommit)) commits with
         | Some fromIndex => fromIndex
         | None => 0
         end
    else 0 in
  let endIndex :=
    if JS.truthy_opt toCommit
    then match findIndex (fun c => matches_commit c (value_of toCommit)) commits with
         | Some toIndex => toIndex + 1
         | None => List.length commits
         end
    else List.length commits in
  slice commits startIndex endIndex.

Definition getCommitHistory (g : Git) (branch : string) (limit : nat) (filters : Filters)
  : M (list Commit) :=
  lift (SecurityManager.validateGitCommand ("git log " ++ branch)) ;;
  let logOptions :=
    {| from := branch;
       o_since := if_truthy (since filters);
       o_until := if_truthy (until filters);
       o_file := if_truthy (file filters) |} in
  logs <- git_log g logOptions limit ;;
  let commits := logs in
  let commits :=
    if JS.truthy_opt (f_author filters)
    then filter (fun c => JS.includes (JS.toLowerCase (author c))
                                      (JS.toLowerCase (value_of (f_author filters))))
                commits
    else commits in
  let commits :=
    if (JS.truthy_opt (fromCommit filters) || JS.truthy_opt (toCommit filters))%bool
    then filterCommitRange commits (fromCommit filters) (toCommit filters)
    else commits in
  let commits :=
    if JS.truthy_opt (commit filters)
    then filter (fun c => matches_commit c (value_of (commit filters))) commits
    else commits in
  ret commits.

(** [getFileContent]: the command is validated, then [git show] is run;
    a failure of [git show] is caught and gives [null]. *)
Definition getFileContent (g : Git) (branch filePath : string) : M (option string) :=
  lift (SecurityManager.validateGitCommand ("git show " ++ branch ++ ":" ++ filePath)) ;;
  issue (Show branch filePath) ;;
  ret (show g branch filePath).

(** [statusMap[status] || 'unknown'].  For a name that the table
    inherits the lookup finds an object; the word object stands for it. *)
Definition mapFileStatus (status : string) : string :=
  if String.eqb status "A" then "added"
  else if String.eqb status "M" then "modified"
  else if String.eqb status "D" then "deleted"
  else if String.eqb status "R" then "renamed"
  else if String.eqb status "C" then "copied"
  else if String.eqb status "U" then "updated"
  else if JS.has SecurityManager.inherited_names status then "object"
  else "unknown".

(** An entry of the list that [parseDiffFiles] returns. *)
Record DiffFile : Type := {
  df_status : string;
  df_path : string
}.

(** A line of [git diff --name-status]: the letter A, M or D, white
    space, and the path. *)
Definition name_status_line : Regex.regex :=
  Regex.seqs [ Regex.Bol;
               Regex.Group 1 (Regex.Chr (Regex.AnyOf [Regex.ALit "A"; Regex.ALit "M";
                                                      Regex.ALit "D"]));
               Regex.ws1;
               Regex.Group 2 (Regex.Plus Regex.dot);
               Regex.Eol ].

Definition capture_or_empty (n : nat) (m : Regex.result) : string :=
  match Regex.capture n m with Some t => t | None => EmptyString end.

Definition parseDiffFiles (diff : string) : list DiffFile :=
  let lines := filter (fun line => negb (String.eqb (JS.trim line) EmptyString))
                      (JS.lines diff) in
  flat_map (fun line =>
              match Regex.exec Regex.no_flags name_status_line line with
              | Some m =>
                  [ {| df_status := mapFileStatus (capture_or_empty 1 m);
                       df_path := JS.trim (capture_or_empty 2 m) |} ]
              | None => []
              end)
           lines.

End Repository.

(* ================================================================== *)
(** ** DiffAnalyzer (second part of src/git/security.js) *)
(* ================================================================== *)

Module DiffAnalyzer.
Import Regex.
Import Repository.
Local Open Scope repo_scope.

(** An entry of [diff.files]. *)
Record File : Type := {
  file_path : string;
  file_status : string;
  file_additions : option nat;
  file_deletions : option nat;
  file_diff : option string
}.

Record Comparison : Type := {
  linesAdded : nat;
  linesRemoved : nat;
  sizeChange : Z
}.

(** The object [fileAnalysis.changes]: empty at first, replaced by the
    result of [analyzeCode], and given the key [comparison] for a
    modified file. *)
Record Changes : Type := {
  code : option CodeAnalyzer.Outcome;
  comparison : option Comparison
}.

Definition no_changes : Changes := {| code := None; comparison := None |}.

Record FunctionalChanges : Type := {
  addedFunctions : list string;
  removedFunctions : list string;
  modifiedFunctions : list string;
  addedClasses : list string;
  removedClasses : list string;
  addedDependencies : list string;
  removedDependencies : list string;
  purposeChange : option (list string * list string);   (* [{from, to}] or [null] *)
  complexityChange : Z
}.

Inductive Level : Type := low | medium | high.

Record Impact : Type := {
  score : Z;
  level : Level
}.

Record FileAnalysis : Type := {
  path : string;
  status : string;
  extension : string;
  language : string;
  changes : Changes;
  additions : nat;
  deletions : nat;
  diff : string;
  contentAnalysis : option FileContentAnalyzer.Analysis;
  functionalChanges : option FunctionalChanges;
  impact : option Impact
}.

(** [parts.length > 1 ? parts.pop() : ''] on [filePath.split('.')] *)
Definition getFileExtension (filePath : string) : string :=
  let parts := JS.split_on "." filePath in
  if Nat.ltb 1 (List.length parts) then last parts "" else "".

Definition extensionMap : list (string * string) :=
  [ ("js", "javascript"); ("jsx", "javascript"); ("ts", "typescript");
    ("tsx", "typescript"); ("py", "python"); ("java", "java"); ("cpp", "cpp");
    ("c", "c"); ("cs", "csharp"); ("go", "go"); ("rs", "rust"); ("rb", "ruby");
    ("php", "php"); ("swift", "swift"); ("kt", "kotlin"); ("scala", "scala");
    ("r", "r"); ("m", "objective-c"); ("lua", "lua"); ("dart", "dart");
    ("html", "html"); ("css", "css"); ("scss", "scss"); ("sass", "sass");
    ("less", "less"); ("json", "json"); ("xml", "xml"); ("yaml", "yaml");
    ("yml", "yaml"); ("md", "markdown"); ("sql", "sql"); ("sh", "shell");
    ("bash", "shell"); ("zsh", "shell"); ("dockerfile", "dockerfile");
    ("makefile", "makefile") ].

(** [detectLanguage].  For the two lower-case keys that every object
    inherits the lookup finds an object instead of a name; the string
    that object converts to when used as a key stands for it. *)
Definition detectLanguage (filePath : string) : string :=
  let extension := JS.toLowerCase (getFileExtension filePath) in
  match FileContentAnalyzer.lookup extensionMap extension with
  | Some name => name
  | None =>
      if String.eqb extension "constructor" then "function Object() { [native code] }"
      else if String.eqb extension "__proto__" then "[object Object]"
      else "unknown"
  end.

(** [changes?.complexity?.cyclomatic] *)
Definition cyclomatic_of (c : Changes) : option nat :=
  match code c with
  | Some (CodeAnalyzer.Report a) =>
      Some (CodeAnalyzer.cyclomatic (CodeAnalyzer.complexity a))
  | _ => None
  end.

(** [changes?.issues?.security?.length] *)
Definition security_length_of (c : Changes) : option nat :=
  match code c with
  | Some (CodeAnalyzer.Report a) =>
      Some (List.length (CodeAnalyzer.security (CodeAnalyzer.issues a)))
  | _ => None
  end.

(** [x > n] where [x] may be [undefined]. *)
Definition exceeds (x : option nat) (n : nat) : bool :=
  match x with Some v => Nat.ltb n v | None => false end.

(** [score += n] and [score *= f] when [cond] holds. *)
Definition add_if (cond : bool) (n : Q) (score : Q) : Q :=
  if cond then (score + n)%Q else score.
Definition mul_if (cond : bool) (f : Q) (score : Q) : Q :=
  if cond then (score * f)%Q else score.

Definition calculateImpact (fileAnalysis : FileAnalysis) : Impact :=
  let score := 0%Q in
  let score := add_if (String.eqb (status fileAnalysis) "added") 3 score in
  let score := add_if (String.eqb (status fileAnalysis) "deleted") 2 score in
  let score := add_if (String.eqb (status fileAnalysis) "modified") 1 score in
  let score := mul_if (JS.includes (path fileAnalysis) "test") (1 # 2) score in
  let score := mul_if (JS.includes (path fileAnalysis) "config") 2 score in
  let score := mul_if (JS.includes (path fileAnalysis) "security") 3 score in
  let score := mul_if (exceeds (cyclomatic_of (changes fileAnalysis)) 10) (3 # 2) score in
  let score := mul_if (exceeds (security_length_of (changes fileAnalysis)) 0) 3 score in
  {| score := JS.Math_round score;
     level := if JS.gt score 5 then high else if JS.gt score 2 then medium else low |}.

Definition compareVersions (sourceContent targetContent : string) : Comparison :=
  let sourceLines := List.length (JS.lines sourceContent) in
  let targetLines :=
    if negb (String.eqb targetContent "") then List.length (JS.lines targetContent) else 0 in
  {| linesAdded := Nat.max 0 (targetLines - sourceLines);
     linesRemoved := Nat.max 0 (sourceLines - targetLines);
     sizeChange := (Z.of_nat targetLines - Z.of_nat sourceLines)%Z |}.

(** [xs.forEach(x => { if (!others.has(x)) out.push(x) })] *)
Definition missing_from (others xs : list string) : list string :=
  filter (fun x => negb (JS.has others x)) xs.

Definition analyzeFunctionalChanges (oldContent newContent language : string)
  : M FunctionalChanges :=
  oldAnalysis <- lift (FileContentAnalyzer.analyzeFileContent "" (JS.Str oldContent) language) ;;
  newAnalysis <- lift (FileContentAnalyzer.analyzeFileContent "" (JS.Str newContent) language) ;;
  let oldFuncNames :=
    JS.new_Set (map FileContentAnalyzer.f_name (FileContentAnalyzer.functions oldAnalysis)) in
  let newFuncNames :=
    JS.new_Set (map FileContentAnalyzer.f_name (FileContentAnalyzer.functions newAnalysis)) in
  let oldClassNames :=
    JS.new_Set (map FileContentAnalyzer.c_name (FileContentAnalyzer.classes oldAnalysis)) in
  let newClassNames :=
    JS.new_Set (map FileContentAnalyzer.c_name (FileContentAnalyzer.classes newAnalysis)) in
  let oldDeps := JS.new_Set (FileContentAnalyzer.dependencies oldAnalysis) in
  let newDeps := JS.new_Set (FileContentAnalyzer.dependencies newAnalysis) in
  let oldPurpose := JS.join "," (FileContentAnalyzer.purpose oldAnalysis) in
  let newPurpose := JS.join "," (FileContentAnalyzer.purpose newAnalysis) in
  ret {| addedFunctions :=
           missing_from oldFuncNames
             (map FileContentAnalyzer.f_name (FileContentAnalyzer.functions newAnalysis));
         removedFunctions :=
           missing_from newFuncNames
             (map FileContentAnalyzer.f_name (FileContentAnalyzer.functions oldAnalysis));
         modifiedFunctions := [];
         addedClasses :=
           missing_from oldClassNames
             (map FileContentAnalyzer.c_name (FileContentAnalyzer.classes newAnalysis));
         removedClasses :=
           missing_from newClassNames
             (map FileContentAnalyzer.c_name (FileContentAnalyzer.classes oldAnalysis));
         addedDependencies := missing_from oldDeps newDeps;
         removedDependencies := missing_from newDeps oldDeps;
         purposeChange :=
           if negb (String.eqb oldPurpose newPurpose)
           then Some (FileContentAnalyzer.purpose oldAnalysis,
                      FileContentAnalyzer.purpose newAnalysis)
           else None;
         complexityChange :=
           (Z.of_nat (FileContentAnalyzer.complexity newAnalysis)
            - Z.of_nat (FileContentAnalyzer.complexity oldAnalysis))%Z |}.

Definition or_zero (n : option nat) : nat := match n with Some v => v | None => 0 end.

(** [content] is truthy: it is a string and not the empty one. *)
Definition present (content : option string) : bool := JS.truthy_opt content.

(** The body of the loop of [analyzeFiles]: what is done for one entry
    of [diff.files]. *)
Definition analyzeFile (g : Git) (file : File) (sourceBranch targetBranch : string)
           (filters : Filters) : M FileAnalysis :=
  let filePath := file_path file in
  let language := detectLanguage filePath in
  let changes := no_changes in
  let contentAnalysis := None in
  let functionalChanges := None in
  (* status added or modified *)
  '(contentAnalysis, changes) <-
    (if (String.eqb (file_status file) "added" || String.eqb (file_status file) "modified")%bool
     then
       content <- getFileContent g (if String.eqb (file_status file) "added"
                                    then sourceBranch else targetBranch) filePath ;;
       if present content
       then
         a <- lift (FileContentAnalyzer.analyzeFileContent
                      filePath (JS.Str (value_of content)) language) ;;
         ret (Some a,
              {| code := Some (CodeAnalyzer.analyzeCode (JS.Str (value_of content)) language);
                 comparison := None |})
       else ret (contentAnalysis, changes)
     else ret (contentAnalysis, changes)) ;;
  (* status modified *)
  '(changes, functionalChanges) <-
    (if String.eqb (file_status file) "modified"
     then
       sourceContent <- getFileContent g sourceBranch filePath ;;
       targetContent <- getFileContent g targetBranch filePath ;;
       if (present sourceContent && present targetContent)%bool
       then
         fc <- analyzeFunctionalChanges (value_of sourceContent) (value_of targetContent)
                                        language ;;
         ret ({| code := code changes;
                 comparison := Some (compareVersions (value_of sourceContent)
                                                     (value_of targetContent)) |},
              Some fc)
       else ret (changes, functionalChanges)
     else ret (changes, functionalChanges)) ;;
  (* status deleted *)
  contentAnalysis <-
    (if String.eqb (file_status file) "deleted"
     then
       content <- getFileContent g targetBranch filePath ;;
       if present content
       then
         a <- lift (FileContentAnalyzer.analyzeFileContent
                      filePath (JS.Str (value_of content)) language) ;;
         ret (Some a)
       else ret contentAnalysis
     else ret contentAnalysis) ;;
  let fileAnalysis :=
    {| path := filePath;
       status := file_status file;
       extension := getFileExtension filePath;
       language := language;
       changes := changes;
       additions := or_zero (file_additions file);
       deletions := or_zero (file_deletions file);
       diff := value_of (file_diff file);
       contentAnalysis := contentAnalysis;
       functionalChanges := functionalChanges;
       impact := None |} in
  ret {| path := path fileAnalysis;
         status := status fileAnalysis;
         extension := extension fileAnalysis;
         language := DiffAnalyzer.language fileAnalysis;
         changes := DiffAnalyzer.changes fileAnalysis;
         additions := additions fileAnalysis;
         deletions := deletions fileAnalysis;
         diff := diff fileAnalysis;
         contentAnalysis := DiffAnalyzer.contentAnalysis fileAnalysis;
         functionalChanges := DiffAnalyzer.functionalChanges fileAnalysis;
         impact := Some (calculateImpact fileAnalysis) |}.

Definition analyzeFiles (g : Git) (files : list File) (sourceBranch targetBranch : string)
           (filters : Filters) : M (list FileAnalysis) :=
  mapM (fun file => analyzeFile g file sourceBranch targetBranch filters) files.

Definition getCommitsBetweenBranches (g : Git) (sourceBranch targetBranch : string)
           (filters : Filters) : M (list Commit) :=
  sourceCommits <- getCommitHistory g sourceBranch 500 filters ;;
  targetCommits <- getCommitHistory g targetBranch 500 no_filters ;;
  let targetHashes := JS.new_Set (map hash targetCommits) in
  let uniqueCommits :=
    filter (fun commit => negb (JS.has targetHashes (hash commit))) sourceCommits in
  if JS.truthy_opt (commit filters)
  then ret (filter (fun c => matches_commit c (value_of (commit filters))) uniqueCommits)
  else ret uniqueCommits.

(** The optional scope [(\(.+\))?] and the colon of a conventional
    commit subject. *)
Definition scope_colon : regex :=
  seqs [Opt (Group 1 (seqs [C "("; Plus dot; C ")"])); C ":"].

(** The table [types] of [detectCommitType], in the order of its keys. *)
Definition types : list (string * regex) :=
  map (fun type => (type, seqs [Bol; Lit type; scope_colon]))
      [ "feat"; "fix"; "docs"; "style"; "refactor"; "test"; "chore"; "perf"; "ci";
        "build"; "revert" ].

Definition detectCommitType (message : string) : string :=
  match find (fun entry => test flag_i (snd entry) message) types with
  | Some (type, _) => type
  | None =>
      if test flag_i (Lit "merge") message then "merge"
      else if test flag_i (Lit "hotfix") message then "hotfix"
      else if test flag_i (alts [Lit "bugfix"; Lit "bug"]) message then "fix"
      else if test flag_i (Lit "feature") message then "feat"
      else "other"
  end.

Record CommitPattern : Type := {
  p_type : string;
  p_confidence : string;
  p_description : string
}.

Definition conventional : regex :=
  seqs [Bol;
        Group 1 (oneOf ["feat"; "fix"; "docs"; "style"; "refactor"; "test"; "chore";
                        "perf"; "ci"; "build"]);
        Opt (Group 2 (seqs [C "("; Plus dot; C ")"])); C ":"].

Definition ticket : regex :=
  seqs [WordB; Plus (Chr (AnyOf [ARange "A" "Z"])); C "-"; Plus cd; WordB].

Definition detectCommitPatterns (commits : list Commit) : list CommitPattern :=
  let conventionalCommits :=
    filter (fun c => test flag_i conventional (message c)) commits in
  let hasTicketRefs := filter (fun c => test no_flags ticket (message c)) commits in
  (if JS.fgt (JS.float_of_nat (List.length conventionalCommits))
             (PrimFloat.mul (JS.float_of_nat (List.length commits)) JS.seven_tenths)
   then [ {| p_type := "conventional-commits"; p_confidence := "high";
             p_description := "Project follows Conventional Commits specification" |} ]
   else [])
  ++ (if JS.fgt (JS.float_of_nat (List.length hasTicketRefs))
                (PrimFloat.mul (JS.float_of_nat (List.length commits)) 0.5%float)
      then [ {| p_type := "ticket-references"; p_confidence := "medium";
                p_description := "Commits frequently reference issue/ticket numbers" |} ]
      else []).

(** A JavaScript object used as a map from strings, as an association
    list in the order in which the keys were added. *)
Fixpoint entry_of {V : Type} (m : list (string * V)) (key : string) : option V :=
  match m with
  | [] => None
  | (k, v) :: m' => if String.eqb k key then Some v else entry_of m' key
  end.

(** [m[key] = f(m[key])], a new key going to the end. *)
Fixpoint update_entry {V : Type} (m : list (string * V)) (key : string)
         (f : option V -> V) : list (string * V) :=
  match m with
  | [] => [(key, f None)]
  | (k, v) :: m' =>
      if String.eqb k key then (k, f (Some v)) :: m'
      else (k, v) :: update_entry m' key f
  end.

Record AuthorEntry : Type := {
  a_count : nat;
  a_commits : list string
}.

Record TimelineEntry : Type := {
  t_hash : string;
  t_date : string;
  t_message : string;
  t_author : string
}.

Record CommitAnalysis : Type := {
  total : nat;
  byAuthor : list (string * AuthorEntry);
  byType : list (string * nat);
  timeline : list TimelineEntry;
  patterns : list CommitPattern
}.

(** The body of the loop of [analyzeCommits] on the state
    [(byAuthor, byType, timeline)].  For an author whose name the object
    [byAuthor] inherits, the entry found is not one the loop made:
    it has no array [commits], and [push] throws. *)
Definition commit_step
           (st : list (string * AuthorEntry) * list (string * nat) * list TimelineEntry)
           (c : Commit)
  : JS.completion (list (string * AuthorEntry) * list (string * nat) * list TimelineEntry) :=
  let '(authors, types_seen, timeline) := st in
  if JS.has SecurityManager.inherited_names (author c)
  then JS.Throw (JS.TypeError "Cannot read properties of undefined (reading 'push')")
  else
    let authors :=
      update_entry authors (author c)
        (fun old =>
           match old with
           | Some e => {| a_count := S (a_count e);
                          a_commits := a_commits e ++ [abbrevHash c] |}
           | None => {| a_count := 1; a_commits := [abbrevHash c] |}
           end) in
    let type := detectCommitType (message c) in
    let types_seen :=
      update_entry types_seen type
        (fun old => match old with Some n => n + 1 | None => 0 + 1 end) in
    let timeline :=
      timeline ++ [ {| t_hash := abbrevHash c; t_date := date c; t_message := message c;
                       t_author := author c |} ] in
    JS.Return (authors, types_seen, timeline).

Fixpoint commit_loop
         (st : list (string * AuthorEntry) * list (string * nat) * list TimelineEntry)
         (commits : list Commit)
  : JS.completion (list (string * AuthorEntry) * list (string * nat) * list TimelineEntry) :=
  match commits with
  | [] => JS.Return st
  | c :: commits' =>
      match commit_step st c with
      | JS.Return st' => commit_loop st' commits'
      | JS.Throw e => JS.Throw e
      end
  end.

Definition analyzeCommits (commits : list Commit) : JS.completion CommitAnalysis :=
  match commit_loop ([], [], []) commits with
  | JS.Return (authors, types_seen, timeline) =>
      JS.Return {| total := List.length commits;
                   byAuthor := authors;
                   byType := types_seen;
                   timeline := timeline;
                   patterns := detectCommitPatterns commits |}
  | JS.Throw e => JS.Throw e
  end.

(** [diff.summary] *)
Record Summary : Type := {
  filesChanged : nat;
  insertions : nat;
  deletions_total : nat
}.

Record Insight : Type := {
  i_type : string;
  i_category : string;
  i_message : string;
  i_detail : string
}.

Definition criticalPatterns : list regex :=
  let entry name :=
    seqs [Bol; Opt (Group 1 (Lit "src/")); Lit name; C ".";
          Group 2 (oneOf ["js"; "ts"; "jsx"; "tsx"]); Eol] in
  [ entry "index";
    entry "main";
    entry "app";
    Seq (Lit "package.json") Eol;
    Seq (Lit "yarn.lock") Eol;
    Seq (Lit "package-lock.json") Eol;
    Lit ".env";
    Lit "config/";
    Lit "database/";
    Lit "auth";
    Lit "security";
    Lit "payment" ].

Definition detectHotspots (files : list File) : list string :=
  map file_path
      (filter (fun file =>
                 existsb (fun pattern => test no_flags pattern (file_path file))
                         criticalPatterns)
              files).

Definition number (n : nat) : string := NilZero.string_of_uint (Nat.to_uint n).

Definition generateInsights (summary : Summary) (files : list File) (commits : list Commit)
  : list Insight :=
  let insights := [] in
  let insights :=
    if Nat.ltb 100 (filesChanged summary)
    then insights
           ++ [ {| i_type := "warning"; i_category := "size";
                   i_message := "Large number of files changed";
                   i_detail :=
                     (number (filesChanged summary)
                        ++ " files modified. Consider breaking into smaller changes.")%string |} ]
    else insights in
  let insights :=
    if Nat.ltb (insertions summary * 2) (deletions_total summary)
    then insights
           ++ [ {| i_type := "info"; i_category := "refactoring";
                   i_message := "Significant code reduction";
                   i_detail :=
                     ("Removed " ++ number (deletions_total summary) ++ " lines while adding "
                        ++ number (insertions summary) ++ ". Good refactoring!")%string |} ]
    else insights in
  let hotspots := detectHotspots files in
  if Nat.ltb 0 (List.length hotspots)
  then insights
         ++ [ {| i_type := "attention"; i_category := "hotspots";
                 i_message := "Critical files modified";
                 i_detail := ("Changes to critical files: " ++ JS.join ", " hotspots)%string |} ]
  else insights.

Record ComplexityRollup : Type := {
  m_total : nat;
  m_average : Q;
  m_high : nat
}.

Record QualityRollup : Type := {
  m_issues : nat;
  m_securityIssues : nat;
  m_performanceIssues : nat
}.

Record CoverageRollup : Type := {
  m_hasTests : bool;
  m_testFiles : nat;
  m_sourceFiles : nat
}.

Record Rollup : Type := {
  m_complexity : ComplexityRollup;
  m_quality : QualityRollup;
  m_coverage : CoverageRollup
}.

(** [file.changes?.complexity] and [file.changes?.issues], present when
    the file has a code analysis. *)
Definition report_of (r : FileAnalysis) : option CodeAnalyzer.Analysis :=
  match code (changes r) with
  | Some (CodeAnalyzer.Report a) => Some a
  | _ => None
  end.

(** The body of the loop of [calculateMetrics] on the six counters. *)
Definition rollup_step (st : nat * nat * (nat * nat * nat) * (nat * nat)) (r : FileAnalysis)
  : nat * nat * (nat * nat * nat) * (nat * nat) :=
  let '(sum, highCount, (issues, securityIssues, performanceIssues), (testFiles, sourceFiles)) :=
    st in
  let '(sum, highCount) :=
    match report_of r with
    | Some a =>
        let cyclomatic := CodeAnalyzer.cyclomatic (CodeAnalyzer.complexity a) in
        (sum + cyclomatic, if Nat.ltb 10 cyclomatic then S highCount else highCount)
    | None => (sum, highCount)
    end in
  let '(issues, securityIssues, performanceIssues) :=
    match report_of r with
    | Some a =>
        (issues + List.length (CodeAnalyzer.bugs (CodeAnalyzer.issues a)),
         securityIssues + List.length (CodeAnalyzer.security (CodeAnalyzer.issues a)),
         performanceIssues + List.length (CodeAnalyzer.performance (CodeAnalyzer.issues a)))
    | None => (issues, securityIssues, performanceIssues)
    end in
  let '(testFiles, sourceFiles) :=
    if (JS.includes (path r) "test" || JS.includes (path r) "spec")%bool
    then (S testFiles, sourceFiles)
    else (testFiles, S sourceFiles) in
  (sum, highCount, (issues, securityIssues, performanceIssues), (testFiles, sourceFiles)).

Definition calculateMetrics (files : list FileAnalysis) : Rollup :=
  let '(sum, highCount, (issues, securityIssues, performanceIssues), (testFiles, sourceFiles)) :=
    fold_left rollup_step files (0, 0, (0, 0, 0), (0, 0)) in
  {| m_complexity :=
       {| m_total := sum;
          m_average :=
            if Nat.ltb 0 (List.length files)
            then (JS.num sum / JS.num (List.length files))%Q else 0%Q;
          m_high := highCount |};
     m_quality :=
       {| m_issues := issues; m_securityIssues := securityIssues;
          m_performanceIssues := performanceIssues |};
     m_coverage :=
       {| m_hasTests := Nat.ltb 0 testFiles; m_testFiles := testFiles;
          m_sourceFiles := sourceFiles |} |}.

End DiffAnalyzer.

(* ================================================================== *)
(** ** The specification's wording, for comparison with the code *)
(* ================================================================== *)

Module Spec.
Import DiffAnalyzer.

(** Impact scoring: the base score of a status. *)
Definition base (status : string) : Q :=
  if String.eqb status "added" then 3
  else if String.eqb status "deleted" then 2
  else if String.eqb status "modified" then 1
  else 0.

(** A multiplier that applies when [cond] holds. *)
Definition factor (cond : bool) (f : Q) : Q := if cond then f else 1.

(** Impact scoring: the product of the base score and the multipliers. *)
Definition product (r : FileAnalysis) : Q :=
  (base (status r)
   * factor (JS.includes (path r) "test") (1 # 2)
   * factor (JS.includes (path r) "config") 2
   * factor (JS.includes (path r) "security") 3
   * factor (exceeds (cyclomatic_of (changes r)) 10) (3 # 2)
   * factor (exceeds (security_length_of (changes r)) 0) 3)%Q.

(** Impact scoring: the level of a number. *)
Definition bucket (x : Q) : Level :=
  if JS.gt x 5 then high else if JS.gt x 2 then medium else low.

(** The record [r] with the cyclomatic complexity of its code analysis
    set to [n]; every other field is the one of [r]. *)
Definition with_cyclomatic (n : nat) (r : FileAnalysis) : FileAnalysis :=
  {| path := path r;
     status := status r;
     extension := extension r;
     language := language r;
     changes :=
       {| code :=
            match code (changes r) with
            | Some (CodeAnalyzer.Report a) =>
                Some (CodeAnalyzer.Report
                        {| CodeAnalyzer.language := CodeAnalyzer.language a;
                           CodeAnalyzer.metrics := CodeAnalyzer.metrics a;
                           CodeAnalyzer.complexity :=
                             {| CodeAnalyzer.cyclomatic := n;
                                CodeAnalyzer.cognitive :=
                                  CodeAnalyzer.cognitive (CodeAnalyzer.complexity a);
                                CodeAnalyzer.nesting :=
                                  CodeAnalyzer.nesting (CodeAnalyzer.complexity a);
                                CodeAnalyzer.halstead :=
                                  CodeAnalyzer.halstead (CodeAnalyzer.complexity a) |};
                           CodeAnalyzer.structure := CodeAnalyzer.structure a;
                           CodeAnalyzer.issues := CodeAnalyzer.issues a;
                           CodeAnalyzer.quality := CodeAnalyzer.quality a |})
            | other => other
            end;
          comparison := comparison (changes r) |};
     additions := additions r;
     deletions := deletions r;
     diff := diff r;
     contentAnalysis := contentAnalysis r;
     functionalChanges := functionalChanges r;
     impact := impact r |}.

(** The record has a code analysis, hence a cyclomatic complexity. *)
Definition analysed (r : FileAnalysis) : Prop :=
  exists a, code (changes r) = Some (CodeAnalyzer.Report a).

(** Content that looks binary: it holds a NUL character. *)
Definition binary_looking (content : string) : bool :=
  existsb (Ascii.eqb "000") (JS.chars content).

(** The empty structural record. *)
Definition empty_structure : FileContentAnalyzer.Structure :=
  {| FileContentAnalyzer.s_lines := 0; FileContentAnalyzer.s_imports := 0;
     FileContentAnalyzer.s_exports := 0; FileContentAnalyzer.s_functions := 0;
     FileContentAnalyzer.s_classes := 0; FileContentAnalyzer.s_interfaces := 0;
     FileContentAnalyzer.s_comments := 0; FileContentAnalyzer.s_emptyLines := 0 |}.

(** The classification of the content of a file at a ref: absent when
    the content cannot be read or is empty. *)
Definition classification (g : Repository.Git) (ref filePath : string)
  : option FileContentAnalyzer.Analysis :=
  match Repository.show g ref filePath with
  | Some text =>
      if String.eqb text EmptyString then None
      else match FileContentAnalyzer.analyzeFileContent
                   filePath (JS.Str text) (detectLanguage filePath) with
           | JS.Return a => Some a
           | JS.Throw _ => None
           end
  | None => None
  end.

(** The static analysis of the content of a file at a ref: the empty
    object when the content cannot be read or is empty. *)
Definition static_analysis (g : Repository.Git) (ref filePath : string) : Changes :=
  match Repository.show g ref filePath with
  | Some text =>
      if String.eqb text EmptyString then no_changes
      else {| code := Some (CodeAnalyzer.analyzeCode (JS.Str text) (detectLanguage filePath));
              comparison := None |}
  | None => no_changes
  end.

(** The command that [getFileContent] validates. *)
Definition show_command (ref filePath : string) : string :=
  ("git show " ++ ref ++ ":" ++ filePath)%string.

(** The command that [getCommitHistory] validates. *)
Definition log_command (branch : string) : string := ("git log " ++ branch)%string.

(** The options [getCommitHistory] passes to [git log]: the branch and
    those of the date and file filters that are set. *)
Definition log_options (branch : string) (filters : Repository.Filters)
  : Repository.LogOptions :=
  {| Repository.from := branch;
     Repository.o_since := Repository.if_truthy (Repository.since filters);
     Repository.o_until := Repository.if_truthy (Repository.until filters);
     Repository.o_file := Repository.if_truthy (Repository.file filters) |}.

(** Quality score: the sum of the deductions.  The comment-to-code
    ratio [commentLines / (codeLines || 1)] is below one tenth when ten
    times the comment lines are fewer than the code lines (or than 1 when
    there is no code line). *)
Definition deductions (cyclomatic nesting totalLines commentLines codeLines : nat) : Z :=
  ((if Nat.ltb 10 cyclomatic then 10 else 0)
   + (if Nat.ltb 20 cyclomatic then 10 else 0)
   + (if Nat.ltb 5 nesting then 5 else 0)
   + (if Nat.ltb 500 totalLines then 5 else 0)
   + (if Nat.ltb 1000 totalLines then 10 else 0)
   + (if Nat.ltb (10 * commentLines) (JS.or_one codeLines) then 5 else 0))%Z.

Definition clamp (x : Z) : Z := Z.max 0 (Z.min 100 x).

(** The grades in order, F lowest. *)
Definition rank (g : CodeAnalyzer.Grade) : nat :=
  match g with
  | CodeAnalyzer.A => 4
  | CodeAnalyzer.B => 3
  | CodeAnalyzer.C => 2
  | CodeAnalyzer.D => 1
  | CodeAnalyzer.F => 0
  end.

End Spec.

(* ================================================================== *)
(** ** Concrete inputs *)
(* ================================================================== *)

Module Examples.
Import Repository DiffAnalyzer.

(** A repository with one file, the same at every ref. *)
Definition one_file (content : string) : Git :=
  {| listing := fun _ => []; show := fun _ _ => Some content |}.

Definition entry (filePath status : string) : File :=
  {| file_path := filePath; file_status := status; file_additions := None;
     file_deletions := None; file_diff := None |}.

(** What [analyzeFile] returns, or [None] when it throws. *)
Definition analysis_of (g : Git) (file : File) : option FileAnalysis :=
  match fst (analyzeFile g file "feature" "main" no_filters []) with
  | JS.Return r => Some r
  | JS.Throw _ => None
  end.

(** Ten conditionals in a row: cyclomatic complexity 11. *)
Definition ten_ifs : string :=
  "if (a) b; if (a) b; if (a) b; if (a) b; if (a) b; if (a) b; if (a) b; if (a) b; if (a) b; if (a) b;".

(** An added test file with cyclomatic complexity above 10. *)
Definition added_test_file : option FileAnalysis :=
  analysis_of (one_file ten_ifs) (entry "test.js" "added").

(** A modified test file and a modified source file. *)
Definition modified_test_file : option FileAnalysis :=
  analysis_of (one_file "x = 1;") (entry "test.js" "modified").

Definition modified_source_file : option FileAnalysis :=
  analysis_of (one_file "x = 1;") (entry "src/app.js" "modified").

(** The record of a file that was not analysed at all. *)
Definition bare (filePath status : string) : FileAnalysis :=
  {| path := filePath; status := status; extension := getFileExtension filePath;
     language := detectLanguage filePath; changes := no_changes; additions := 0;
     deletions := 0; diff := EmptyString; contentAnalysis := None;
     functionalChanges := None; impact := None |}.

(** The two snapshots of the end-to-end scenario. *)
Definition old_content : string := "function foo(){}".
Definition new_content : string :=
  "function foo(){} function bar(){} const axios = require('axios');".

(** The first bytes of a PNG image. *)
Definition png_signature : string :=
  JS.str ["137"; "P"; "N"; "G"; "013"; "010"; "026"; "010"; "000"; "000"; "000"; "013"]%char.

(** A source text with every defect the quality score looks at: more
    than twenty conditionals, brackets nested six deep, more than a
    thousand lines and no comment. *)
Fixpoint copies (n : nat) (piece : string) : string :=
  match n with
  | O => EmptyString
  | S n' => (piece ++ copies n' piece)%string
  end.

Definition newline : string := String "010" EmptyString.

Definition worst_source : string :=
  ("((((((x))))))" ++ newline ++ copies 21 "if (a) b; " ++ copies 1000 newline)%string.

(** A commit with the given hash and subject. *)
Definition commit_with (h subject : string) : Commit :=
  {| hash := h; abbrevHash := h; author := "dev"; authorEmail := "dev@example.org";
     date := "2024-01-01"; message := subject; body := EmptyString |}.

(** The commits numbered [first], [first + 1], ..., [n] of them. *)
Fixpoint numbered (first n : nat) : list Commit :=
  match n with
  | O => []
  | S n' =>
      commit_with ("c" ++ NilZero.string_of_uint (Nat.to_uint first))%string "work"
        :: numbered (S first) n'
  end.

(** A repository whose branch main lists 501 commits, numbered 0 to 500,
    and whose branch feature lists one commit of its own followed by the
    oldest of them, number 500. *)
Definition long_history : Git :=
  {| listing := fun o => if String.eqb (from o) "main" then numbered 0 501
                         else commit_with "f1" "feat: new" :: numbered 500 1;
     show := fun _ _ => None |}.

(** A repository whose branch feature lists 501 commits of its own and
    whose branch main lists none. *)
Definition long_feature : Git :=
  {| listing := fun o => if String.eqb (from o) "feature" then numbered 0 501 else [];
     show := fun _ _ => None |}.

(** Ninety commits, sixty-three of them conventional. *)
Definition ninety_commits : list Commit :=
  repeat (commit_with "a" "feat: add") 63 ++ repeat (commit_with "b" "update") 27.

Definition the (o : option FileAnalysis) : FileAnalysis :=
  match o with Some r => r | None => bare EmptyString EmptyString end.

End Examples.

(* ================================================================== *)
(** ** Properties *)
(* ================================================================== *)

(** *** Impact scoring *)

Section Impact.
Import DiffAnalyzer.

(** [Math.round] gives the integer nearest to its argument, the upper one
    when two are equally near. *)
Lemma Math_round_nearest (x : Q) :
  (inject_Z (JS.Math_round x) - (1 # 2) <= x
   /\ x < inject_Z (JS.Math_round x) + (1 # 2))%Q.
Proof.
  unfold JS.Math_round.
  pose proof (Qfloor_le (x + (1 # 2))) as Hlow.
  pose proof (Qlt_floor (x + (1 # 2))) as Hhigh.
  rewrite inject_Z_plus in Hhigh.
  change (inject_Z 1) with 1%Q in Hhigh.
  split; lra.
Qed.

(** Case analysis on a status, as the three tests of the code see it. *)
Ltac status_cases s :=
  destruct (String.eqb_spec s "added") as [-> | ?];
  [ | destruct (String.eqb_spec s "deleted") as [-> | ?];
      [ | destruct (String.eqb_spec s "modified") as [-> | ?] ] ].

(** The number the code accumulates is the product of the base score and
    the multipliers that apply, whatever the record. *)
Lemma impact_fields (r : FileAnalysis) :
  score (calculateImpact r) = JS.Math_round (Spec.product r)
  /\ level (calculateImpact r) = Spec.bucket (Spec.product r).
Proof.
  destruct r as [p s e l c a d df ca fc im].
  unfold calculateImpact, Spec.product, Spec.base.
  cbn [path status changes score level].
  destruct (JS.includes p "test"), (JS.includes p "config"),
    (JS.includes p "security"), (exceeds (cyclomatic_of c) 10),
    (exceeds (security_length_of c) 0);
    status_cases s; vm_compute; split; reflexivity.
Qed.

(** C1, as amended.  For every file record the impact is the base score
    (3 for added, 2 for deleted, 1 for modified, 0 for any other status)
    multiplied by 0.5, 2 and 3 when the path contains test, config and
    security, by 1.5 when the cyclomatic complexity exceeds 10 and by 3
    when a security issue was found.  The score field is that product
    rounded to the nearest integer; the level is taken from the product
    itself, before rounding: high above 5, medium above 2, low
    otherwise. *)
Theorem calculateImpact_product_and_level (r : FileAnalysis) :
  score (calculateImpact r) = JS.Math_round (Spec.product r)
  /\ (inject_Z (score (calculateImpact r)) - (1 # 2) <= Spec.product r
      /\ Spec.product r < inject_Z (score (calculateImpact r)) + (1 # 2))%Q
  /\ level (calculateImpact r) = Spec.bucket (Spec.product r).
Proof.
  destruct (impact_fields r) as [Hs Hl].
  split; [exact Hs | split; [ | exact Hl]].
  rewrite Hs. apply Math_round_nearest.
Qed.

(** C1 as stated fails: for an added file [test.js] of cyclomatic
    complexity 11 the product is 2.25, the score is 2 and the level is
    medium, while the level of the rounded score would be low. *)
Lemma level_of_rounded_score_differs :
  exists r,
    Examples.added_test_file = Some r
    /\ impact r = Some (calculateImpact r)
    /\ (Spec.product r == 9 # 4)%Q
    /\ score (calculateImpact r) = 2%Z
    /\ level (calculateImpact r) = medium
    /\ Spec.bucket (inject_Z (score (calculateImpact r))) = low.
Proof.
  eexists. split; [vm_compute; reflexivity | ].
  repeat split; vm_compute; reflexivity.
Qed.

(** C3, as amended.  Of two modified-file records that differ only in
    their cyclomatic complexity, 15 against 5, the one with 15 has a
    product 1.5 times as large and a score that is at least as high; the
    score is strictly higher except when the path contains test, does not
    contain config, and it is not the case that both the path contains
    security and a security issue was found (the products 0.5 and 1.5
    round to the same integers as 0.75 and 2.25). *)
Theorem impact_complexity_monotone (r : FileAnalysis) :
  status r = "modified" ->
  Spec.analysed r ->
  let r5 := Spec.with_cyclomatic 5 r in
  let r15 := Spec.with_cyclomatic 15 r in
  (Spec.product r15 == (3 # 2) * Spec.product r5)%Q
  /\ (score (calculateImpact r5) <= score (calculateImpact r15))%Z
  /\ ((score (calculateImpact r5) < score (calculateImpact r15))%Z
      <-> ~ (JS.includes (path r) "test" = true
             /\ JS.includes (path r) "config" = false
             /\ (JS.includes (path r) "security"
                 && exceeds (security_length_of (changes r)) 0)%bool = false)).
Proof.
  intros Hst [a Ha] r5 r15.
  destruct (impact_fields r5) as [-> _].
  destruct (impact_fields r15) as [-> _].
  subst r5 r15.
  destruct r as [p s e l c x d df ca fc im].
  cbn [status] in Hst. subst s.
  destruct c as [cd cmp]. cbn [changes code] in Ha. subst cd.
  unfold Spec.product, Spec.with_cyclomatic, cyclomatic_of, security_length_of.
  cbn [path status changes code comparison CodeAnalyzer.complexity
       CodeAnalyzer.cyclomatic CodeAnalyzer.issues].
  generalize (exceeds (Some (List.length (CodeAnalyzer.security (CodeAnalyzer.issues a)))) 0).
  intros i.
  destruct (JS.includes p "test"), (JS.includes p "config"),
    (JS.includes p "security"), i;
    (split; [vm_compute; reflexivity | split; [vm_compute; discriminate | ]]);
    vm_compute;
    (split;
     [ intros Hlt [H1 [H2 H3]];
       first [discriminate Hlt | discriminate H1 | discriminate H2 | discriminate H3]
     | intros Hn;
       first [reflexivity | exfalso; apply Hn; repeat split; reflexivity] ]).
Qed.

(** The theorem at a modified source file: there the score rises from 1
    to 2. *)
Lemma impact_complexity_monotone_at_source_file :
  let r := Examples.the Examples.modified_source_file in
  (score (calculateImpact (Spec.with_cyclomatic 5 r)) = 1
   /\ score (calculateImpact (Spec.with_cyclomatic 15 r)) = 2)%Z
  /\ (score (calculateImpact (Spec.with_cyclomatic 5 r))
      < score (calculateImpact (Spec.with_cyclomatic 15 r)))%Z.
Proof.
  split; [split; vm_compute; reflexivity | ].
  apply (@impact_complexity_monotone (Examples.the Examples.modified_source_file)).
  - vm_compute; reflexivity.
  - eexists; vm_compute; reflexivity.
  - intros [H _]; vm_compute in H; discriminate H.
Defined.

(** C3 as stated fails: for a modified file [test.js] without security
    issues the score is 1 with complexity 5 and 1 with complexity 15. *)
Lemma impact_not_strictly_monotone :
  exists r,
    Examples.modified_test_file = Some r
    /\ status r = "modified"
    /\ cyclomatic_of (changes (Spec.with_cyclomatic 5 r)) = Some 5
    /\ cyclomatic_of (changes (Spec.with_cyclomatic 15 r)) = Some 15
    /\ score (calculateImpact (Spec.with_cyclomatic 5 r)) = 1%Z
    /\ score (calculateImpact (Spec.with_cyclomatic 15 r)) = 1%Z.
Proof.
  eexists. split; [vm_compute; reflexivity | ].
  repeat split; vm_compute; reflexivity.
Qed.

End Impact.

(** *** Functional changes *)

Section FunctionalChanges.
Import Repository DiffAnalyzer.

(** The change set of the end-to-end scenario, whatever the language. *)
Lemma scenario_change_set (language : string) (tr : list Command) :
  analyzeFunctionalChanges Examples.old_content Examples.new_content language tr
  = (JS.Return
       {| addedFunctions := ["bar"; "bar"];
          removedFunctions := [];
          modifiedFunctions := [];
          addedClasses := [];
          removedClasses := [];
          addedDependencies := ["axios"];
          removedDependencies := [];
          purposeChange := Some (["汎用モジュール"], ["API通信"]);
          complexityChange := 0 |},
     tr).
Proof.
  vm_compute.
  match goal with |- context [if ?b then _ else _] => destruct b end; reflexivity.
Qed.

(** C2, as amended.  On the old content [function foo(){}] and the new
    content [function foo(){} function bar(){} const axios =
    require('axios');] the functional-change computation returns a change
    set in which bar is the one name among the added functions, the added
    dependencies are exactly axios, no function and no class is removed,
    the complexity change is the complexity of the new snapshot minus that
    of the old one (here 0), and the purpose change is set, from the
    generic purpose to the API-communication purpose that the word axios
    brings. *)
Theorem scenario_functional_changes (language : string) (tr : list Command) :
  exists fc,
    analyzeFunctionalChanges Examples.old_content Examples.new_content language tr
    = (JS.Return fc, tr)
    /\ (forall name, In name (addedFunctions fc) <-> name = "bar")
    /\ addedDependencies fc = ["axios"]
    /\ removedFunctions fc = []
    /\ removedClasses fc = []
    /\ complexityChange fc
       = (Z.of_nat (FileContentAnalyzer.calculateComplexity Examples.new_content)
          - Z.of_nat (FileContentAnalyzer.calculateComplexity Examples.old_content))%Z
    /\ purposeChange fc
       = Some (FileContentAnalyzer.detectFilePurpose "" Examples.old_content,
               FileContentAnalyzer.detectFilePurpose "" Examples.new_content)
    /\ FileContentAnalyzer.detectFilePurpose "" Examples.old_content = ["汎用モジュール"]
    /\ FileContentAnalyzer.detectFilePurpose "" Examples.new_content = ["API通信"].
Proof.
  eexists. split; [apply scenario_change_set | ].
  cbn [addedFunctions addedDependencies removedFunctions removedClasses
       complexityChange purposeChange].
  split.
  { intros name; split.
    - intros [H | [H | []]]; symmetry; exact H.
    - intros ->; left; reflexivity. }
  repeat split; vm_compute; reflexivity.
Qed.

(** C2 as stated fails: the code lists bar twice, once for the function
    declaration and once more because the method pattern also matches
    [bar(){], and it reports a purpose change. *)
Lemma scenario_differs_from_stated :
  exists fc,
    analyzeFunctionalChanges Examples.old_content Examples.new_content "javascript" []
    = (JS.Return fc, [])
    /\ addedFunctions fc = ["bar"; "bar"]
    /\ addedFunctions fc <> ["bar"]
    /\ purposeChange fc = Some (["汎用モジュール"], ["API通信"])
    /\ purposeChange fc <> None.
Proof.
  eexists. split; [apply scenario_change_set | ].
  cbn [addedFunctions purposeChange].
  repeat split; discriminate.
Qed.

End FunctionalChanges.

(** *** The content classifier *)

Section ContentClassifier.
Import FileContentAnalyzer.

Lemma split_on_nonempty (sep : ascii) (s : string) :
  1 <= List.length (JS.split_on sep s).
Proof.
  induction s as [| c s IH]; cbn [JS.split_on].
  - cbn; lia.
  - destruct (Ascii.eqb c sep).
    + cbn [List.length]; lia.
    + destruct (JS.split_on sep s); cbn [List.length] in *; lia.
Qed.

Lemma fold_structure_lines (lines : list string) (st : Structure) :
  s_lines (fold_left structure_step lines st) = s_lines st.
Proof.
  revert st; induction lines as [| line lines IH]; intros st; cbn [fold_left].
  - reflexivity.
  - rewrite IH. reflexivity.
Qed.

(** The line count of the structural record is never zero. *)
Lemma analyzeStructure_lines (content language : string) :
  s_lines (analyzeStructure content language) = List.length (JS.lines content)
  /\ 1 <= s_lines (analyzeStructure content language).
Proof.
  unfold analyzeStructure.
  rewrite fold_structure_lines. cbn [s_lines].
  split; [reflexivity | apply split_on_nonempty].
Qed.

Lemma first_type_tag category types content tag :
  first_type category types content = Some tag ->
  In tag (map (fun t => (category ++ "-" ++ fst t)%string) types).
Proof.
  induction types as [| [type patterns] more IH]; cbn [first_type map].
  - discriminate.
  - destruct (existsb _ patterns).
    + intros [= <-]. left; reflexivity.
    + intros H. right. apply IH, H.
Qed.

Lemma first_category_tag table content tag :
  first_category table content = Some tag -> In tag (tags_of table).
Proof.
  induction table as [| [category types] more IH]; cbn [first_category tags_of flat_map].
  - discriminate.
  - destruct (first_type category types content) as [tag' |] eqn:E.
    + intros [= <-]. apply in_or_app; left.
      apply (first_type_tag _ _ _ E).
    + intros H. apply in_or_app; right. apply IH, H.
Qed.

Lemma lookup_value m key v : lookup m key = Some v -> In v (map snd m).
Proof.
  induction m as [| [k w] m IH]; cbn [lookup map snd].
  - discriminate.
  - destruct (String.eqb k key).
    + intros [= <-]. left; reflexivity.
    + intros H. right. apply IH, H.
Qed.

(** No pattern tag and no entry of the extension map is the word
    unknown. *)
Lemma unknown_is_no_tag : ~ In "unknown" (tags_of initializePatterns).
Proof.
  vm_compute. intros H.
  repeat (destruct H as [H | H]; [discriminate H | ]). exact H.
Qed.

Lemma unknown_is_no_language : ~ In "unknown" (map snd typeMap).
Proof.
  vm_compute. intros H.
  repeat (destruct H as [H | H]; [discriminate H | ]). exact H.
Qed.

(** When the type is unknown, neither the extension map nor a content
    pattern applied. *)
Lemma detectFileType_unknown (filePath content : string) :
  detectFileType filePath content = "unknown" ->
  lookup typeMap (NodePath.extname filePath) = None
  /\ first_category initializePatterns content = None.
Proof.
  unfold detectFileType.
  repeat match goal with
         | |- context [if Regex.test ?f ?r ?t then _ else _] =>
             destruct (Regex.test f r t); [discriminate | ]
         end.
  destruct (first_category initializePatterns content) as [tag |] eqn:Ec.
  - intros ->. exfalso. apply unknown_is_no_tag.
    apply (first_category_tag _ _ Ec).
  - destruct (lookup typeMap (NodePath.extname filePath)) as [t |] eqn:El.
    + intros ->. exfalso. apply unknown_is_no_language.
      apply (lookup_value _ _ El).
    + intros _. split; reflexivity.
Qed.

(** [detectFileType] tries the file-name rules in order, then the content
    patterns, then the extension table. *)
Lemma detectFileType_by_rules (filePath content : string) :
  detectFileType filePath content
  = match find (fun rule => Regex.test Regex.no_flags (fst rule) (NodePath.basename filePath))
               fileNameRules with
    | Some rule => snd rule
    | None =>
        match first_category initializePatterns content with
        | Some tag => tag
        | None =>
            match lookup typeMap (NodePath.extname filePath) with
            | Some t => t
            | None => "unknown"
            end
        end
    end.
Proof.
  unfold detectFileType, fileNameRules. cbv zeta. cbn [find fst snd].
  repeat match goal with
         | |- context [if Regex.test ?f ?r ?t then _ else _] =>
             destruct (Regex.test f r t); [reflexivity | ]
         end.
  reflexivity.
Qed.

(** The type is unknown exactly when nothing applies: no file-name rule,
    no content pattern and no entry of the extension table. *)
Lemma detectFileType_unknown_iff (filePath content : string) :
  detectFileType filePath content = "unknown"
  <-> (forall rule, In rule fileNameRules ->
                    Regex.test Regex.no_flags (fst rule) (NodePath.basename filePath) = false)
      /\ first_category initializePatterns content = None
      /\ lookup typeMap (NodePath.extname filePath) = None.
Proof.
  rewrite detectFileType_by_rules.
  destruct (find _ fileNameRules) as [rule | ] eqn:Hf.
  - apply find_some in Hf. destruct Hf as [Hin Hm]. split.
    + intros E. exfalso. unfold fileNameRules in Hin. cbn [In] in Hin.
      repeat (destruct Hin as [<- | Hin]; [discriminate E | ]). exact Hin.
    + intros [Hnone _]. rewrite (Hnone rule Hin) in Hm. discriminate Hm.
  - pose proof (find_none _ _ Hf) as Hnone. cbv beta in Hnone.
    destruct (first_category initializePatterns content) as [tag | ] eqn:Ec.
    + split.
      * intros ->. exfalso. apply unknown_is_no_tag. apply (first_category_tag _ _ Ec).
      * intros [_ [E _]]. discriminate E.
    + destruct (lookup typeMap (NodePath.extname filePath)) as [t | ] eqn:El.
      * split.
        -- intros ->. exfalso. apply unknown_is_no_language. apply (lookup_value _ _ El).
        -- intros [_ [_ E]]. discriminate E.
      * split; [intros _ | reflexivity]. repeat split. exact Hnone.
Qed.

(** C4, as amended.  For every path string and every content that is a
    string, analyzeFileContent returns a FileSnapshotAnalysis without
    throwing, and it throws on a content that is not a string.  Content
    that is not text gets no treatment of its own: the type is unknown
    exactly when no file-name rule, no content pattern and no entry of
    the extension map applies, and the structural record is the one
    computed from the lines of the content, with their number, at least
    1, as line count. *)
Theorem analyzeFileContent_returns_on_strings (filePath language : string) :
  (forall text,
      exists a,
        analyzeFileContent filePath (JS.Str text) language = JS.Return a
        /\ type a = detectFileType filePath text
        /\ (type a = "unknown"
            <-> (forall rule,
                    In rule fileNameRules ->
                    Regex.test Regex.no_flags (fst rule) (NodePath.basename filePath) = false)
                /\ first_category initializePatterns text = None
                /\ lookup typeMap (NodePath.extname filePath) = None)
        /\ structure a = analyzeStructure text language
        /\ s_lines (structure a) = List.length (JS.lines text)
        /\ 1 <= s_lines (structure a))
  /\ (forall content,
         (forall text, content <> JS.Str text) ->
         exists e, analyzeFileContent filePath content language = JS.Throw e).
Proof.
  split.
  - intros text. eexists. split; [reflexivity | ].
    cbn [type structure].
    split; [reflexivity | ].
    split; [apply detectFileType_unknown_iff | ].
    split; [reflexivity | ].
    apply analyzeStructure_lines.
  - intros [ | | text] H.
    + eexists; reflexivity.
    + eexists; reflexivity.
    + exfalso. apply (H text). reflexivity.
Qed.

(** C4 as stated fails: the first bytes of a PNG image, stored under a
    name that ends in .js, are classified as javascript with a
    structural record of three lines. *)
Lemma binary_content_is_not_unknown :
  Spec.binary_looking Examples.png_signature = true
  /\ exists a,
       analyzeFileContent "assets/logo.js" (JS.Str Examples.png_signature) "javascript"
       = JS.Return a
       /\ type a = "javascript"
       /\ type a <> "unknown"
       /\ s_lines (structure a) = 3
       /\ structure a <> Spec.empty_structure.
Proof.
  split; [reflexivity | ].
  eexists. split; [vm_compute; reflexivity | ].
  cbn [type structure s_lines].
  repeat split; discriminate.
Qed.

End ContentClassifier.

(** *** The static analyzer *)

Section StaticAnalyzer.
Import CodeAnalyzer.
Local Open Scope Z_scope.

(** The floating-point test [commentRatio < 0.1] on counts. *)
Lemma ratio_below_tenth (comments codeLines : nat) :
  JS.lt (JS.num comments / JS.num (JS.or_one codeLines))%Q (1 # 10)
  = Nat.ltb (10 * comments) (JS.or_one codeLines).
Proof.
  assert (Hpos : (1 <= JS.or_one codeLines)%nat)
    by (destruct codeLines; cbn; lia).
  set (d := JS.or_one codeLines) in *.
  assert (Hd : (0 < JS.num d)%Q).
  { unfold JS.num. change 0%Q with (inject_Z 0). rewrite <- Zlt_Qlt. lia. }
  unfold JS.lt.
  destruct (Nat.ltb_spec (10 * comments) d) as [Hlt | Hge].
  - apply Bool.negb_true_iff.
    destruct (Qle_bool (1 # 10) (JS.num comments / JS.num d)) eqn:E; [ | reflexivity].
    apply Qle_bool_iff in E. exfalso.
    assert (Hlt' : (JS.num comments / JS.num d < 1 # 10)%Q).
    { apply Qlt_shift_div_r; [exact Hd | ].
      unfold JS.num, Qlt, Qmult, inject_Z. cbn [Qnum Qden]. lia. }
    apply (Qlt_not_le _ _ Hlt' E).
  - apply Bool.negb_false_iff. apply Qle_bool_iff.
    apply Qle_shift_div_l; [exact Hd | ].
    unfold JS.num, Qle, Qmult, inject_Z. cbn [Qnum Qden]. lia.
Qed.

(** The score before the clamp is 100 minus the deductions. *)
Lemma deductions_bounds (cy ne tl cm cl : nat) :
  0 <= Spec.deductions cy ne tl cm cl <= 45.
Proof.
  unfold Spec.deductions.
  destruct (Nat.ltb 10 cy), (Nat.ltb 20 cy), (Nat.ltb 5 ne), (Nat.ltb 500 tl),
    (Nat.ltb 1000 tl), (Nat.ltb (10 * cm) (JS.or_one cl)); lia.
Qed.

Lemma assessQuality_score (content language : string) :
  score (assessQuality content language)
  = Spec.clamp (100 - Spec.deductions
                        (cyclomatic (calculateComplexity content language))
                        (nesting (calculateComplexity content language))
                        (totalLines (calculateMetrics content))
                        (commentLines (calculateMetrics content))
                        (codeLines (calculateMetrics content))).
Proof.
  unfold assessQuality. cbn [score].
  rewrite ratio_below_tenth.
  unfold Spec.clamp, Spec.deductions, deduct.
  generalize (calculateComplexity content language) as c.
  generalize (calculateMetrics content) as m.
  intros m c.
  destruct (Nat.ltb 10 (cyclomatic c)), (Nat.ltb 20 (cyclomatic c)),
    (Nat.ltb 5 (nesting c)), (Nat.ltb 500 (totalLines m)),
    (Nat.ltb 1000 (totalLines m)),
    (Nat.ltb (10 * commentLines m) (JS.or_one (codeLines m))); reflexivity.
Qed.

Lemma assessQuality_grade (content language : string) :
  grade (assessQuality content language) = getGrade (score (assessQuality content language)).
Proof. reflexivity. Qed.

(** The grade as a function of the score. *)
Lemma getGrade_breakpoints (s : Z) :
  (getGrade s = A <-> 90 <= s)
  /\ (getGrade s = B <-> 80 <= s < 90)
  /\ (getGrade s = C <-> 70 <= s < 80)
  /\ (getGrade s = D <-> 60 <= s < 70)
  /\ (getGrade s = F <-> s < 60).
Proof.
  unfold getGrade.
  destruct (Z.leb_spec 90 s); [ | destruct (Z.leb_spec 80 s);
    [ | destruct (Z.leb_spec 70 s); [ | destruct (Z.leb_spec 60 s)]]];
    repeat split; intros; try discriminate; try lia; try reflexivity.
Qed.

Lemma getGrade_monotone (s1 s2 : Z) :
  s1 <= s2 -> (Spec.rank (getGrade s1) <= Spec.rank (getGrade s2))%nat.
Proof.
  intros H. unfold getGrade.
  destruct (Z.leb_spec 90 s1), (Z.leb_spec 80 s1), (Z.leb_spec 70 s1), (Z.leb_spec 60 s1),
    (Z.leb_spec 90 s2), (Z.leb_spec 80 s2), (Z.leb_spec 70 s2), (Z.leb_spec 60 s2);
    cbn [Spec.rank]; lia.
Qed.

(** C6.  For every content the quality score is 100 minus 10 when the
    cyclomatic complexity exceeds 10, a further 10 when it exceeds 20, 5
    when the nesting exceeds 5, 5 when the total lines exceed 500, a
    further 10 when they exceed 1000, and 5 when the comment-to-code ratio
    is below 0.1, clamped to the range 0 to 100; the grade is a monotone
    function of the score with the breakpoints 90, 80, 70 and 60, so that
    90 gives A, 89 B, 79 C, 69 D and 59 F. *)
Theorem assessQuality_score_and_grade (content language : string) :
  let m := calculateMetrics content in
  let c := calculateComplexity content language in
  let q := assessQuality content language in
  score q = Spec.clamp (100 - Spec.deductions (cyclomatic c) (nesting c) (totalLines m)
                                              (commentLines m) (codeLines m))
  /\ 0 <= score q <= 100
  /\ grade q = getGrade (score q)
  /\ (forall s1 s2, s1 <= s2 -> (Spec.rank (getGrade s1) <= Spec.rank (getGrade s2))%nat)
  /\ (forall s, (getGrade s = A <-> 90 <= s)
                /\ (getGrade s = B <-> 80 <= s < 90)
                /\ (getGrade s = C <-> 70 <= s < 80)
                /\ (getGrade s = D <-> 60 <= s < 70)
                /\ (getGrade s = F <-> s < 60))
  /\ getGrade 90 = A /\ getGrade 89 = B /\ getGrade 79 = C /\ getGrade 69 = D
  /\ getGrade 59 = F.
Proof.
  intros m c q. subst m c q.
  split; [apply assessQuality_score | ].
  split; [rewrite assessQuality_score; unfold Spec.clamp; lia | ].
  split; [apply assessQuality_grade | ].
  split; [exact getGrade_monotone | ].
  split; [exact getGrade_breakpoints | ].
  repeat split; reflexivity.
Qed.

(** C10.  For every content the quality score is at least 55: the
    deductions sum to at most 45, the clamp changes nothing, and the grade
    F comes only with a score from 55 to 59. *)
Theorem assessQuality_score_at_least_55 (content language : string) :
  let m := calculateMetrics content in
  let c := calculateComplexity content language in
  let q := assessQuality content language in
  let d := Spec.deductions (cyclomatic c) (nesting c) (totalLines m)
                           (commentLines m) (codeLines m) in
  0 <= d <= 45
  /\ score q = 100 - d
  /\ Spec.clamp (100 - d) = 100 - d
  /\ 55 <= score q <= 100
  /\ (grade q = F -> 55 <= score q <= 59).
Proof.
  intros m c q d. subst m c q.
  pose proof (deductions_bounds (cyclomatic (calculateComplexity content language))
                (nesting (calculateComplexity content language))
                (totalLines (calculateMetrics content))
                (commentLines (calculateMetrics content))
                (codeLines (calculateMetrics content))) as Hd.
  fold d in Hd.
  assert (Hc : Spec.clamp (100 - d) = 100 - d) by (unfold Spec.clamp; lia).
  assert (Hs : score (assessQuality content language) = 100 - d)
    by (rewrite assessQuality_score; exact Hc).
  split; [exact Hd | ].
  split; [exact Hs | ].
  split; [exact Hc | ].
  split; [lia | ].
  intros HF. rewrite assessQuality_grade in HF.
  apply (getGrade_breakpoints (score (assessQuality content language))) in HF.
  lia.
Qed.

(** The bound is attained, and with it the grade F. *)
Example worst_source_scores_55 :
  score (assessQuality Examples.worst_source "javascript") = 55
  /\ grade (assessQuality Examples.worst_source "javascript") = F.
Proof. split; vm_compute; reflexivity. Qed.

(** The value of [analyzeCode]: the error marker exactly when the content
    is absent or empty, and the record of the content otherwise. *)
Lemma analyzeCode_value (content : JS.value) (language : string) :
  ((exists msg, analyzeCode content language = Error msg)
   <-> content = JS.Undefined \/ content = JS.Null \/ content = JS.Str EmptyString)
  /\ (forall text,
         content = JS.Str text -> text <> EmptyString ->
         analyzeCode content language
         = Report {| language := language;
                     metrics := calculateMetrics text;
                     complexity := calculateComplexity text language;
                     structure := analyzeStructure text language;
                     issues := detectIssues text language;
                     quality := assessQuality text language |}).
Proof.
  split.
  - split.
    + intros [msg H]. destruct content as [ | | text].
      * left; reflexivity.
      * right; left; reflexivity.
      * right; right. destruct text as [| ch text]; [reflexivity | ].
        unfold analyzeCode in H. cbn [JS.truthy String.eqb negb] in H. discriminate H.
    + intros [-> | [-> | ->]]; eexists; reflexivity.
  - intros text -> Hne.
    destruct text as [| ch text]; [contradiction Hne; reflexivity | ].
    reflexivity.
Qed.

Lemma extractOperands_by_patterns (content language : string) :
  extractOperands content language
  = flat_map (fun pattern => map Regex.whole (Regex.matchAll Regex.no_flags pattern content))
             operandPatterns.
Proof.
  unfold extractOperands, operandPatterns. cbv zeta. cbn [flat_map].
  rewrite app_nil_r. reflexivity.
Qed.

(** A text of [n] line feeds has [n + 1] lines. *)
Lemma lines_of_line_feeds (n : nat) :
  List.length (JS.lines (Examples.copies n Examples.newline)) = S n.
Proof.
  unfold JS.lines. induction n as [| n IH]; [reflexivity | ].
  change (Examples.copies (S n) Examples.newline)
    with (String "010" (Examples.copies n Examples.newline)).
  cbn [JS.split_on Ascii.eqb Bool.eqb]. cbn [List.length]. rewrite IH. reflexivity.
Qed.

(** C8.  analyzeCode returns the error marker exactly when the content is
    absent or empty.  For a non-empty content it returns the record with
    the metrics, complexity, structure, issues and quality of that
    content as long as no array it spreads over the arguments of a call
    is longer than the engine accepts; a content with more lines than
    that makes [Math.max(...lines.map(...))] throw a RangeError, as does
    the content made of one more line feed than the bound. *)
Theorem analyzeCode_throws_on_long_content (max_arguments : nat) (language : string) :
  (forall content,
      (exists msg,
          analyzeCode_completion max_arguments content language = JS.Return (Error msg))
      <-> content = JS.Undefined \/ content = JS.Null \/ content = JS.Str EmptyString)
  /\ (forall text,
         text <> EmptyString ->
         Forall (fun size => (size <= max_arguments)%nat) (spread_sizes text language) ->
         analyzeCode_completion max_arguments (JS.Str text) language
         = JS.Return (Report {| language := language;
                                metrics := calculateMetrics text;
                                complexity := calculateComplexity text language;
                                structure := analyzeStructure text language;
                                issues := detectIssues text language;
                                quality := assessQuality text language |}))
  /\ (forall text,
         text <> EmptyString ->
         (max_arguments < List.length (JS.lines text))%nat ->
         exists msg,
           analyzeCode_completion max_arguments (JS.Str text) language
           = JS.Throw (JS.RangeError msg))
  /\ (let text := Examples.copies (S max_arguments) Examples.newline in
      text <> EmptyString
      /\ exists msg,
          analyzeCode_completion max_arguments (JS.Str text) language
          = JS.Throw (JS.RangeError msg)).
Proof.
  assert (forall text,
             text <> EmptyString ->
             (max_arguments < List.length (JS.lines text))%nat ->
             exists msg,
               analyzeCode_completion max_arguments (JS.Str text) language
               = JS.Throw (JS.RangeError msg)) as Hlong.
  { intros text Hne Hlen. unfold analyzeCode_completion. cbn [JS.truthy].
    destruct (String.eqb_spec text EmptyString) as [E | _]; [contradiction | ].
    cbn [negb]. unfold spread_sizes. cbn [app forallb].
    apply Nat.leb_gt in Hlen. rewrite Hlen. cbn [andb]. eexists. reflexivity. }
  split; [ | split; [ | split; [exact Hlong | ]]].
  - intros content. split.
    + intros [msg H]. destruct content as [ | | text].
      * left; reflexivity.
      * right; left; reflexivity.
      * right; right.
        destruct (String.eqb_spec text EmptyString) as [E | Hne]; [rewrite E; reflexivity | ].
        exfalso. unfold analyzeCode_completion in H. cbn [JS.truthy] in H.
        destruct (String.eqb_spec text EmptyString) as [E | _]; [contradiction | ].
        cbn [negb] in H.
        destruct (forallb _ (spread_sizes text language)); [ | discriminate H].
        destruct (analyzeCode_value (JS.Str text) language) as [_ Hv].
        rewrite (Hv text eq_refl Hne) in H. discriminate H.
    + intros [-> | [-> | ->]]; eexists; reflexivity.
  - intros text Hne Hall. unfold analyzeCode_completion. cbn [JS.truthy].
    destruct (String.eqb_spec text EmptyString) as [E | _]; [contradiction | ].
    cbn [negb].
    assert (forallb (fun size => Nat.leb size max_arguments) (spread_sizes text language)
            = true) as Hb.
    { apply forallb_forall. intros size Hin. apply Nat.leb_le.
      exact (proj1 (Forall_forall _ _) Hall size Hin). }
    rewrite Hb.
    destruct (analyzeCode_value (JS.Str text) language) as [_ Hv].
    rewrite (Hv text eq_refl Hne). reflexivity.
  - cbv zeta. split; [discriminate | ].
    apply Hlong; [discriminate | ]. rewrite lines_of_line_feeds. lia.
Qed.

(** On an engine that accepts 1000 arguments, a text of 1001 line feeds
    makes [analyzeCode] throw, and the same text without its last line
    feed is analysed. *)
Example analyzeCode_at_the_bound :
  (exists msg,
      analyzeCode_completion 1000 (JS.Str (Examples.copies 1001 Examples.newline))
                             "javascript"
      = JS.Throw (JS.RangeError msg))
  /\ exists a,
      analyzeCode_completion 1000 (JS.Str (Examples.copies 999 Examples.newline))
                             "javascript"
      = JS.Return (Report a).
Proof.
  split; eexists; vm_compute; reflexivity.
Qed.

End StaticAnalyzer.

(** *** Reading the repository *)

Section Reads.
Import Repository DiffAnalyzer.

Local Arguments FileContentAnalyzer.analyzeFileContent : simpl never.
Local Arguments CodeAnalyzer.analyzeCode : simpl never.
Local Arguments SecurityManager.validateGitCommand : simpl never.
Local Arguments calculateImpact : simpl never.
Local Arguments detectLanguage : simpl never.
Local Arguments getFileExtension : simpl never.

(** Run the monadic code as far as the known values allow. *)
Ltac step :=
  unfold bind, ret, lift, present, JS.truthy_opt;
  cbv beta iota zeta delta [negb orb andb value_of];
  cbn [path status extension language changes additions deletions diff
       contentAnalysis functionalChanges impact code comparison].

(** A validated [git show] is issued and its result returned; a blocked
    one is not issued. *)
Lemma getFileContent_valid g branch filePath b :
  SecurityManager.validateGitCommand (Spec.show_command branch filePath) = JS.Return b ->
  getFileContent g branch filePath
  = fun tr => (JS.Return (show g branch filePath), tr ++ [Show branch filePath]).
Proof.
  intros H. unfold getFileContent. fold (Spec.show_command branch filePath).
  rewrite H. reflexivity.
Qed.

Lemma getFileContent_blocked g branch filePath e :
  SecurityManager.validateGitCommand (Spec.show_command branch filePath) = JS.Throw e ->
  getFileContent g branch filePath = fun tr => (JS.Throw e, tr).
Proof.
  intros H. unfold getFileContent. fold (Spec.show_command branch filePath).
  rewrite H. reflexivity.
Qed.

Lemma analyzeFileContent_string filePath text language :
  exists a, FileContentAnalyzer.analyzeFileContent filePath (JS.Str text) language
            = JS.Return a.
Proof. eexists. reflexivity. Qed.

(** C5.  What analyzeFiles does for one changed file depends on its
    status: for an added file the one git show it issues reads the content
    at the source ref, and that content is classified and analysed; for a
    deleted file the one git show reads the content at the target ref, and
    that content is classified only; for a renamed file no content is read
    and nothing is analysed.  (When the security manager rejects the
    command, git show is not issued and the analysis stops with that
    error.) *)
Theorem analyzeFile_reads_by_status
        (g : Git) (file : File) (sourceBranch targetBranch : string)
        (filters : Filters) (tr : list Command) :
  let filePath := file_path file in
  let run := analyzeFile g file sourceBranch targetBranch filters tr in
  (file_status file = "added" ->
   match SecurityManager.validateGitCommand (Spec.show_command sourceBranch filePath) with
   | JS.Return _ =>
       exists r, run = (JS.Return r, tr ++ [Show sourceBranch filePath])
                 /\ contentAnalysis r = Spec.classification g sourceBranch filePath
                 /\ changes r = Spec.static_analysis g sourceBranch filePath
                 /\ functionalChanges r = None
   | JS.Throw e => run = (JS.Throw e, tr)
   end)
  /\ (file_status file = "deleted" ->
      match SecurityManager.validateGitCommand (Spec.show_command targetBranch filePath) with
      | JS.Return _ =>
          exists r, run = (JS.Return r, tr ++ [Show targetBranch filePath])
                    /\ contentAnalysis r = Spec.classification g targetBranch filePath
                    /\ changes r = no_changes
                    /\ functionalChanges r = None
      | JS.Throw e => run = (JS.Throw e, tr)
      end)
  /\ (file_status file = "renamed" ->
      exists r, run = (JS.Return r, tr)
                /\ contentAnalysis r = None
                /\ changes r = no_changes
                /\ functionalChanges r = None).
Proof.
  intros filePath run. subst run.
  split; [ | split]; intros Hst.
  - unfold analyzeFile. rewrite Hst. fold filePath.
    change (String.eqb "added" "added") with true.
    change (String.eqb "added" "modified") with false.
    change (String.eqb "added" "deleted") with false.
    destruct (SecurityManager.validateGitCommand (Spec.show_command sourceBranch filePath))
      as [b | e] eqn:Hv.
    + rewrite (getFileContent_valid g _ _ Hv).
      unfold Spec.classification, Spec.static_analysis.
      destruct (show g sourceBranch filePath) as [text |]; step.
      * destruct (String.eqb text EmptyString); step.
        -- eexists. split; [reflexivity | ]. repeat split.
        -- destruct (analyzeFileContent_string filePath text (detectLanguage filePath))
             as [a Ha].
           rewrite Ha. step.
           eexists. split; [reflexivity | ]. repeat split.
      * eexists. split; [reflexivity | ]. repeat split.
    + rewrite (getFileContent_blocked g _ _ Hv). reflexivity.
  - unfold analyzeFile. rewrite Hst. fold filePath.
    change (String.eqb "deleted" "added") with false.
    change (String.eqb "deleted" "modified") with false.
    change (String.eqb "deleted" "deleted") with true.
    destruct (SecurityManager.validateGitCommand (Spec.show_command targetBranch filePath))
      as [b | e] eqn:Hv.
    + rewrite (getFileContent_valid g _ _ Hv).
      unfold Spec.classification.
      destruct (show g targetBranch filePath) as [text |]; step.
      * destruct (String.eqb text EmptyString); step.
        -- eexists. split; [reflexivity | ]. repeat split.
        -- destruct (analyzeFileContent_string filePath text (detectLanguage filePath))
             as [a Ha].
           rewrite Ha. step.
           eexists. split; [reflexivity | ]. repeat split.
      * eexists. split; [reflexivity | ]. repeat split.
    + rewrite (getFileContent_blocked g _ _ Hv). reflexivity.
  - unfold analyzeFile. rewrite Hst.
    change (String.eqb "renamed" "added") with false.
    change (String.eqb "renamed" "modified") with false.
    change (String.eqb "renamed" "deleted") with false.
    step.
    eexists. split; [reflexivity | ]. repeat split.
Qed.

(** The theorem at an added file of a one-file repository: the content
    is read at the source ref, here feature. *)
Lemma analyzeFile_reads_added_at_source :
  exists r,
    analyzeFile (Examples.one_file "x = 1;") (Examples.entry "src/a.js" "added")
                "feature" "main" no_filters []
    = (JS.Return r, [Show "feature" "src/a.js"])
    /\ functionalChanges r = None.
Proof.
  pose proof (analyzeFile_reads_by_status
                (Examples.one_file "x = 1;") (Examples.entry "src/a.js" "added")
                "feature" "main" no_filters []) as H.
  cbv zeta in H. destruct H as [Hadded _].
  specialize (Hadded eq_refl).
  change (SecurityManager.validateGitCommand
            (Spec.show_command "feature"
               (file_path (Examples.entry "src/a.js" "added"))))
    with (@JS.Return bool true) in Hadded.
  destruct Hadded as [r [Hrun [_ [_ Hfc]]]].
  exists r. split; [exact Hrun | exact Hfc].
Defined.

Lemma In_firstn {A : Type} (n : nat) (l : list A) (x : A) :
  In x (firstn n l) -> In x l.
Proof.
  intros H. rewrite <- (firstn_skipn n l). apply in_or_app. left. exact H.
Qed.

Lemma In_skipn {A : Type} (n : nat) (l : list A) (x : A) :
  In x (skipn n l) -> In x l.
Proof.
  intros H. rewrite <- (firstn_skipn n l). apply in_or_app. right. exact H.
Qed.

Lemma filterCommitRange_incl commits fromCommit toCommit :
  incl (filterCommitRange commits fromCommit toCommit) commits.
Proof.
  unfold filterCommitRange, slice. intros c H.
  apply In_firstn in H. apply In_skipn in H. exact H.
Qed.

(** Membership in a [Set] built from an array is membership in the
    array. *)
Lemma has_cons (y : string) (l : list string) (x : string) :
  JS.has (y :: l) x = (String.eqb x y || JS.has l x)%bool.
Proof. reflexivity. Qed.

Lemma has_dedupe_from (l seen : list string) (x : string) :
  (JS.has seen x || JS.has (JS.dedupe_from seen l) x)%bool
  = (JS.has seen x || JS.has l x)%bool.
Proof.
  revert seen. induction l as [| y l IH]; intros seen; cbn [JS.dedupe_from].
  - reflexivity.
  - destruct (JS.has seen y) eqn:Hy.
    + rewrite IH, has_cons.
      destruct (String.eqb_spec x y) as [-> | Hne].
      * rewrite Hy. reflexivity.
      * reflexivity.
    + specialize (IH (y :: seen)).
      rewrite !has_cons in *.
      destruct (String.eqb x y), (JS.has seen x); cbn [orb] in *;
        try reflexivity; exact IH.
Qed.

Lemma has_new_Set (l : list string) (x : string) :
  JS.has (JS.new_Set l) x = JS.has l x.
Proof. apply (has_dedupe_from l [] x). Qed.

Lemma has_In (l : list string) (x : string) : JS.has l x = true <-> In x l.
Proof.
  unfold JS.has. rewrite existsb_exists. split.
  - intros [y [Hin Heq]]. apply String.eqb_eq in Heq. subst y. exact Hin.
  - intros H. exists x. split; [exact H | apply String.eqb_refl].
Qed.

(** What [getCommitHistory] returns when the command is allowed: commits
    among those that git lists for the count [limit], all of them
    matching the commit filter when there is one. *)
Lemma getCommitHistory_valid g branch limit filters b :
  SecurityManager.validateGitCommand (Spec.log_command branch) = JS.Return b ->
  exists commits,
    getCommitHistory g branch limit filters
    = (fun tr => (JS.Return commits, tr ++ [Log (Spec.log_options branch filters) limit]))
    /\ incl commits (window limit (listing g (Spec.log_options branch filters)))
    /\ (JS.truthy_opt (commit filters) = true ->
        forallb (fun c => matches_commit c (value_of (commit filters))) commits = true)
    /\ (JS.truthy_opt (f_author filters) = false ->
        JS.truthy_opt (fromCommit filters) = false ->
        JS.truthy_opt (toCommit filters) = false ->
        JS.truthy_opt (commit filters) = false ->
        commits = window limit (listing g (Spec.log_options branch filters))).
Proof.
  intros Hv. unfold getCommitHistory. fold (Spec.log_command branch).
  rewrite Hv. fold (Spec.log_options branch filters).
  set (recent := window limit (listing g (Spec.log_options branch filters))).
  eexists. split; [reflexivity | ].
  fold recent.
  split; [ | split].
  - destruct (JS.truthy_opt (f_author filters)),
      (JS.truthy_opt (fromCommit filters) || JS.truthy_opt (toCommit filters))%bool,
      (JS.truthy_opt (commit filters));
      repeat first [ apply incl_refl
                   | eapply incl_tran; [apply incl_filter | ]
                   | eapply incl_tran; [apply filterCommitRange_incl | ] ].
  - intros ->. apply forallb_filter.
  - intros -> -> -> ->. reflexivity.
Qed.



(** A commit of the source branch that is older than its 500 most recent
    ones is not reported, although the target branch does not have it. *)
Example commit_501_of_source_is_lost :
  In "c500" (map hash (listing Examples.long_feature (Spec.log_options "feature" no_filters)))
  /\ exists commits,
       fst (getCommitsBetweenBranches Examples.long_feature "feature" "main" no_filters [])
       = JS.Return commits
       /\ List.length commits = 500
       /\ JS.has (map hash commits) "c500" = false.
Proof.
  split.
  - apply has_In. vm_compute. reflexivity.
  - eexists. split; [vm_compute; reflexivity | ].
    split; vm_compute; reflexivity.
Qed.

(** [analyzeFiles] runs the body of its loop on the files in order. *)
Lemma analyzeFiles_cons g file files sourceBranch targetBranch filters :
  analyzeFiles g (file :: files) sourceBranch targetBranch filters
  = bind (analyzeFile g file sourceBranch targetBranch filters)
         (fun r => bind (analyzeFiles g files sourceBranch targetBranch filters)
                        (fun rs => ret (r :: rs))).
Proof. reflexivity. Qed.

End Reads.

(** *** Commit aggregation *)

Section Commits.
Import Repository DiffAnalyzer.

(** C7 at a single commit whose subject is [revert: ...]: the commit
    matches the type table of the per-commit classification, which gives
    it the type revert, so every commit of the list matches the table;
    detectCommitPatterns does not report conventional commits, because
    its own list of types leaves revert out. *)
Theorem revert_commits_are_not_counted :
  let commits := [Examples.commit_with "r1" "revert: undo the previous change"] in
  map (fun c => detectCommitType (message c)) commits = ["revert"]
  /\ forallb (fun c => existsb (fun entry => Regex.test Regex.flag_i (snd entry) (message c))
                               types) commits = true
  /\ detectCommitPatterns commits = [].
Proof. repeat split; vm_compute; reflexivity. Qed.

(** The threshold is computed in binary64: ninety times 0.7 is a little
    less than 63, so a list in which exactly 70% of the commits are
    conventional is reported as following the convention. *)
Example seventy_percent_of_ninety :
  List.length Examples.ninety_commits = 90
  /\ List.length (filter (fun c => Regex.test Regex.flag_i conventional (message c))
                         Examples.ninety_commits) = 63
  /\ map p_type (detectCommitPatterns Examples.ninety_commits) = ["conventional-commits"].
Proof. repeat split; vm_compute; reflexivity. Qed.

(** The same threshold at ten commits is exact: seven conventional
    commits out of ten are not more than 70%. *)
Example seventy_percent_of_ten :
  detectCommitPatterns
    (repeat (Examples.commit_with "a" "feat: add") 7
     ++ repeat (Examples.commit_with "b" "update") 3) = [].
Proof. vm_compute; reflexivity. Qed.

End Commits.

(** *** The testable properties of the specification *)

Section TestableProperties.
Import Repository DiffAnalyzer.

Lemma fold_left_counts_from {A : Type} (f : A -> nat) (l : list A) (init : nat) :
  init <= fold_left (fun total x => total + f x) l init.
Proof.
  revert init. induction l as [| x l IH]; intros init; cbn [fold_left].
  - lia.
  - specialize (IH (init + f x)). lia.
Qed.

(** The heuristic complexity of a text is at least 1. *)
Lemma complexity_at_least_1 (content : string) :
  1 <= FileContentAnalyzer.calculateComplexity content.
Proof.
  unfold FileContentAnalyzer.calculateComplexity.
  apply (fold_left_counts_from
           (fun pattern => Regex.count Regex.no_flags pattern content)).
Qed.

Lemma cyclomatic_at_least_1 (content language : string) :
  1 <= CodeAnalyzer.cyclomatic (CodeAnalyzer.calculateComplexity content language).
Proof.
  unfold CodeAnalyzer.calculateComplexity. cbn [CodeAnalyzer.cyclomatic].
  pose proof (fold_left_counts_from
                (fun pattern => Regex.count Regex.no_flags pattern content)
                CodeAnalyzer.controlFlowPatterns 1) as H.
  cbv beta in H. lia.
Qed.

(** The file name decides before the content does. *)
Lemma test_file_name_wins (content : string) :
  FileContentAnalyzer.detectFileType "x.test.js" content = "test".
Proof. reflexivity. Qed.

(** Relative module specifiers are not dependencies. *)
Example relative_import_is_no_dependency :
  FileContentAnalyzer.extractDependencies "import x from './local'" "javascript" = []
  /\ FileContentAnalyzer.extractDependencies "import x from 'pkg'" "javascript" = ["pkg"].
Proof. split; vm_compute; reflexivity. Qed.

(** Functions f1, f2 before and f2, f3 after: f3 is added, f1 removed, each
    listed once per record that function extraction makes for it. *)
Example functions_added_and_removed :
  exists fc,
    fst (analyzeFunctionalChanges "function f1(){} function f2(){}"
                                  "function f2(){} function f3(){}" "javascript" [])
    = JS.Return fc
    /\ JS.new_Set (addedFunctions fc) = ["f3"]
    /\ JS.new_Set (removedFunctions fc) = ["f1"].
Proof. eexists. repeat split; vm_compute; reflexivity. Qed.

Example commit_types :
  detectCommitType "feat: add x" = "feat"
  /\ detectCommitType "Merge pull request #3" = "merge"
  /\ detectCommitType "update stuff" = "other".
Proof. repeat split; vm_compute; reflexivity. Qed.

End TestableProperties.

(** *** The matcher *)

Section Matcher.
Import Regex.

(** What a successful run of [r] has done when it hands over to its
    continuation: it has consumed a word [w] of the input, every character
    of which is in one of the classes of [r], and it has left alone the
    capture groups that are not groups of [r]. *)
Lemma run_sound (fl : flags) (r : regex) :
  forall st k res,
    run fl r st k = Some res ->
    exists st' w,
      k st' = Some res
      /\ rest st = w ++ rest st'
      /\ pos st' = pos st + List.length w
      /\ Forall (fun x => exists c, In c (char_classes r) /\ class_matches fl c x = true) w
      /\ (forall n, ~ In n (group_numbers r) -> group n (caps st') = group n (caps st)).
Proof.
  induction r as [ | c | r1 IH1 r2 IH2 | r1 IH1 r2 IH2 | r1 IH1 | r1 IH1 | g r1 IH1 | | | ];
    intros st k res H.
  - cbn [run] in H. exists st, []. repeat split; auto; try (cbn [List.length]; lia).
  - cbn [run] in H. destruct (rest st) as [| x tl] eqn:Hrest; [discriminate | ].
    destruct (class_matches fl c x) eqn:Hc; [ | discriminate].
    eexists _, [x]. split; [exact H | ]. cbn [rest pos caps List.length app].
    repeat split; auto; try (cbn [List.length]; lia).
    constructor; [ | constructor]. exists c. split; [left; reflexivity | exact Hc].
  - cbn [run] in H. apply IH1 in H. destruct H as (st1 & w1 & H & Hr1 & Hp1 & Hw1 & Hg1).
    apply IH2 in H. destruct H as (st2 & w2 & H & Hr2 & Hp2 & Hw2 & Hg2).
    exists st2, (w1 ++ w2). split; [exact H | ].
    split; [rewrite Hr1, Hr2, app_assoc; reflexivity | ].
    split; [rewrite Hp2, Hp1, length_app; lia | ].
    split.
    + apply Forall_app. split.
      * eapply Forall_impl; [ | exact Hw1]. intros x (c & Hin & Hm). exists c.
        split; [cbn [char_classes]; apply in_or_app; left; exact Hin | exact Hm].
      * eapply Forall_impl; [ | exact Hw2]. intros x (c & Hin & Hm). exists c.
        split; [cbn [char_classes]; apply in_or_app; right; exact Hin | exact Hm].
    + intros n Hn. cbn [group_numbers] in Hn.
      rewrite Hg2, Hg1; [reflexivity | | ]; intros Hin; apply Hn, in_or_app; auto.
  - cbn [run] in H. destruct (run fl r1 st k) as [res1 |] eqn:E1.
    + rewrite <- H in *. apply IH1 in E1.
      destruct E1 as (st1 & w1 & H1 & Hr1 & Hp1 & Hw1 & Hg1).
      exists st1, w1. repeat split; auto.
      * eapply Forall_impl; [ | exact Hw1]. intros x (c & Hin & Hm). exists c.
        split; [cbn [char_classes]; apply in_or_app; left; exact Hin | exact Hm].
      * intros n Hn. apply Hg1. intros Hin. apply Hn. cbn [group_numbers].
        apply in_or_app; auto.
    + apply IH2 in H. destruct H as (st2 & w2 & H2 & Hr2 & Hp2 & Hw2 & Hg2).
      exists st2, w2. repeat split; auto.
      * eapply Forall_impl; [ | exact Hw2]. intros x (c & Hin & Hm). exists c.
        split; [cbn [char_classes]; apply in_or_app; right; exact Hin | exact Hm].
      * intros n Hn. apply Hg2. intros Hin. apply Hn. cbn [group_numbers].
        apply in_or_app; auto.
  - assert (Hloop :
      forall fuel st0,
        (fix loop (fuel : nat) (st0 : mstate) {struct fuel} : option mstate :=
           match fuel with
           | O => k st0
           | S fuel' =>
               match run fl r1 st0
                       (fun st1 => if Nat.ltb (pos st0) (pos st1)
                                   then loop fuel' st1 else None) with
               | Some res => Some res
               | None => k st0
               end
           end) fuel st0 = Some res ->
        exists st' w,
          k st' = Some res
          /\ rest st0 = w ++ rest st'
          /\ pos st' = pos st0 + List.length w
          /\ Forall (fun x => exists c, In c (char_classes r1)
                                        /\ class_matches fl c x = true) w
          /\ (forall n, ~ In n (group_numbers r1) ->
                        group n (caps st') = group n (caps st0))).
    { induction fuel as [| fuel IHf]; intros st0 H0.
      - exists st0, []. repeat split; auto; try (cbn [List.length]; lia).
      - match type of H0 with
        | match ?m with _ => _ end = _ => destruct m as [res1 |] eqn:E1
        end.
        + rewrite <- H0 in *. apply IH1 in E1.
          destruct E1 as (st1 & w1 & H1 & Hr1 & Hp1 & Hw1 & Hg1).
          destruct (Nat.ltb (pos st0) (pos st1)); [ | discriminate].
          apply IHf in H1. destruct H1 as (st2 & w2 & H2 & Hr2 & Hp2 & Hw2 & Hg2).
          exists st2, (w1 ++ w2). split; [exact H2 | ].
          split; [rewrite Hr1, Hr2, app_assoc; reflexivity | ].
          split; [rewrite Hp2, Hp1, length_app; lia | ].
          split; [apply Forall_app; split; assumption | ].
          intros n Hn. rewrite Hg2, Hg1; auto.
        + exists st0, []. repeat split; auto; try (cbn [List.length]; lia). }
    exact (Hloop (S (List.length (rest st))) st H).
  - assert (Hloop :
      forall fuel st0,
        (fix loop (fuel : nat) (st0 : mstate) {struct fuel} : option mstate :=
           match fuel with
           | O => k st0
           | S fuel' =>
               match k st0 with
               | Some res => Some res
               | None =>
                   run fl r1 st0
                       (fun st1 => if Nat.ltb (pos st0) (pos st1)
                                   then loop fuel' st1 else None)
               end
           end) fuel st0 = Some res ->
        exists st' w,
          k st' = Some res
          /\ rest st0 = w ++ rest st'
          /\ pos st' = pos st0 + List.length w
          /\ Forall (fun x => exists c, In c (char_classes r1)
                                        /\ class_matches fl c x = true) w
          /\ (forall n, ~ In n (group_numbers r1) ->
                        group n (caps st') = group n (caps st0))).
    { induction fuel as [| fuel IHf]; intros st0 H0.
      - exists st0, []. repeat split; auto; try (cbn [List.length]; lia).
      - destruct (k st0) as [res0 |] eqn:E0.
        + injection H0 as <-. exists st0, [].
          repeat split; auto; try (cbn [List.length]; lia).
        + apply IH1 in H0.
          destruct H0 as (st1 & w1 & H1 & Hr1 & Hp1 & Hw1 & Hg1).
          destruct (Nat.ltb (pos st0) (pos st1)); [ | discriminate].
          apply IHf in H1. destruct H1 as (st2 & w2 & H2 & Hr2 & Hp2 & Hw2 & Hg2).
          exists st2, (w1 ++ w2). split; [exact H2 | ].
          split; [rewrite Hr1, Hr2, app_assoc; reflexivity | ].
          split; [rewrite Hp2, Hp1, length_app; lia | ].
          split; [apply Forall_app; split; assumption | ].
          intros n Hn. rewrite Hg2, Hg1; auto. }
    exact (Hloop (S (List.length (rest st))) st H).
  - cbn [run] in H. apply IH1 in H. destruct H as (st1 & w1 & H1 & Hr1 & Hp1 & Hw1 & Hg1).
    eexists _, w1. split; [exact H1 | ]. cbn [rest pos caps].
    repeat split; auto.
    intros n Hn. cbn [group_numbers] in Hn. cbn [group].
    destruct (Nat.eqb_spec n g) as [-> | Hne].
    + exfalso. apply Hn. left; reflexivity.
    + apply Hg1. intros Hin. apply Hn. right; exact Hin.
  - cbn [run] in H. destruct (at_bol fl st); [ | discriminate].
    exists st, []. repeat split; auto; try (cbn [List.length]; lia).
  - cbn [run] in H. destruct (at_eol fl st); [ | discriminate].
    exists st, []. repeat split; auto; try (cbn [List.length]; lia).
  - cbn [run] in H. destruct (at_word_boundary st); [ | discriminate].
    exists st, []. repeat split; auto; try (cbn [List.length]; lia).
Qed.

(** A regular expression that starts with [^] and has not the flag [m]
    matches at the start of the text or not at all. *)
Lemma search_anchored_later (fl : flags) (r : regex) (c : ascii) (i : nat) (l : list ascii) :
  multiline fl = false ->
  search fl (Seq Bol r) (Some c) i l = None.
Proof.
  intros Hm. revert c i. induction l as [| x l IH]; intros c i.
  - cbn [search]. unfold match_here. cbn [run]. unfold at_bol. cbn [prev].
    rewrite Hm. reflexivity.
  - cbn [search]. unfold match_here. cbn [run]. unfold at_bol. cbn [prev].
    rewrite Hm. cbn [andb]. apply IH.
Qed.

Lemma exec_anchored (fl : flags) (r : regex) (t : string) :
  multiline fl = false ->
  exec fl (Seq Bol r) t = match_here fl (Seq Bol r) None 0 (JS.chars t).
Proof.
  intros Hm. unfold exec.
  destruct (JS.chars t) as [| x l]; cbn [search].
  - destruct (match_here fl (Seq Bol r) None 0 []); reflexivity.
  - destruct (match_here fl (Seq Bol r) None 0 (x :: l)); [reflexivity | ].
    apply search_anchored_later, Hm.
Qed.

(** A search finds a match if and only if an attempt succeeds at some
    position. *)
Lemma search_none (fl : flags) (r : regex) (l : list ascii) :
  forall p i,
    search fl r p i l = None ->
    match_here fl r p i l = None
    /\ forall pre x suf, l = pre ++ x :: suf ->
                         match_here fl r (Some x) (i + S (List.length pre)) suf = None.
Proof.
  induction l as [| y l IH]; intros p i H; cbn [search] in H.
  - destruct (match_here fl r p i []); [discriminate | ].
    split; [reflexivity | ]. intros [| z pre] x suf E; discriminate E.
  - destruct (match_here fl r p i (y :: l)); [discriminate | ].
    split; [reflexivity | ].
    apply IH in H. destruct H as [H0 Hl].
    intros [| z pre] x suf E; cbn [app] in E; injection E as -> ->.
    + cbn [List.length]. replace (i + 1) with (S i) by lia. exact H0.
    + cbn [List.length]. replace (i + S (S (List.length pre)))
        with (S i + S (List.length pre)) by lia.
      apply (Hl pre x suf). reflexivity.
Qed.

(** A one-character pattern is found in a text exactly when the character
    occurs in it. *)
Lemma test_character (c : ascii) (t : string) :
  test no_flags (C c) t = existsb (Ascii.eqb c) (JS.chars t).
Proof.
  unfold test, exec.
  generalize (@None ascii) as p. generalize 0 as i.
  induction (JS.chars t) as [| x l IH]; intros i p.
  - reflexivity.
  - cbn [search existsb]. unfold match_here, C. cbn [run rest].
    unfold class_matches, atom_matches_fl. cbn [ignoreCase no_flags atom_matches].
    destruct (Ascii.eqb c x); [reflexivity | ].
    cbn [orb]. apply IH.
Qed.

(** What a run of literal characters does: it steps over them when they
    are the next characters of the input, and fails otherwise. *)
Lemma run_literal (w : list ascii) :
  forall st k,
    (forall tl, rest st = w ++ tl ->
                exists st', run no_flags (lit_chars w) st k = k st'
                            /\ rest st' = tl
                            /\ pos st' = pos st + List.length w
                            /\ caps st' = caps st)
    /\ ((forall tl, rest st <> w ++ tl) -> run no_flags (lit_chars w) st k = None).
Proof.
  assert (Hone : forall c st k,
             (forall tl, rest st = c :: tl ->
                         exists st', run no_flags (C c) st k = k st'
                                     /\ rest st' = tl
                                     /\ pos st' = pos st + 1
                                     /\ caps st' = caps st)
             /\ ((forall tl, rest st <> c :: tl) -> run no_flags (C c) st k = None)).
  { intros c st k. unfold C. cbn [run]. split.
    - intros tl E. rewrite E.
      unfold class_matches, atom_matches_fl. cbn [ignoreCase no_flags atom_matches].
      rewrite Ascii.eqb_refl. eexists. split; [reflexivity | ].
      cbn [rest pos caps]. repeat split; lia.
    - intros Hno. destruct (rest st) as [| x tl]; [reflexivity | ].
      unfold class_matches, atom_matches_fl. cbn [ignoreCase no_flags atom_matches].
      destruct (Ascii.eqb_spec c x) as [-> | Hne]; [ | reflexivity].
      exfalso. apply (Hno tl). reflexivity. }
  induction w as [| c w IH]; intros st k.
  - cbn [lit_chars run app]. split.
    + intros tl E. exists st. repeat split; auto; cbn [List.length]; lia.
    + intros Hno. exfalso. apply (Hno (rest st)). reflexivity.
  - destruct w as [| c2 w].
    + cbn [lit_chars]. destruct (Hone c st k) as [H1 H2]. split.
      * intros tl E. destruct (H1 tl E) as (st' & Hr & Ht & Hp & Hc).
        exists st'. repeat split; auto.
      * exact H2.
    + change (lit_chars (c :: c2 :: w)) with (Seq (C c) (lit_chars (c2 :: w))).
      cbn [run].
      destruct (Hone c st (fun st1 => run no_flags (lit_chars (c2 :: w)) st1 k)) as [H1 H2].
      split.
      * intros tl E. cbn [app] in E.
        destruct (H1 _ E) as (st1 & Hr1 & Ht1 & Hp1 & Hc1).
        destruct (IH st1 k) as [IHa _].
        destruct (IHa tl Ht1) as (st2 & Hr2 & Ht2 & Hp2 & Hc2).
        exists st2. split; [rewrite Hr1; exact Hr2 | ].
        repeat split; auto; [cbn [List.length] in *; lia | congruence].
      * intros Hno.
        destruct (rest st) as [| x tl0] eqn:Erest.
        { apply H2. intros tl E. discriminate E. }
        destruct (Ascii.eqb_spec c x) as [<- | Hne].
        -- destruct (H1 tl0 eq_refl) as (st1 & Hr1 & Ht1 & Hp1 & Hc1).
           rewrite Hr1. destruct (IH st1 k) as [_ IHb]. apply IHb.
           intros tl E. apply (Hno tl). cbn [app]. f_equal. rewrite <- Ht1. exact E.
        -- apply H2. intros tl E. injection E as E1 E2. congruence.
Qed.

Lemma prefix_chars (w s : string) :
  String.prefix w s = true <-> exists tl, JS.chars s = JS.chars w ++ tl.
Proof.
  revert s. induction w as [| c w IH]; intros s.
  - cbn. split; [intros _; eexists; reflexivity | destruct s; reflexivity].
  - destruct s as [| x s]; cbn [String.prefix].
    + split; [discriminate | intros [tl E]; discriminate E].
    + destruct (ascii_dec c x) as [-> | Hne].
      * rewrite IH. unfold JS.chars. cbn [list_ascii_of_string app]. split.
        -- intros [tl E]. exists tl. rewrite E. reflexivity.
        -- intros [tl E]. injection E as E. exists tl. exact E.
      * split; [discriminate | ].
        unfold JS.chars. cbn [list_ascii_of_string app].
        intros [tl E]. injection E as E1 E2. congruence.
Qed.

(** A pattern of literal characters is found in a text exactly when the
    text includes it. *)
Lemma test_literal (w t : string) :
  test no_flags (Lit w) t = JS.includes t w.
Proof.
  unfold test, exec.
  generalize (@None ascii) as p. generalize 0 as i.
  induction t as [| x t IH]; intros i p.
  - unfold JS.chars. cbn [list_ascii_of_string search JS.includes]. unfold match_here, Lit.
    destruct (run_literal (JS.chars w)
                {| prev := p; pos := i; rest := []; caps := [] |} (fun st => Some st))
      as [Hyes Hno].
    destruct (String.prefix w EmptyString) eqn:Epre.
    + apply prefix_chars in Epre. destruct Epre as [tl E].
      destruct (Hyes tl) as (st' & Hr & _); [cbn [rest]; exact E | ].
      rewrite Hr. reflexivity.
    + rewrite Hno; [reflexivity | ].
      intros tl E. cbn [rest] in E.
      assert (String.prefix w EmptyString = true)
        by (apply prefix_chars; exists tl; exact E).
      congruence.
  - unfold JS.chars. cbn [list_ascii_of_string search JS.includes].
    fold (JS.chars t). unfold match_here, Lit.
    destruct (run_literal (JS.chars w)
                {| prev := p; pos := i; rest := x :: JS.chars t; caps := [] |}
                (fun st => Some st))
      as [Hyes Hno].
    destruct (String.prefix w (String x t)) eqn:Epre.
    + apply prefix_chars in Epre. destruct Epre as [tl E].
      destruct (Hyes tl) as (st' & Hr & _); [cbn [rest]; exact E | ].
      rewrite Hr. reflexivity.
    + rewrite Hno.
      * apply IH.
      * intros tl E. cbn [rest] in E.
        assert (String.prefix w (String x t) = true)
          by (apply prefix_chars; exists tl; exact E).
        congruence.
Qed.

(** Replacing every character of a class by nothing leaves the characters
    that are not in the class, in their order. *)
Lemma rebuild_class (cls : cclass) (l : list ascii) :
  forall pre p i,
    rebuild (scan no_flags (Chr cls) p (i + List.length pre) l 0) i (pre ++ l) []
    = pre ++ filter (fun x => negb (class_matches no_flags cls x)) l.
Proof.
  induction l as [| x l IH]; intros pre p i.
  - cbn [scan]. unfold match_here. cbn [run rest rebuild filter]. reflexivity.
  - cbn [scan]. unfold match_here. cbn [run rest filter].
    destruct (class_matches no_flags cls x) eqn:Ec; cbn [negb pos lastIndex index].
    + replace (S (i + List.length pre) - (i + List.length pre) - 1) with 0 by lia.
      cbn [rebuild index lastIndex].
      replace (i + List.length pre - i) with (List.length pre) by lia.
      replace (S (i + List.length pre) - i) with (List.length (pre ++ [x]))
        by (rewrite length_app; cbn [List.length]; lia).
      rewrite firstn_app, firstn_all, Nat.sub_diag, firstn_0, app_nil_r.
      replace (pre ++ x :: l) with ((pre ++ [x]) ++ l)
        by (rewrite <- app_assoc; reflexivity).
      rewrite skipn_app, skipn_all, Nat.sub_diag, skipn_0.
      cbn [app].
      specialize (IH [] (Some x) (S (i + List.length pre))).
      cbn [List.length app] in IH. rewrite Nat.add_0_r in IH.
      rewrite IH. reflexivity.
    + specialize (IH (pre ++ [x]) (Some x) i).
      rewrite length_app in IH. cbn [List.length] in IH.
      replace (i + (List.length pre + 1)) with (S (i + List.length pre)) in IH by lia.
      rewrite <- !app_assoc in IH. cbn [app] in IH. exact IH.
Qed.

Lemma replaceAll_class (cls : cclass) (t : string) :
  replaceAll no_flags (Chr cls) t EmptyString
  = JS.str (filter (fun x => negb (class_matches no_flags cls x)) (JS.chars t)).
Proof.
  unfold replaceAll, matchAll.
  pose proof (rebuild_class cls (JS.chars t) [] None 0) as H.
  cbn [List.length app Nat.add] in H.
  change (JS.chars EmptyString) with (@nil ascii).
  rewrite H. reflexivity.
Qed.

End Matcher.

(** *** The security manager *)

Section Security.
Import Regex SecurityManager.

Lemma chars_str (l : list ascii) : JS.chars (JS.str l) = l.
Proof. apply list_ascii_of_string_of_list_ascii. Qed.

Lemma str_chars (s : string) : JS.str (JS.chars s) = s.
Proof. apply string_of_list_ascii_of_string. Qed.

Lemma chars_append (a b : string) : JS.chars (a ++ b) = JS.chars a ++ JS.chars b.
Proof.
  induction a as [| c a IH]; [reflexivity | ].
  unfold JS.chars in *. cbn [String.append list_ascii_of_string app]. rewrite IH. reflexivity.
Qed.

(** A character that [sanitizePath] keeps. *)
Lemma path_character (x : ascii) :
  class_matches no_flags (NoneOf path_characters) x = false
  <-> JS.is_word x = true \/ In x ["-"; "_"; "."; "/"]%char.
Proof.
  unfold class_matches, path_characters, atom_matches_fl.
  cbn [existsb ignoreCase no_flags atom_matches].
  rewrite Bool.negb_false_iff, !Bool.orb_true_iff, !Ascii.eqb_eq. cbn [In].
  intuition (auto; try discriminate).
Qed.

(** X1.  When [sanitizePath] returns, its argument was a non-empty string
    without two periods in a row, and the result is that string without
    the characters that are not letters, digits, underscore, hyphen,
    period or slash.  Deleting characters can bring two periods together:
    the result of sanitizing is not always free of them. *)
Theorem sanitizePath_result :
  (forall filePath sanitized,
      sanitizePath filePath = Accepted sanitized ->
      exists text,
        filePath = JS.Str text
        /\ text <> EmptyString
        /\ JS.includes text ".." = false
        /\ sanitized
           = JS.str (filter (fun x => negb (class_matches no_flags (NoneOf path_characters) x))
                            (JS.chars text))
        /\ Forall (fun x => JS.is_word x = true \/ In x ["-"; "_"; "."; "/"]%char)
                  (JS.chars sanitized))
  /\ sanitizePath (JS.Str ". ./etc/passwd") = Accepted "../etc/passwd".
Proof.
  split; [ | vm_compute; reflexivity].
  intros [ | | text] sanitized H; try discriminate H.
  unfold sanitizePath in H. cbn [JS.truthy] in H.
  destruct (String.eqb_spec text EmptyString) as [-> | Hne]; [discriminate H | ].
  cbn [negb] in H.
  destruct (JS.includes text "..") eqn:Hdots; [discriminate H | ].
  destruct (existsb _ dangerousPathPatterns); [discriminate H | ].
  injection H as <-. rewrite replaceAll_class.
  exists text. repeat split; auto.
  rewrite chars_str. apply Forall_forall. intros x Hin.
  apply filter_In in Hin. destruct Hin as [_ Hx].
  apply Bool.negb_true_iff in Hx. apply path_character. exact Hx.
Qed.

Lemma absent_character (c : ascii) (l : list ascii) :
  existsb (Ascii.eqb c) l = false <-> ~ In c l.
Proof.
  split.
  - intros H Hin. assert (existsb (Ascii.eqb c) l = true) as Ht.
    { apply existsb_exists. exists c. split; [exact Hin | apply Ascii.eqb_refl]. }
    congruence.
  - intros H. destruct (existsb (Ascii.eqb c) l) eqn:E; [ | reflexivity].
    apply existsb_exists in E. destruct E as [x [Hin Hx]].
    apply Ascii.eqb_eq in Hx. subst x. contradiction.
Qed.

Lemma includes_first_character (c : ascii) (w : string) :
  forall t, JS.includes t (String c w) = true -> In c (JS.chars t).
Proof.
  induction t as [| a t IH]; cbn [JS.includes String.prefix].
  - discriminate.
  - destruct (ascii_dec c a) as [-> | Hne].
    + intros _. left. reflexivity.
    + intros H. right. apply IH. exact H.
Qed.

(** A character that [checkCommandInjection] keeps. *)
Lemma command_character (x : ascii) :
  negb (class_matches no_flags (NoneOf command_characters) x)
  = (JS.is_word x || JS.is_space x || existsb (Ascii.eqb x) ["-"; "."; "/"]%char)%bool.
Proof.
  unfold class_matches, command_characters, atom_matches_fl.
  cbn [existsb ignoreCase no_flags atom_matches].
  rewrite Bool.negb_involutive.
  rewrite (Ascii.eqb_sym "-" x), (Ascii.eqb_sym "." x), (Ascii.eqb_sym "/" x),
    (Ascii.eqb_sym "_" x).
  unfold JS.is_word.
  destruct (JS.is_digit x), (JS.is_upper x), (JS.is_lower x), (JS.is_space x),
    (Ascii.eqb x "_"), (Ascii.eqb x "-"), (Ascii.eqb x "."), (Ascii.eqb x "/"); reflexivity.
Qed.

(** No pattern of [checkCommandInjection] matches exactly when the input
    has none of the characters and pairs the patterns stand for. *)
Lemma injection_patterns_miss (input : string) :
  find (fun entry => test no_flags (snd entry) input) injectionPatterns = None
  <-> (Forall (fun x => ~ In x [";"; "|"; ">"; "<"; "`"; "010"; "013"]%char) (JS.chars input)
       /\ JS.includes input "&&" = false
       /\ JS.includes input "$(" = false
       /\ JS.includes input "${" = false).
Proof.
  unfold injectionPatterns. cbn [find snd].
  rewrite !test_character, !test_literal.
  split.
  - intros H.
    destruct (existsb (Ascii.eqb ";") (JS.chars input)) eqn:H1; [discriminate H | ].
    destruct (JS.includes input "&&") eqn:H2; [discriminate H | ].
    destruct (JS.includes input "||") eqn:H3; [discriminate H | ].
    destruct (existsb (Ascii.eqb "|") (JS.chars input)) eqn:H4; [discriminate H | ].
    destruct (existsb (Ascii.eqb ">") (JS.chars input)) eqn:H5; [discriminate H | ].
    destruct (existsb (Ascii.eqb "<") (JS.chars input)) eqn:H6; [discriminate H | ].
    destruct (existsb (Ascii.eqb "`") (JS.chars input)) eqn:H7; [discriminate H | ].
    destruct (JS.includes input "$(") eqn:H8; [discriminate H | ].
    destruct (JS.includes input "${") eqn:H9; [discriminate H | ].
    destruct (existsb (Ascii.eqb "010") (JS.chars input)) eqn:H10; [discriminate H | ].
    destruct (existsb (Ascii.eqb "013") (JS.chars input)) eqn:H11; [discriminate H | ].
    apply absent_character in H1, H4, H5, H6, H7, H10, H11.
    repeat split; auto.
    apply Forall_forall. intros x Hin Hx. cbn [In] in Hx.
    repeat (destruct Hx as [<- | Hx]; [contradiction | ]). exact Hx.
  - intros [Hc [H2 [H8 H9]]].
    assert (forall c, In c [";"; "|"; ">"; "<"; "`"; "010"; "013"]%char ->
                      existsb (Ascii.eqb c) (JS.chars input) = false) as Hno.
    { intros c Hin. apply absent_character. intros Hc'.
      apply (proj1 (Forall_forall _ _) Hc c Hc'). exact Hin. }
    assert (JS.includes input "||" = false) as H3.
    { destruct (JS.includes input "||") eqn:E; [ | reflexivity].
      apply includes_first_character in E.
      apply absent_character in E; [destruct E | ]. apply Hno. cbn [In]. auto. }
    rewrite H2, H3, H8, H9.
    rewrite !Hno by (cbn [In]; auto 10).
    reflexivity.
Qed.

(** X2.  [checkCommandInjection] calls an input safe exactly when it has
    none of the characters [;], [|], [>], [<], backquote, line feed and
    carriage return and none of the pairs [&&], [$(] and [${].  For an
    input that is ASCII text, the sanitized text is then the input
    without the characters that are neither word characters, white
    space, hyphen, period nor slash; a single [&] is therefore accepted,
    and removed.  (Outside ASCII the class [\s] of the source also keeps
    the spaces of Unicode, which this statement leaves aside.) *)
Theorem checkCommandInjection_safe (input : string) :
  ((exists sanitized, checkCommandInjection input = Safe sanitized)
   <-> (Forall (fun x => ~ In x [";"; "|"; ">"; "<"; "`"; "010"; "013"]%char)
               (JS.chars input)
        /\ JS.includes input "&&" = false
        /\ JS.includes input "$(" = false
        /\ JS.includes input "${" = false))
  /\ (JS.ascii_text input = true ->
      forall sanitized,
        checkCommandInjection input = Safe sanitized ->
        sanitized
        = JS.str (filter (fun x => (JS.is_word x || JS.is_space x
                                    || existsb (Ascii.eqb x) ["-"; "."; "/"]%char)%bool)
                         (JS.chars input))).
Proof.
  pose proof (injection_patterns_miss input) as Hmiss.
  unfold checkCommandInjection.
  destruct (find (fun entry => test no_flags (snd entry) input) injectionPatterns)
    as [[source pattern] | ].
  - split.
    + split.
      * intros [sanitized H]. discriminate H.
      * intros H. apply Hmiss in H. discriminate H.
    + intros _ sanitized H. discriminate H.
  - split.
    + split.
      * intros _. apply Hmiss. reflexivity.
      * intros _. eexists. reflexivity.
    + intros _ sanitized H. injection H as <-.
      rewrite replaceAll_class, (filter_ext _ _ command_character). reflexivity.
Qed.

(** The theorem at an ASCII input with a single [&]. *)
Lemma checkCommandInjection_safe_at_single_ampersand :
  JS.ascii_text "git log a&b" = true
  /\ checkCommandInjection "git log a&b" = Safe "git log ab"
  /\ "git log ab"
     = JS.str (filter (fun x => (JS.is_word x || JS.is_space x
                                 || existsb (Ascii.eqb x) ["-"; "."; "/"]%char)%bool)
                      (JS.chars "git log a&b")).
Proof.
  split; [reflexivity | ]. split; [vm_compute; reflexivity | ].
  destruct (checkCommandInjection_safe "git log a&b") as [_ H].
  apply H; [reflexivity | vm_compute; reflexivity].
Defined.

(** A character of an API key. *)
Lemma key_character (x : ascii) :
  class_matches no_flags (AnyOf key_characters) x = true
  <-> JS.is_word x = true \/ x = "-"%char.
Proof.
  unfold class_matches, key_characters, atom_matches_fl.
  cbn [existsb ignoreCase no_flags atom_matches].
  change (N_of_ascii "0") with 48%N. change (N_of_ascii "9") with 57%N.
  change (N_of_ascii "A") with 65%N. change (N_of_ascii "Z") with 90%N.
  change (N_of_ascii "a") with 97%N. change (N_of_ascii "z") with 122%N.
  unfold JS.is_word, JS.is_digit, JS.is_upper, JS.is_lower.
  rewrite (Ascii.eqb_sym "-" x), (Ascii.eqb_sym "_" x).
  rewrite !Bool.orb_true_iff, Ascii.eqb_eq. cbn zeta. intuition discriminate.
Qed.

(** What a key pattern accepts: the prefix, then key characters only. *)
Lemma key_pattern_accepts (prefix text : string) :
  test no_flags (key_pattern prefix) text = true ->
  exists tail,
    JS.chars text = JS.chars prefix ++ tail
    /\ Forall (fun x => class_matches no_flags (AnyOf key_characters) x = true) tail.
Proof.
  unfold test, key_pattern, seqs. intros H.
  destruct (exec _ _ _) as [m | ] eqn:E; [clear H | discriminate H].
  rewrite exec_anchored in E by reflexivity.
  unfold match_here in E.
  destruct (run _ _ _ _) as [res | ] eqn:R; [clear E | discriminate E].
  cbn [run at_bol prev] in R. unfold Lit in R.
  match type of R with
  | run _ _ ?st ?k = _ => destruct (run_literal (JS.chars prefix) st k) as [Hyes Hno]
  end.
  cbn [rest] in Hyes, Hno.
  destruct (String.prefix prefix text) eqn:P.
  - apply prefix_chars in P. destruct P as [tl Htl].
    destruct (Hyes tl Htl) as [st' [Hrun [Hrest _]]].
    rewrite Hrun in R.
    apply run_sound in R. destruct R as [st2 [w [Hk [Hw [_ [Hall _]]]]]].
    unfold at_eol in Hk. destruct (rest st2) eqn:Hend; [ | discriminate Hk].
    rewrite app_nil_r in Hw. exists tl. split; [exact Htl | ].
    rewrite <- Hrest, Hw. apply Forall_forall. intros x Hin.
    destruct (proj1 (Forall_forall _ _) Hall x Hin) as [c [Hc Hx]].
    cbn in Hc. destruct Hc as [<- | [<- | []]]; exact Hx.
  - rewrite Hno in R; [discriminate R | ].
    intros tl Htl. assert (String.prefix prefix text = true) as Ht.
    { apply prefix_chars. exists tl. exact Htl. }
    congruence.
Qed.

Lemma chars_inj (a b : string) : JS.chars a = JS.chars b -> a = b.
Proof. intros H. rewrite <- (str_chars a), <- (str_chars b), H. reflexivity. Qed.

(** X3.  A key that [validateAPIKey] calls valid is a string of at least
    20 characters; for the service gemini it is [AIza] followed by word
    characters and hyphens only, and for the services claude and openai
    it is [sk-] followed by such characters. *)
Theorem validateAPIKey_valid (key : JS.value) (service : string) (reason : option string) :
  validateAPIKey key service = JS.Return {| k_valid := true; k_reason := reason |} ->
  exists text,
    key = JS.Str text
    /\ 20 <= JS.length text
    /\ forall prefix,
        In (service, prefix) [("gemini", "AIza"); ("claude", "sk-"); ("openai", "sk-")] ->
        exists tail,
          text = (prefix ++ tail)%string
          /\ Forall (fun x => JS.is_word x = true \/ x = "-"%char) (JS.chars tail).
Proof.
  intros H. destruct key as [ | | text]; try discriminate H.
  unfold validateAPIKey in H.
  destruct (negb (JS.truthy (JS.Str text))); [discriminate H | ].
  destruct (Nat.ltb (JS.length text) 20) eqn:Hlen; [discriminate H | ].
  apply Nat.ltb_ge in Hlen.
  exists text. split; [reflexivity | ]. split; [exact Hlen | ].
  intros prefix Hin. cbn [In] in Hin.
  assert (pattern_of keyPatterns service = Some (key_pattern prefix)) as Hp.
  { destruct Hin as [E | [E | [E | []]]]; injection E as <- <-; reflexivity. }
  rewrite Hp in H.
  destruct (test no_flags (key_pattern prefix) text) eqn:Ht; [ | discriminate H].
  apply key_pattern_accepts in Ht. destruct Ht as [tail [Htext Hall]].
  exists (JS.str tail). split.
  - apply chars_inj. rewrite chars_append, chars_str. exact Htext.
  - rewrite chars_str. apply Forall_forall. intros x Hx.
    apply key_character. exact (proj1 (Forall_forall _ _) Hall x Hx).
Qed.

Lemma validateAPIKey_valid_at_gemini_key :
  validateAPIKey (JS.Str "AIzaSyA-1234567890_abcdefghij") "gemini"
  = JS.Return {| k_valid := true; k_reason := None |}
  /\ exists text,
      JS.Str "AIzaSyA-1234567890_abcdefghij" = JS.Str text
      /\ 20 <= JS.length text
      /\ forall prefix,
          In ("gemini", prefix) [("gemini", "AIza"); ("claude", "sk-"); ("openai", "sk-")] ->
          exists tail,
            text = (prefix ++ tail)%string
            /\ Forall (fun x => JS.is_word x = true \/ x = "-"%char) (JS.chars tail).
Proof.
  split; [vm_compute; reflexivity | ].
  apply (@validateAPIKey_valid _ "gemini" None). vm_compute. reflexivity.
Defined.

Lemma drop_space_inner (y : ascii) (r : list ascii) :
  JS.is_space y = false ->
  forall a, exists a', JS.drop_space (a ++ y :: r) = a' ++ y :: r.
Proof.
  intros Hy. induction a as [| c a IH]; cbn [app JS.drop_space].
  - exists []. rewrite Hy. reflexivity.
  - destruct (JS.is_space c).
    + exact IH.
    + exists (c :: a). reflexivity.
Qed.

(** Trimming keeps a leading word that neither starts nor ends with
    white space. *)
Lemma trim_keeps_leading (w : string) (x y : ascii) (w' r : list ascii) (tl : string) :
  JS.chars w = x :: w' -> JS.is_space x = false ->
  rev (JS.chars w) = y :: r -> JS.is_space y = false ->
  exists tl', JS.chars (JS.trim (w ++ tl)) = JS.chars w ++ tl'.
Proof.
  intros Hw Hx Hr Hy. unfold JS.trim. rewrite chars_str, chars_append, Hw.
  cbn [app JS.drop_space]. rewrite Hx.
  change (x :: w' ++ JS.chars tl) with ((x :: w') ++ JS.chars tl).
  rewrite <- Hw, rev_app_distr, Hr.
  destruct (@drop_space_inner y r Hy (rev (JS.chars tl))) as [a' Ha].
  rewrite Ha, rev_app_distr, <- Hr, rev_involutive.
  exists (rev a'). rewrite ?Hw. reflexivity.
Qed.

Lemma blocked_command_is_found (blocked args : string) :
  In blocked blockedCommands ->
  exists first,
    find (fun b => JS.startsWith (JS.toLowerCase (JS.trim (blocked ++ args))) b) blockedCommands
    = Some first.
Proof.
  intros Hin.
  destruct (find _ blockedCommands) as [first | ] eqn:Hf; [exists first; reflexivity | exfalso].
  assert (In (JS.toLowerCase blocked) blockedCommands
          /\ exists tl', JS.chars (JS.trim (blocked ++ args)) = JS.chars blocked ++ tl')
    as [Hlow [tl' Htl]].
  { unfold blockedCommands in Hin. cbn [In] in Hin.
    repeat (destruct Hin as [<- | Hin];
            [split; [vm_compute; tauto
                    | eapply trim_keeps_leading; reflexivity] | ]).
    destruct Hin. }
  pose proof (find_none _ _ Hf _ Hlow) as Hno. cbv beta in Hno.
  assert (JS.startsWith (JS.toLowerCase (JS.trim (blocked ++ args))) (JS.toLowerCase blocked)
          = true) as Hyes.
  { unfold JS.startsWith. apply prefix_chars.
    unfold JS.toLowerCase. rewrite !chars_str, Htl, map_app.
    eexists. reflexivity. }
  congruence.
Qed.

(** X4.  A command that begins with one of the blocked commands is
    refused whatever follows it: [validateGitCommand] throws the
    command-blocked error, which carries the command as it was given. *)
Theorem validateGitCommand_refuses_blocked (blocked args : string) :
  In blocked blockedCommands ->
  exists message,
    validateGitCommand (blocked ++ args)
    = JS.Throw (JS.Blocked SECURITY_COMMAND_BLOCKED message (blocked ++ args)).
Proof.
  intros Hin. unfold validateGitCommand.
  destruct (blocked_command_is_found args Hin) as [first Hf].
  rewrite Hf. eexists. reflexivity.
Qed.

Lemma validateGitCommand_refuses_push :
  exists message,
    validateGitCommand ("git push" ++ " origin main")
    = JS.Throw (JS.Blocked SECURITY_COMMAND_BLOCKED message ("git push" ++ " origin main")).
Proof.
  apply (@validateGitCommand_refuses_blocked "git push" " origin main").
  unfold blockedCommands. cbn [In]. left. reflexivity.
Defined.

Lemma validateGitCommand_outcome (command : string) :
  thrown (validateGitCommand command) = false <-> validateGitCommand command = JS.Return true.
Proof.
  unfold validateGitCommand.
  destruct (find _ blockedCommands); [cbn; split; discriminate | ].
  destruct (existsb _ blockedPatterns); cbn; split; (discriminate || reflexivity).
Qed.

Lemma command_issues (l : list string) :
  List.length
    (filter is_error
       (flat_map (fun command =>
                    if thrown (validateGitCommand command)
                    then [ {| ci_level := "error"; ci_field := "commands";
                              ci_message :=
                                ("Invalid command in configuration: " ++ command)%string |} ]
                    else [])
                 l)) = 0
  <-> forall command, In command l -> validateGitCommand command = JS.Return true.
Proof.
  induction l as [| c l IH]; cbn [flat_map].
  - cbn. split; [intros _ x [] | reflexivity].
  - destruct (thrown (validateGitCommand c)) eqn:Hc.
    + cbn. split; [discriminate | ].
      intros H. assert (validateGitCommand c = JS.Return true) as Hr by (apply H; left; reflexivity).
      apply validateGitCommand_outcome in Hr. congruence.
    + cbn [app]. rewrite IH. apply validateGitCommand_outcome in Hc. split.
      * intros H x [<- | Hx]; [exact Hc | apply H; exact Hx].
      * intros H x Hx. apply H. right. exact Hx.
Qed.

(** X5.  [validateConfiguration] calls a configuration valid exactly when
    it is an object that does not enable writes and every command it
    lists passes [validateGitCommand]. *)
Theorem validateConfiguration_valid (config : option Configuration) :
  c_valid (validateConfiguration config) = true
  <-> exists c,
        config = Some c
        /\ allowWrites c = false
        /\ forall listed, commands c = Some listed ->
                          forall command, In command listed ->
                                          validateGitCommand command = JS.Return true.
Proof.
  destruct config as [[writes listed] | ]; cbn [validateConfiguration allowWrites commands c_valid].
  - rewrite Nat.eqb_eq. destruct writes.
    + split.
      * destruct listed; cbn; discriminate.
      * intros [c [E [Hw _]]]. injection E as <-. discriminate Hw.
    + cbn [app]. destruct listed as [l | ].
      * rewrite command_issues. split.
        -- intros H. eexists. split; [reflexivity | ]. split; [reflexivity | ].
           cbn. intros l' E. injection E as <-. exact H.
        -- intros [c [E [_ H]]]. injection E as <-. apply H. reflexivity.
      * cbn. split; [ | reflexivity]. intros _. eexists. split; [reflexivity | ].
        split; [reflexivity | ]. cbn. discriminate.
  - cbn. split; [discriminate | ]. intros [c [E _]]. discriminate E.
Qed.

End Security.

(** *** Parsing the list of changed files *)

Section ChangedFiles.
Import Regex Repository.

(** X6.  Every entry that [parseDiffFiles] returns comes from a line of
    the listing that begins with A, M or D, and its status is added,
    modified or deleted accordingly: a line for a rename or a copy gives
    no entry. *)
Theorem parseDiffFiles_statuses (diff : string) (f : DiffFile) :
  In f (parseDiffFiles diff) ->
  exists letter tail,
    In (String letter tail) (JS.lines diff)
    /\ ((letter = "A"%char /\ df_status f = "added")
        \/ (letter = "M"%char /\ df_status f = "modified")
        \/ (letter = "D"%char /\ df_status f = "deleted")).
Proof.
  unfold parseDiffFiles. intros H.
  apply in_flat_map in H. destruct H as [line [Hline Hf]].
  apply filter_In in Hline. destruct Hline as [Hline _].
  destruct (exec no_flags name_status_line line) as [m | ] eqn:E; [ | destruct Hf].
  destruct Hf as [<- | []]. cbn [df_status].
  unfold name_status_line, seqs in E. rewrite exec_anchored in E by reflexivity.
  unfold match_here in E.
  destruct (run _ _ _ _) as [res | ] eqn:R; [ | discriminate E].
  injection E as <-. unfold capture_or_empty, capture. cbn [groups].
  cbn [run at_bol prev rest pos caps] in R.
  destruct line as [| x tail]; [discriminate R | ].
  change (JS.chars (String x tail)) with (x :: JS.chars tail) in R.
  cbv iota in R.
  destruct (class_matches no_flags (AnyOf [ALit "A"; ALit "M"; ALit "D"]) x) eqn:Hx;
    [ | discriminate R].
  apply run_sound in R. destruct R as [st1 [w1 [R [_ [_ [_ Hc1]]]]]].
  apply run_sound in R. destruct R as [st2 [w2 [R [_ [_ [_ Hc2]]]]]].
  destruct (at_eol _ _); [ | discriminate R]. injection R as <-.
  cbn [caps group Nat.eqb].
  rewrite (Hc2 1), (Hc1 1) by (cbn; tauto).
  cbn [caps group Nat.eqb Nat.sub firstn JS.str string_of_list_ascii].
  exists x, tail. split; [exact Hline | ].
  unfold class_matches, atom_matches_fl in Hx.
  cbn [existsb ignoreCase no_flags atom_matches] in Hx.
  rewrite !Bool.orb_true_iff, !Ascii.eqb_eq in Hx.
  destruct Hx as [<- | [<- | [<- | Hx]]]; [ | | | discriminate Hx]; vm_compute; tauto.
Qed.

Lemma parseDiffFiles_statuses_at_rename :
  In {| df_status := "modified"; df_path := "src/a.js" |}
     (parseDiffFiles ("M src/a.js" ++ String "010" "R100 old.js new.js"))
  /\ exists letter tail,
      In (String letter tail) (JS.lines ("M src/a.js" ++ String "010" "R100 old.js new.js"))
      /\ ((letter = "A"%char /\ "modified" = "added")
          \/ (letter = "M"%char /\ "modified" = "modified")
          \/ (letter = "D"%char /\ "modified" = "deleted")).
Proof.
  split; [vm_compute; left; reflexivity | ].
  apply (@parseDiffFiles_statuses ("M src/a.js" ++ String "010" "R100 old.js new.js")
           {| df_status := "modified"; df_path := "src/a.js" |}).
  vm_compute. left. reflexivity.
Defined.

End ChangedFiles.

(** *** Hot spots, commits and the roll-up of a diff *)

Section DiffReport.
Import Regex Repository DiffAnalyzer.

(** X7.  A changed file whose path contains one of the words [.env],
    [config/], [database/], [auth], [security] or [payment] is a hot
    spot, and the insights then report the hot spots. *)
Theorem critical_path_is_reported
        (summary : Summary) (files : list File) (commits : list Commit)
        (file : File) (word : string) :
  In file files ->
  In word [".env"; "config/"; "database/"; "auth"; "security"; "payment"] ->
  JS.includes (file_path file) word = true ->
  In (file_path file) (detectHotspots files)
  /\ In {| i_type := "attention"; i_category := "hotspots";
           i_message := "Critical files modified";
           i_detail := ("Changes to critical files: "
                          ++ JS.join ", " (detectHotspots files))%string |}
        (generateInsights summary files commits).
Proof.
  intros Hfile Hword Hinc.
  assert (In (file_path file) (detectHotspots files)) as Hhot.
  { unfold detectHotspots. apply in_map. apply filter_In. split; [exact Hfile | ].
    apply existsb_exists. exists (Lit word). split.
    - cbn [In] in Hword. unfold criticalPatterns. cbn [In].
      repeat (destruct Hword as [<- | Hword]; [auto 20 | ]). destruct Hword.
    - rewrite test_literal. exact Hinc. }
  split; [exact Hhot | ].
  unfold generateInsights. cbv zeta.
  destruct (detectHotspots files) as [| p hot] eqn:E; [destruct Hhot | ].
  cbn [List.length Nat.ltb Nat.leb].
  apply in_or_app. right. left. reflexivity.
Qed.

Lemma critical_path_is_reported_at_env :
  In "deploy/.env.production"
     (detectHotspots [ {| file_path := "deploy/.env.production"; file_status := "modified";
                          file_additions := None; file_deletions := None;
                          file_diff := None |} ]).
Proof.
  apply (@critical_path_is_reported
           {| filesChanged := 1; insertions := 0; deletions_total := 0 |}
           [ {| file_path := "deploy/.env.production"; file_status := "modified";
                file_additions := None; file_deletions := None; file_diff := None |} ]
           []
           {| file_path := "deploy/.env.production"; file_status := "modified";
              file_additions := None; file_deletions := None; file_diff := None |}
           ".env").
  - left. reflexivity.
  - left. reflexivity.
  - vm_compute. reflexivity.
Defined.

(** On up to 500 commits the test [k > n * 0.7] in binary64 is the exact
    one but for seven totals at which exactly seventy percent pass it,
    and the test [k > n * 0.5] is the exact one. *)
Lemma seventy_percent_threshold :
  forallb
    (fun n =>
       let total := Z.of_nat n in
       let bound := PrimFloat.mul (JS.float_of_nat n) JS.seven_tenths in
       forallb
         (fun k =>
            let passed := Z.of_nat k in
            Bool.eqb (JS.fgt (JS.float_of_nat k) bound)
                     ((7 * total <? 10 * passed)%Z
                      || ((7 * total =? 10 * passed)%Z
                          && existsb (Z.eqb total) [90; 170; 180; 330; 340; 350; 360]%Z)))
         (seq 0 (S n)))
    (seq 0 501) = true.
Proof. vm_compute. reflexivity. Qed.

Lemma half_threshold :
  forallb
    (fun n =>
       let total := Z.of_nat n in
       let bound := PrimFloat.mul (JS.float_of_nat n) 0.5%float in
       forallb
         (fun k =>
            Bool.eqb (JS.fgt (JS.float_of_nat k) bound) (total <? 2 * Z.of_nat k)%Z)
         (seq 0 (S n)))
    (seq 0 501) = true.
Proof. vm_compute. reflexivity. Qed.

Lemma threshold_tests (n k : nat) :
  n <= 500 -> k <= n ->
  JS.fgt (JS.float_of_nat k) (PrimFloat.mul (JS.float_of_nat n) JS.seven_tenths)
  = ((7 * Z.of_nat n <? 10 * Z.of_nat k)%Z
     || ((7 * Z.of_nat n =? 10 * Z.of_nat k)%Z
         && existsb (Z.eqb (Z.of_nat n)) [90; 170; 180; 330; 340; 350; 360]%Z))%bool
  /\ JS.fgt (JS.float_of_nat k) (PrimFloat.mul (JS.float_of_nat n) 0.5%float)
     = (Z.of_nat n <? 2 * Z.of_nat k)%Z.
Proof.
  intros Hn Hk.
  assert (In n (seq 0 501)) as Hin by (apply in_seq; lia).
  assert (In k (seq 0 (S n))) as Hik by (apply in_seq; lia).
  pose proof (proj1 (forallb_forall _ _) seventy_percent_threshold n Hin) as H7.
  pose proof (proj1 (forallb_forall _ _) half_threshold n Hin) as H5.
  cbv zeta in H7, H5.
  pose proof (proj1 (forallb_forall _ _) H7 k Hik) as H7k.
  pose proof (proj1 (forallb_forall _ _) H5 k Hik) as H5k.
  cbv beta in H7k, H5k.
  apply Bool.eqb_prop in H7k. apply Bool.eqb_prop in H5k.
  split; assumption.
Qed.

Lemma pattern_types (a b : bool) (x y : CommitPattern) (name : string) :
  In name (map p_type ((if a then [x] else []) ++ (if b then [y] else [])))
  <-> (a = true /\ name = p_type x) \/ (b = true /\ name = p_type y).
Proof.
  destruct a, b; cbn; intuition (auto; discriminate).
Qed.

(** X8.  On at most 500 commits, [detectCommitPatterns] reports ticket
    references exactly when more than half of the messages have one, and
    conventional commits exactly when more than seventy percent of the
    messages are conventional, or exactly seventy percent of 90, 170,
    180, 330, 340, 350 or 360 are: there the product with 0.7 is rounded
    down. *)
Theorem detectCommitPatterns_thresholds (commits : list Commit) :
  List.length commits <= 500 ->
  let n := List.length commits in
  let conventionalCount :=
    List.length (filter (fun c => test flag_i conventional (message c)) commits) in
  let ticketCount :=
    List.length (filter (fun c => test no_flags ticket (message c)) commits) in
  (In "conventional-commits" (map p_type (detectCommitPatterns commits))
   <-> 7 * n < 10 * conventionalCount
       \/ (7 * n = 10 * conventionalCount /\ In n [90; 170; 180; 330; 340; 350; 360]))
  /\ (In "ticket-references" (map p_type (detectCommitPatterns commits))
      <-> n < 2 * ticketCount).
Proof.
  intros Hn. cbv zeta. unfold detectCommitPatterns. cbv zeta.
  set (n := List.length commits) in *.
  set (conventionalCount :=
         List.length (filter (fun c => test flag_i conventional (message c)) commits)).
  set (ticketCount :=
         List.length (filter (fun c => test no_flags ticket (message c)) commits)).
  assert (conventionalCount <= n) as Hc by apply filter_length_le.
  assert (ticketCount <= n) as Ht by apply filter_length_le.
  destruct (threshold_tests Hn Hc) as [H7 _].
  destruct (threshold_tests Hn Ht) as [_ H5].
  rewrite H7, H5. rewrite !pattern_types. cbn [p_type].
  rewrite Bool.orb_true_iff, Bool.andb_true_iff, Z.ltb_lt, Z.eqb_eq.
  assert (existsb (Z.eqb (Z.of_nat n)) [90; 170; 180; 330; 340; 350; 360]%Z = true
          <-> In n [90; 170; 180; 330; 340; 350; 360]) as Hex.
  { cbn [existsb In]. rewrite !Bool.orb_true_iff, !Z.eqb_eq. intuition (try lia; try discriminate). }
  rewrite Hex. split.
  - split.
    + intros [[H _] | [_ H]]; [ | discriminate H].
      destruct H as [H | [H1 H2]]; [left; lia | right; split; [lia | exact H2]].
    + intros H. left. split; [ | reflexivity].
      destruct H as [H | [H1 H2]]; [left; lia | right; split; [lia | exact H2]].
  - split.
    + intros [[_ H] | [H _]]; [discriminate H | lia].
    + intros H. right. split; [lia | reflexivity].
Qed.

Lemma detectCommitPatterns_thresholds_at_one_commit :
  let commits := [Examples.commit_with "a1" "feat(parser): read JIRA-12 tickets"] in
  In "conventional-commits" (map p_type (detectCommitPatterns commits))
  /\ In "ticket-references" (map p_type (detectCommitPatterns commits)).
Proof.
  pose proof (@detectCommitPatterns_thresholds
                [Examples.commit_with "a1" "feat(parser): read JIRA-12 tickets"]) as H.
  cbv zeta in H. specialize (H ltac:(cbn; lia)). destruct H as [H1 H2].
  cbv zeta. split.
  - apply H1. left. vm_compute. lia.
  - apply H2. vm_compute. lia.
Defined.

Lemma entry_update {V : Type} (f : option V -> V) (key key' : string) :
  forall m,
    entry_of (update_entry m key f) key'
    = if String.eqb key key' then Some (f (entry_of m key)) else entry_of m key'.
Proof.
  induction m as [| [k v] m IH]; cbn [update_entry entry_of].
  - reflexivity.
  - destruct (String.eqb_spec k key) as [-> | Hk]; cbn [entry_of].
    + destruct (String.eqb_spec key key'); reflexivity.
    + rewrite IH. destruct (String.eqb_spec key key') as [<- | Hk'].
      * destruct (String.eqb_spec k key); [contradiction | reflexivity].
      * reflexivity.
Qed.

Lemma commit_loop_app (c : Commit) :
  forall l st,
    commit_loop st (l ++ [c])
    = match commit_loop st l with
      | JS.Return st' => commit_step st' c
      | JS.Throw e => JS.Throw e
      end.
Proof.
  induction l as [| x l IH]; intros st; cbn [app commit_loop].
  - destruct (commit_step st c); reflexivity.
  - destruct (commit_step st x) as [st' | e]; [apply IH | reflexivity].
Qed.

Lemma filter_snoc {A : Type} (p : A -> bool) (l : list A) (x : A) :
  filter p (l ++ [x]) = filter p l ++ (if p x then [x] else []).
Proof. rewrite filter_app. reflexivity. Qed.

(** What the loop of [analyzeCommits] has built after the commits [l],
    when no author has an inherited name; it throws when one has. *)
Lemma commit_loop_state (l : list Commit) :
  (existsb (fun c => JS.has SecurityManager.inherited_names (author c)) l = false ->
   exists authors types_seen timeline,
     commit_loop ([], [], []) l = JS.Return (authors, types_seen, timeline)
     /\ (forall name,
            entry_of authors name
            = match filter (fun c => String.eqb (author c) name) l with
              | [] => None
              | cs => Some {| a_count := List.length cs; a_commits := map abbrevHash cs |}
              end)
     /\ (forall type,
            entry_of types_seen type
            = match List.length
                      (filter (fun c => String.eqb (detectCommitType (message c)) type) l) with
              | 0 => None
              | n => Some n
              end)
     /\ timeline
        = map (fun c => {| t_hash := abbrevHash c; t_date := date c;
                           t_message := message c; t_author := author c |}) l)
  /\ (existsb (fun c => JS.has SecurityManager.inherited_names (author c)) l = true ->
      exists msg, commit_loop ([], [], []) l = JS.Throw (JS.TypeError msg)).
Proof.
  induction l as [| c l [IHok IHbad]] using rev_ind.
  - split; [intros _ | discriminate].
    exists [], [], []. repeat split; reflexivity.
  - rewrite existsb_app. cbn [existsb]. rewrite Bool.orb_false_r, commit_loop_app.
    destruct (existsb _ l) eqn:Hl.
    + split; [discriminate | intros _].
      destruct (IHbad eq_refl) as [msg ->]. exists msg. reflexivity.
    + cbn [orb]. destruct (IHok eq_refl) as [authors [types_seen [timeline [-> [Ha [Ht Hline]]]]]].
      unfold commit_step.
      destruct (JS.has SecurityManager.inherited_names (author c)) eqn:Hc.
      * split; [discriminate | intros _]. eexists. reflexivity.
      * split; [intros _ | discriminate].
        eexists _, _, _. split; [reflexivity | ]. repeat split.
        -- intros name. rewrite entry_update, filter_snoc.
           destruct (String.eqb_spec (author c) name) as [<- | Hn].
           ++ rewrite Ha.
              destruct (filter (fun c0 => String.eqb (author c0) (author c)) l) as [| x cs].
              ** reflexivity.
              ** cbn [app List.length map a_count a_commits].
                 rewrite ?length_app, ?map_app. cbn [List.length map].
                 rewrite ?Nat.add_1_r. reflexivity.
           ++ rewrite app_nil_r. apply Ha.
        -- intros type. rewrite entry_update, filter_snoc.
           destruct (String.eqb_spec (detectCommitType (message c)) type) as [<- | Hn].
           ++ rewrite Ht, length_app. cbn [List.length].
              destruct (List.length _) as [| n]; [reflexivity | ].
              rewrite !Nat.add_1_r. reflexivity.
           ++ rewrite app_nil_r. apply Ht.
        -- rewrite Hline, map_app. reflexivity.
Qed.

(** X9.  When [analyzeCommits] returns, [total] is the number of commits,
    the time line lists the commits in order, the entry of an author
    holds the abbreviated hashes of that author's commits in order with
    their number as count (and there is no entry for an author without
    commits), and the entry of a type is the number of commits that
    [detectCommitType] gives that type. *)
Theorem analyzeCommits_tallies (commits : list Commit) (a : CommitAnalysis) :
  analyzeCommits commits = JS.Return a ->
  total a = List.length commits
  /\ map t_hash (timeline a) = map abbrevHash commits
  /\ (forall name,
         entry_of (byAuthor a) name
         = match filter (fun c => String.eqb (author c) name) commits with
           | [] => None
           | cs => Some {| a_count := List.length cs; a_commits := map abbrevHash cs |}
           end)
  /\ (forall type,
         entry_of (byType a) type
         = match List.length
                   (filter (fun c => String.eqb (detectCommitType (message c)) type) commits) with
           | 0 => None
           | n => Some n
           end).
Proof.
  unfold analyzeCommits. intros H.
  destruct (commit_loop_state commits) as [Hok Hbad].
  destruct (existsb (fun c => JS.has SecurityManager.inherited_names (author c)) commits).
  - destruct (Hbad eq_refl) as [msg Hm]. rewrite Hm in H. discriminate H.
  - destruct (Hok eq_refl) as [authors [types_seen [timeline [Hl [Ha [Ht Hline]]]]]].
    rewrite Hl in H. injection H as <-. cbn [total byAuthor byType DiffAnalyzer.timeline].
    repeat split; auto.
    rewrite Hline, map_map. reflexivity.
Qed.

Lemma analyzeCommits_tallies_at_two_authors :
  exists a,
    analyzeCommits [ Examples.commit_with "a1" "feat: add the parser";
                     Examples.commit_with "a2" "fix: close the file" ] = JS.Return a
    /\ total a = 2
    /\ map t_hash (timeline a) = ["a1"; "a2"].
Proof.
  eexists. split; [vm_compute; reflexivity | ].
  match goal with
  | |- total ?a = _ /\ _ =>
      destruct (@analyzeCommits_tallies
                  [ Examples.commit_with "a1" "feat: add the parser";
                    Examples.commit_with "a2" "fix: close the file" ] a)
        as [H1 [H2 _]]
  end.
  - vm_compute. reflexivity.
  - split; [exact H1 | exact H2].
Defined.

(** X10.  [analyzeCommits] throws a [TypeError] exactly when the author
    name of some commit is a property that every object inherits, such
    as [constructor] or [toString]: the entry found for that name is not
    one the loop made. *)
Theorem analyzeCommits_throws_on_inherited_name (commits : list Commit) :
  (exists e, analyzeCommits commits = JS.Throw e)
  <-> exists c, In c commits /\ In (author c) SecurityManager.inherited_names.
Proof.
  unfold analyzeCommits.
  destruct (commit_loop_state commits) as [Hok Hbad].
  destruct (existsb (fun c => JS.has SecurityManager.inherited_names (author c)) commits) eqn:E.
  - destruct (Hbad eq_refl) as [msg ->]. split.
    + intros _. apply existsb_exists in E. destruct E as [c [Hc Hn]].
      exists c. split; [exact Hc | apply has_In; exact Hn].
    + intros _. eexists. reflexivity.
  - destruct (Hok eq_refl) as [authors [types_seen [timeline [-> _]]]]. split.
    + intros [e He]. discriminate He.
    + intros [c [Hc Hn]].
      assert (existsb (fun c => JS.has SecurityManager.inherited_names (author c)) commits = true)
        as Ht.
      { apply existsb_exists. exists c. split; [exact Hc | apply has_In; exact Hn]. }
      congruence.
Qed.

End DiffReport.

(** *** The roll-up, the comparison of two versions and file names *)

Section DiffFiles.
Import Repository DiffAnalyzer.

Lemma list_sum_step (x : nat) (l : list nat) : list_sum (x :: l) = x + list_sum l.
Proof. reflexivity. Qed.

(** The counters of [calculateMetrics] after the files, from any start. *)
Lemma rollup_fold (files : list FileAnalysis) :
  forall sum highCount issues securityIssues performanceIssues testFiles sourceFiles,
    fold_left rollup_step files
              (sum, highCount, (issues, securityIssues, performanceIssues),
               (testFiles, sourceFiles))
    = (sum + list_sum (map (fun r => or_zero (cyclomatic_of (changes r))) files),
       highCount
       + List.length (filter (fun r => exceeds (cyclomatic_of (changes r)) 10) files),
       (issues
        + list_sum (map (fun r => match report_of r with
                                  | Some a => List.length (CodeAnalyzer.bugs (CodeAnalyzer.issues a))
                                  | None => 0
                                  end) files),
        securityIssues
        + list_sum (map (fun r => or_zero (security_length_of (changes r))) files),
        performanceIssues
        + list_sum (map (fun r => match report_of r with
                                  | Some a =>
                                      List.length (CodeAnalyzer.performance (CodeAnalyzer.issues a))
                                  | None => 0
                                  end) files)),
       (testFiles
        + List.length (filter (fun r => JS.includes (path r) "test"
                                        || JS.includes (path r) "spec") files),
        sourceFiles
        + List.length (filter (fun r => negb (JS.includes (path r) "test"
                                              || JS.includes (path r) "spec")) files))).
Proof.
  induction files as [| r files IH]; intros; cbn [fold_left map filter].
  - cbn [list_sum fold_right List.length]. rewrite !Nat.add_0_r. reflexivity.
  - rewrite !list_sum_step. unfold rollup_step at 2. unfold report_of, cyclomatic_of, security_length_of, exceeds, or_zero.
    destruct (code (changes r)) as [[a | msg] | ];
      try destruct (Nat.ltb 10 _);
      destruct (JS.includes (path r) "test" || JS.includes (path r) "spec")%bool;
      rewrite IH; cbn [negb List.length];
      unfold report_of, cyclomatic_of, security_length_of, exceeds, or_zero;
      repeat (match goal with |- (_, _) = (_, _) => apply f_equal2 end); lia.
Qed.

Lemma filter_partition {A : Type} (p : A -> bool) (l : list A) :
  List.length (filter p l) + List.length (filter (fun x => negb (p x)) l) = List.length l.
Proof.
  induction l as [| x l IH]; [reflexivity | ].
  cbn [filter]. destruct (p x); cbn [negb List.length]; lia.
Qed.

Lemma high_files_weigh (files : list FileAnalysis) :
  11 * List.length (filter (fun r => exceeds (cyclomatic_of (changes r)) 10) files)
  <= list_sum (map (fun r => or_zero (cyclomatic_of (changes r))) files).
Proof.
  induction files as [| r files IH]; [cbn [filter map List.length]; lia | ].
  cbn [filter map]. rewrite list_sum_step.
  destruct (cyclomatic_of (changes r)) as [v | ]; cbn [exceeds or_zero].
  - destruct (Nat.ltb_spec 10 v); cbn [List.length]; lia.
  - cbn [List.length]. lia.
Qed.

(** X11.  In the roll-up of [calculateMetrics] every file is counted once,
    as a test file when its path contains test or spec and as a source
    file otherwise; a file counts as highly complex when its cyclomatic
    complexity is above 10, so eleven times their number is at most the
    total; and the average is the total over the number of all files,
    analysed or not. *)
Theorem calculateMetrics_rollup (files : list FileAnalysis) :
  let m := calculateMetrics files in
  m_testFiles (m_coverage m) + m_sourceFiles (m_coverage m) = List.length files
  /\ m_testFiles (m_coverage m)
     = List.length (filter (fun r => JS.includes (path r) "test"
                                     || JS.includes (path r) "spec") files)
  /\ (m_hasTests (m_coverage m) = true
      <-> exists r, In r files
                    /\ (JS.includes (path r) "test" = true
                        \/ JS.includes (path r) "spec" = true))
  /\ m_high (m_complexity m) <= List.length files
  /\ 11 * m_high (m_complexity m) <= m_total (m_complexity m)
  /\ (files <> [] ->
      (m_average (m_complexity m) * JS.num (List.length files)
       == JS.num (m_total (m_complexity m)))%Q).
Proof.
  cbv zeta. unfold calculateMetrics. rewrite rollup_fold.
  cbn [m_coverage m_complexity m_testFiles m_sourceFiles m_hasTests m_high m_total m_average
       Nat.add].
  split; [apply filter_partition | ].
  split; [reflexivity | ].
  split.
  { rewrite Nat.ltb_lt. split.
    - intros H. destruct (filter _ files) as [| r hits] eqn:E; [cbn in H; lia | ].
      assert (In r (filter (fun r => JS.includes (path r) "test"
                                     || JS.includes (path r) "spec")%bool files)) as Hin
        by (rewrite E; left; reflexivity).
      apply filter_In in Hin. destruct Hin as [Hin Hr].
      apply Bool.orb_true_iff in Hr. exists r. split; assumption.
    - intros [r [Hin Hr]].
      assert (In r (filter (fun r => JS.includes (path r) "test"
                                     || JS.includes (path r) "spec")%bool files)) as Hf.
      { apply filter_In. split; [exact Hin | apply Bool.orb_true_iff; exact Hr]. }
      destruct (filter _ files); [destruct Hf | cbn; lia]. }
  split; [apply filter_length_le | ].
  split; [apply high_files_weigh | ].
  intros Hne. destruct files as [| r files]; [contradiction | ].
  cbn [List.length Nat.ltb Nat.leb].
  set (n := S (List.length files)). set (total := list_sum _).
  unfold JS.num. field. intros H.
  assert (inject_Z (Z.of_nat n) == 0 -> False)%Q as Hz.
  { unfold Qeq. cbn [Qnum Qden inject_Z]. unfold n. lia. }
  apply Hz. exact H.
Qed.

(** X12.  [compareVersions]: the size change is the lines added less the
    lines removed, and one of the two is zero.  An empty target counts
    as no line at all while an empty source counts as one line; between
    two non-empty contents, exchanging them exchanges the lines added and
    removed and negates the size change. *)
Theorem compareVersions_balance (sourceContent targetContent : string) :
  let c := compareVersions sourceContent targetContent in
  sizeChange c = (Z.of_nat (linesAdded c) - Z.of_nat (linesRemoved c))%Z
  /\ (linesAdded c = 0 \/ linesRemoved c = 0)
  /\ (sourceContent <> EmptyString -> targetContent <> EmptyString ->
      compareVersions targetContent sourceContent
      = {| linesAdded := linesRemoved c; linesRemoved := linesAdded c;
           sizeChange := (- sizeChange c)%Z |})
  /\ compareVersions EmptyString EmptyString
     = {| linesAdded := 0; linesRemoved := 1; sizeChange := (-1)%Z |}.
Proof.
  cbv zeta. unfold compareVersions.
  cbn [linesAdded linesRemoved sizeChange].
  repeat split; try (destruct (negb (String.eqb targetContent "")); lia).
  intros Hs Ht.
  destruct (String.eqb_spec targetContent "") as [-> | _]; [contradiction | ].
  destruct (String.eqb_spec sourceContent "") as [-> | _]; [contradiction | ].
  cbn [negb]. f_equal; lia.
Qed.

Lemma join_cons (sep x : string) (l : list string) :
  l <> [] -> JS.join sep (x :: l) = (x ++ sep ++ JS.join sep l)%string.
Proof. destruct l; [contradiction | reflexivity]. Qed.

Lemma split_on_not_nil (sep : ascii) (s : string) : JS.split_on sep s <> [].
Proof.
  pose proof (split_on_nonempty sep s) as H.
  destruct (JS.split_on sep s); [cbn in H; lia | discriminate].
Qed.

(** Joining the pieces of a split with the separator gives the text
    back. *)
Lemma join_split_on (sep : ascii) (s : string) :
  JS.join (String sep EmptyString) (JS.split_on sep s) = s.
Proof.
  induction s as [| c s IH]; [reflexivity | ].
  cbn [JS.split_on]. destruct (Ascii.eqb_spec c sep) as [-> | Hc].
  - rewrite join_cons by apply split_on_not_nil. rewrite IH. reflexivity.
  - pose proof (split_on_not_nil sep s) as Hne.
    destruct (JS.split_on sep s) as [| piece more]; [contradiction | ].
    destruct more as [| next more].
    + cbn [JS.join] in *. rewrite IH. reflexivity.
    + rewrite join_cons by discriminate. rewrite join_cons in IH by discriminate.
      rewrite <- IH. reflexivity.
Qed.

Lemma split_on_pieces (sep : ascii) (s : string) :
  Forall (fun piece => ~ In sep (JS.chars piece)) (JS.split_on sep s).
Proof.
  induction s as [| c s IH]; cbn [JS.split_on].
  - constructor; [intros [] | constructor].
  - destruct (Ascii.eqb_spec c sep) as [-> | Hc].
    + constructor; [intros [] | exact IH].
    + destruct (JS.split_on sep s) as [| piece more].
      * constructor; [ | constructor]. intros [H | []]. contradiction.
      * inversion IH as [| ? ? Hp Hm]; subst. constructor; [ | exact Hm].
        intros [H | H]; [contradiction | apply Hp; exact H].
Qed.

Lemma split_on_single (sep : ascii) (s : string) :
  ~ In sep (JS.chars s) -> JS.split_on sep s = [s].
Proof.
  induction s as [| c s IH]; intros H; [reflexivity | ].
  cbn [JS.split_on]. destruct (Ascii.eqb_spec c sep) as [-> | Hc].
  - exfalso. apply H. left. reflexivity.
  - rewrite IH; [reflexivity | ]. intros Hin. apply H. right. exact Hin.
Qed.

Lemma split_on_several (sep : ascii) (s : string) :
  In sep (JS.chars s) -> 1 < List.length (JS.split_on sep s).
Proof.
  induction s as [| c s IH]; intros H; [destruct H | ].
  cbn [JS.split_on]. destruct (Ascii.eqb_spec c sep) as [-> | Hc].
  - pose proof (split_on_nonempty sep s). cbn [List.length]. lia.
  - destruct H as [H | H]; [contradiction | ]. specialize (IH H).
    destruct (JS.split_on sep s) as [| piece more]; [cbn in IH; lia | exact IH].
Qed.

Lemma append_associative (a b c : string) : ((a ++ b) ++ c)%string = (a ++ b ++ c)%string.
Proof. induction a as [| x a IH]; [reflexivity | cbn [String.append]; rewrite IH; reflexivity]. Qed.

Lemma join_snoc (sep x : string) (l : list string) :
  l <> [] -> JS.join sep (l ++ [x]) = (JS.join sep l ++ sep ++ x)%string.
Proof.
  induction l as [| y l IH]; intros Hne; [contradiction | ].
  destruct l as [| z l].
  - reflexivity.
  - change ((y :: z :: l) ++ [x]) with (y :: ((z :: l) ++ [x])).
    rewrite join_cons by (cbn [app]; discriminate).
    rewrite IH by discriminate. rewrite (@join_cons sep y (z :: l)) by discriminate.
    rewrite !append_associative. reflexivity.
Qed.

(** X13.  [getFileExtension] never holds a period.  A path without a
    period has the empty extension and the language unknown; a path with
    one is a stem, a period and the extension. *)
Theorem getFileExtension_splits (filePath : string) :
  ~ In "."%char (JS.chars (getFileExtension filePath))
  /\ (~ In "."%char (JS.chars filePath) ->
      getFileExtension filePath = EmptyString /\ detectLanguage filePath = "unknown")
  /\ (In "."%char (JS.chars filePath) ->
      exists stem, filePath = (stem ++ "." ++ getFileExtension filePath)%string).
Proof.
  split; [ | split].
  - unfold getFileExtension. cbv zeta.
    destruct (Nat.ltb 1 _); [ | intros []].
    pose proof (split_on_pieces "." filePath) as Hall.
    pose proof (split_on_not_nil "." filePath) as Hne.
    destruct (exists_last Hne) as [front [x E]]. rewrite E in *.
    rewrite last_last. apply Forall_app in Hall. destruct Hall as [_ Hx].
    inversion Hx; assumption.
  - intros H.
    assert (getFileExtension filePath = EmptyString) as E.
    { unfold getFileExtension. rewrite (@split_on_single "." filePath H). reflexivity. }
    split; [exact E | ]. unfold detectLanguage. rewrite E. reflexivity.
  - intros H. unfold getFileExtension. cbv zeta.
    pose proof (@split_on_several "." filePath H) as Hlen.
    destruct (Nat.ltb_spec 1 (List.length (JS.split_on "." filePath))); [ | lia].
    pose proof (join_split_on "." filePath) as Hjoin.
    pose proof (split_on_not_nil "." filePath) as Hne.
    destruct (exists_last Hne) as [front [x E]]. rewrite E in *.
    rewrite last_last.
    assert (front <> []) as Hf.
    { destruct front; [cbn in Hlen; lia | discriminate]. }
    rewrite join_snoc in Hjoin by exact Hf.
    exists (JS.join "." front). symmetry. exact Hjoin.
Qed.

(** What [analyzeFunctionalChanges] returns, from the parts of the two
    analyses it reads; it issues no command. *)
Lemma analyzeFunctionalChanges_parts (oldContent newContent language : string)
      (tr : list Command) :
  let names content :=
    map FileContentAnalyzer.f_name (FileContentAnalyzer.extractFunctions content language) in
  let classes content :=
    map FileContentAnalyzer.c_name (FileContentAnalyzer.extractClasses content language) in
  let deps content :=
    JS.new_Set (FileContentAnalyzer.extractDependencies content language) in
  let purpose content := FileContentAnalyzer.detectFilePurpose "" content in
  analyzeFunctionalChanges oldContent newContent language tr
  = (JS.Return
       {| addedFunctions := missing_from (JS.new_Set (names oldContent)) (names newContent);
          removedFunctions := missing_from (JS.new_Set (names newContent)) (names oldContent);
          modifiedFunctions := [];
          addedClasses := missing_from (JS.new_Set (classes oldContent)) (classes newContent);
          removedClasses := missing_from (JS.new_Set (classes newContent)) (classes oldContent);
          addedDependencies := missing_from (deps oldContent) (deps newContent);
          removedDependencies := missing_from (deps newContent) (deps oldContent);
          purposeChange :=
            if negb (String.eqb (JS.join "," (purpose oldContent))
                                (JS.join "," (purpose newContent)))
            then Some (purpose oldContent, purpose newContent) else None;
          complexityChange :=
            (Z.of_nat (FileContentAnalyzer.calculateComplexity newContent)
             - Z.of_nat (FileContentAnalyzer.calculateComplexity oldContent))%Z |},
     tr).
Proof. reflexivity. Qed.

Lemma missing_from_itself (l others : list string) :
  incl l others -> missing_from (JS.new_Set others) l = [].
Proof.
  unfold missing_from. induction l as [| x l IH]; intros H; [reflexivity | ].
  cbn [filter]. rewrite has_new_Set.
  assert (JS.has others x = true) as Hx by (apply has_In; apply H; left; reflexivity).
  rewrite Hx. cbn [negb]. apply IH. intros y Hy. apply H. right. exact Hy.
Qed.

Lemma incl_new_Set (l : list string) : incl (JS.new_Set l) l.
Proof. intros x H. apply has_In. rewrite <- has_new_Set. apply has_In. exact H. Qed.

(** X14.  Between a content and itself [analyzeFunctionalChanges] finds
    no change at all, and it issues no command. *)
Theorem analyzeFunctionalChanges_same_content (content language : string)
        (tr : list Command) :
  analyzeFunctionalChanges content content language tr
  = (JS.Return
       {| addedFunctions := []; removedFunctions := []; modifiedFunctions := [];
          addedClasses := []; removedClasses := [];
          addedDependencies := []; removedDependencies := [];
          purposeChange := None; complexityChange := 0%Z |},
     tr).
Proof.
  rewrite analyzeFunctionalChanges_parts. cbv zeta.
  rewrite !missing_from_itself by (try apply incl_refl; apply incl_new_Set).
  rewrite String.eqb_refl, Z.sub_diag. reflexivity.
Qed.

Lemma missing_from_spec (others l : list string) (x : string) :
  In x (missing_from (JS.new_Set others) l) <-> In x l /\ ~ In x others.
Proof.
  unfold missing_from. rewrite filter_In, has_new_Set, Bool.negb_true_iff.
  pose proof (has_In others x) as H.
  destruct (JS.has others x); intuition (auto; discriminate).
Qed.

(** X15.  Exchanging the old and the new content exchanges what
    [analyzeFunctionalChanges] reports as added and as removed and
    negates the complexity change; and no name is reported both as
    added and as removed. *)
Theorem analyzeFunctionalChanges_exchange (oldContent newContent language : string)
        (tr : list Command) :
  exists forward backward,
    analyzeFunctionalChanges oldContent newContent language tr = (JS.Return forward, tr)
    /\ analyzeFunctionalChanges newContent oldContent language tr = (JS.Return backward, tr)
    /\ addedFunctions backward = removedFunctions forward
    /\ removedFunctions backward = addedFunctions forward
    /\ addedClasses backward = removedClasses forward
    /\ removedClasses backward = addedClasses forward
    /\ addedDependencies backward = removedDependencies forward
    /\ removedDependencies backward = addedDependencies forward
    /\ complexityChange backward = (- complexityChange forward)%Z
    /\ (purposeChange forward = None <-> purposeChange backward = None)
    /\ (forall name, In name (addedFunctions forward) -> ~ In name (removedFunctions forward))
    /\ (forall name, In name (addedClasses forward) -> ~ In name (removedClasses forward))
    /\ (forall name, In name (addedDependencies forward)
                     -> ~ In name (removedDependencies forward)).
Proof.
  eexists. eexists.
  split; [apply analyzeFunctionalChanges_parts | ].
  split; [apply analyzeFunctionalChanges_parts | ].
  cbn [addedFunctions removedFunctions addedClasses removedClasses addedDependencies
       removedDependencies complexityChange purposeChange].
  repeat split; try reflexivity; try lia.
  - rewrite String.eqb_sym. destruct (String.eqb _ _); cbn; [reflexivity | discriminate].
  - rewrite String.eqb_sym. destruct (String.eqb _ _); cbn; [reflexivity | discriminate].
  - intros name Ha Hr. apply missing_from_spec in Ha, Hr. tauto.
  - intros name Ha Hr. apply missing_from_spec in Ha, Hr. tauto.
  - intros name Ha Hr. unfold missing_from in Ha, Hr.
    apply filter_In in Ha, Hr. destruct Ha as [Ha1 Ha2], Hr as [Hr1 Hr2].
    apply Bool.negb_true_iff in Ha2.
    assert (JS.has (JS.new_Set (FileContentAnalyzer.extractDependencies oldContent language))
                   name = true) as Ht by (apply has_In; exact Hr1).
    congruence.
Qed.

Local Arguments FileContentAnalyzer.analyzeFileContent : simpl never.
Local Arguments CodeAnalyzer.analyzeCode : simpl never.
Local Arguments SecurityManager.validateGitCommand : simpl never.
Local Arguments calculateImpact : simpl never.
Local Arguments detectLanguage : simpl never.
Local Arguments getFileExtension : simpl never.
Local Arguments compareVersions : simpl never.

Lemma getFileContent_cases (g : Git) (branch filePath : string) :
  getFileContent g branch filePath
  = (fun tr => (JS.Return (show g branch filePath), tr ++ [Show branch filePath]))
  \/ exists e, getFileContent g branch filePath = (fun tr => (JS.Throw e, tr)).
Proof.
  destruct (SecurityManager.validateGitCommand (Spec.show_command branch filePath)) eqn:E.
  - left. eapply getFileContent_valid. exact E.
  - right. exists e. apply getFileContent_blocked. exact E.
Qed.

Ltac read_cases g :=
  repeat match goal with
         | |- context [getFileContent g ?b ?p] =>
             destruct (getFileContent_cases g b p) as [-> | [? ->]]
         end.

Ltac classify :=
  repeat match goal with
         | |- context [FileContentAnalyzer.analyzeFileContent ?p (JS.Str ?c) ?l] =>
             let a := fresh "a" in
             let Ha := fresh "Ha" in
             destruct (analyzeFileContent_string p c l) as [a Ha]; rewrite Ha
         end.

(** What [analyzeFile] does for one entry: it issues only [git show] for
    the path of the entry at one of the two refs, and the record it
    returns carries the path and the status of the entry and the impact
    computed from the record itself. *)
Lemma analyzeFile_outcome (g : Git) (file : File) (sourceBranch targetBranch : string)
      (filters : Filters) (tr : list Command) :
  exists c tr',
    analyzeFile g file sourceBranch targetBranch filters tr = (c, tr')
    /\ (exists extra,
           tr' = tr ++ extra
           /\ Forall (fun command => command = Show sourceBranch (file_path file)
                                     \/ command = Show targetBranch (file_path file)) extra)
    /\ forall r, c = JS.Return r ->
                 path r = file_path file
                 /\ status r = file_status file
                 /\ additions r = or_zero (file_additions file)
                 /\ deletions r = or_zero (file_deletions file)
                 /\ impact r = Some (calculateImpact r).
Proof.
  unfold analyzeFile. cbv zeta.
  destruct (String.eqb (file_status file) "added");
    destruct (String.eqb (file_status file) "modified");
    destruct (String.eqb (file_status file) "deleted");
    cbv beta iota delta [orb];
    read_cases g;
    unfold bind, ret, lift, present; cbv beta iota;
    repeat match goal with
           | |- context [JS.truthy_opt ?o] => destruct (JS.truthy_opt o)
           end;
    cbv beta iota delta [andb];
    classify;
    rewrite ?analyzeFunctionalChanges_parts; cbv beta iota zeta;
    (eexists; eexists; split; [reflexivity | ]; split;
     [ first [ exists []; split; [symmetry; apply app_nil_r | constructor]
             | rewrite <- ?app_assoc; eexists; split;
               [reflexivity
               | repeat (apply Forall_cons;
                         [first [left; reflexivity | right; reflexivity] | ]);
                 apply Forall_nil] ]
     | intros r Hr; first [discriminate Hr | injection Hr as <-];
       cbn [path status additions deletions impact changes];
       repeat split; unfold calculateImpact; reflexivity ]).
Qed.

Lemma analyzeFiles_outcome (g : Git) (sourceBranch targetBranch : string) (filters : Filters)
      (files : list File) :
  forall tr,
  exists c extra,
    analyzeFiles g files sourceBranch targetBranch filters tr = (c, tr ++ extra)
    /\ Forall (fun command =>
                 exists ref filePath,
                   command = Show ref filePath
                   /\ (ref = sourceBranch \/ ref = targetBranch)
                   /\ In filePath (map file_path files)) extra
    /\ forall rs, c = JS.Return rs ->
                  map path rs = map file_path files
                  /\ map status rs = map file_status files
                  /\ map additions rs = map (fun f => or_zero (file_additions f)) files
                  /\ map deletions rs = map (fun f => or_zero (file_deletions f)) files
                  /\ Forall (fun r => impact r = Some (calculateImpact r)) rs.
Proof.
  induction files as [| file files IH]; intros tr.
  - exists (JS.Return []), []. split; [cbn; rewrite app_nil_r; reflexivity | ].
    split; [constructor | ]. intros rs E. injection E as <-. repeat split; constructor.
  - rewrite analyzeFiles_cons. unfold bind.
    destruct (analyzeFile_outcome g file sourceBranch targetBranch filters tr)
      as [c [tr' [-> [[extra [-> Hextra]] Hr]]]].
    assert (Forall (fun command =>
                      exists ref filePath,
                        command = Show ref filePath
                        /\ (ref = sourceBranch \/ ref = targetBranch)
                        /\ In filePath (map file_path (file :: files))) extra) as Hfirst.
    { eapply Forall_impl; [ | exact Hextra]. cbv beta.
      intros command [-> | ->]; eexists _, _; (split; [reflexivity | ]);
        (split; [auto | left; reflexivity]). }
    destruct c as [r | e].
    + destruct (IH (tr ++ extra)) as [c [more [-> [Hmore Hrs]]]].
      assert (Forall (fun command =>
                        exists ref filePath,
                          command = Show ref filePath
                          /\ (ref = sourceBranch \/ ref = targetBranch)
                          /\ In filePath (map file_path (file :: files))) more) as Hrest.
      { eapply Forall_impl; [ | exact Hmore]. cbv beta.
        intros command [ref [filePath [-> [Href Hin]]]].
        exists ref, filePath. split; [reflexivity | ]. split; [exact Href | right; exact Hin]. }
      destruct c as [rs | e]; unfold ret.
      * exists (JS.Return (r :: rs)), (extra ++ more).
        split; [rewrite app_assoc; reflexivity | ].
        split; [apply Forall_app; split; assumption | ].
        intros rs' E. injection E as <-.
        destruct (Hr r eq_refl) as [H1 [H2 [H3 [H4 H5]]]].
        destruct (Hrs rs eq_refl) as [K1 [K2 [K3 [K4 K5]]]].
        cbn [map]. rewrite H1, H2, H3, H4, K1, K2, K3, K4.
        repeat split. constructor; assumption.
      * exists (JS.Throw e), (extra ++ more).
        split; [rewrite app_assoc; reflexivity | ].
        split; [apply Forall_app; split; assumption | ].
        intros rs' E. discriminate E.
    + exists (JS.Throw e), extra. split; [reflexivity | ]. split; [exact Hfirst | ].
      intros rs E. discriminate E.
Qed.

(** X16.  When [analyzeFiles] returns, there is one record for every
    entry of the diff, in the order of the entries, with the path and
    the status of its entry, the numbers of added and deleted lines of
    the entry (zero when the entry has none), and as impact the impact
    of the record itself. *)
Theorem analyzeFiles_records
        (g : Git) (files : list File) (sourceBranch targetBranch : string)
        (filters : Filters) (tr tr' : list Command) (records : list FileAnalysis) :
  analyzeFiles g files sourceBranch targetBranch filters tr = (JS.Return records, tr') ->
  map path records = map file_path files
  /\ map status records = map file_status files
  /\ map additions records = map (fun f => or_zero (file_additions f)) files
  /\ map deletions records = map (fun f => or_zero (file_deletions f)) files
  /\ Forall (fun r => impact r = Some (calculateImpact r)) records.
Proof.
  intros H.
  destruct (analyzeFiles_outcome g sourceBranch targetBranch filters files tr)
    as [c [extra [E [_ Hrs]]]].
  rewrite E in H. injection H as -> _. apply Hrs. reflexivity.
Qed.

Lemma analyzeFiles_records_at_two_files :
  exists records tr',
    analyzeFiles (Examples.one_file "x = 1;")
                 [Examples.entry "src/a.js" "added"; Examples.entry "docs/b.md" "deleted"]
                 "feature" "main" no_filters []
    = (JS.Return records, tr')
    /\ map path records = ["src/a.js"; "docs/b.md"]
    /\ map status records = ["added"; "deleted"].
Proof.
  destruct (analyzeFiles_outcome (Examples.one_file "x = 1;") "feature" "main" no_filters
              [Examples.entry "src/a.js" "added"; Examples.entry "docs/b.md" "deleted"] [])
    as [c [extra [E _]]].
  destruct c as [records | e].
  - exists records, ([] ++ extra). split; [exact E | ].
    destruct (@analyzeFiles_records _ _ _ _ _ _ _ _ E) as [H1 [H2 _]].
    split; [exact H1 | exact H2].
  - exfalso. vm_compute in E. discriminate E.
Defined.

(** X17.  Whether it returns or throws, [analyzeFiles] issues nothing but
    [git show] commands, each for the path of an entry of the diff at
    the source or the target ref. *)
Theorem analyzeFiles_only_shows
        (g : Git) (files : list File) (sourceBranch targetBranch : string)
        (filters : Filters) (tr : list Command) :
  exists issued,
    snd (analyzeFiles g files sourceBranch targetBranch filters tr) = tr ++ issued
    /\ Forall (fun command =>
                 exists ref filePath,
                   command = Show ref filePath
                   /\ (ref = sourceBranch \/ ref = targetBranch)
                   /\ In filePath (map file_path files)) issued.
Proof.
  destruct (analyzeFiles_outcome g sourceBranch targetBranch filters files tr)
    as [c [extra [E [Hextra _]]]].
  exists extra. rewrite E. split; [reflexivity | exact Hextra].
Qed.

Lemma analyzeFiles_app (g : Git) (sourceBranch targetBranch : string) (filters : Filters)
      (after : list File) :
  forall before tr,
    analyzeFiles g (before ++ after) sourceBranch targetBranch filters tr
    = match analyzeFiles g before sourceBranch targetBranch filters tr with
      | (JS.Return records, tr1) =>
          match analyzeFiles g after sourceBranch targetBranch filters tr1 with
          | (JS.Return more, tr2) => (JS.Return (records ++ more), tr2)
          | (JS.Throw e, tr2) => (JS.Throw e, tr2)
          end
      | (JS.Throw e, tr1) => (JS.Throw e, tr1)
      end.
Proof.
  induction before as [| file before IH]; intros tr.
  - cbn [app]. unfold analyzeFiles at 2. cbn [mapM]. unfold ret.
    destruct (analyzeFiles g after sourceBranch targetBranch filters tr) as [[more | e] tr2];
      reflexivity.
  - cbn [app]. rewrite !analyzeFiles_cons. unfold bind.
    destruct (analyzeFile g file sourceBranch targetBranch filters tr) as [[r | e] tr1];
      [ | reflexivity].
    rewrite IH.
    destruct (analyzeFiles g before sourceBranch targetBranch filters tr1)
      as [[records | e] tr2]; [ | reflexivity].
    unfold ret. cbv beta iota.
    destruct (analyzeFiles g after sourceBranch targetBranch filters tr2)
      as [[more | e] tr3]; reflexivity.
Qed.

(** X18.  [analyzeFiles] gives all or nothing: when the analysis of one
    entry throws, the call throws that error, and the records of the
    entries before it are not returned. *)
Theorem analyzeFiles_all_or_nothing
        (g : Git) (before after : list File) (file : File)
        (sourceBranch targetBranch : string) (filters : Filters)
        (tr tr1 tr2 : list Command) (records : list FileAnalysis) (e : JS.exn) :
  analyzeFiles g before sourceBranch targetBranch filters tr = (JS.Return records, tr1) ->
  analyzeFile g file sourceBranch targetBranch filters tr1 = (JS.Throw e, tr2) ->
  analyzeFiles g (before ++ file :: after) sourceBranch targetBranch filters tr
  = (JS.Throw e, tr2).
Proof.
  intros Hb Hf. rewrite analyzeFiles_app, Hb, analyzeFiles_cons. unfold bind.
  rewrite Hf. reflexivity.
Qed.

Lemma analyzeFiles_all_or_nothing_at_forced_path :
  exists e,
    analyzeFiles (Examples.one_file "x = 1;")
                 ([Examples.entry "src/a.js" "added"]
                    ++ Examples.entry "notes --force.txt" "added"
                    :: [Examples.entry "src/c.js" "added"])
                 "feature" "main" no_filters []
    = (JS.Throw e, [Show "feature" "src/a.js"]).
Proof.
  destruct (analyzeFiles (Examples.one_file "x = 1;") [Examples.entry "src/a.js" "added"]
                         "feature" "main" no_filters [])
    as [[records | e0] tr1] eqn:Hb; [ | exfalso; vm_compute in Hb; discriminate Hb].
  assert (tr1 = [Show "feature" "src/a.js"]) as ->.
  { vm_compute in Hb. injection Hb as _ <-. reflexivity. }
  eexists.
  apply (@analyzeFiles_all_or_nothing _ _ _ _ _ _ _ _ _ _ records _ Hb).
  vm_compute. reflexivity.
Defined.

Lemma filterCommitRange_length (commits : list Commit) (fromCommit toCommit : option string) :
  List.length (filterCommitRange commits fromCommit toCommit) <= List.length commits.
Proof.
  unfold filterCommitRange, slice. cbv zeta. rewrite length_firstn, length_skipn. lia.
Qed.

Lemma In_window (maxCount : nat) (l : list Commit) (c : Commit) :
  In c (window maxCount l) -> In c l.
Proof. destruct maxCount; [auto | apply In_firstn]. Qed.

Lemma window_length (maxCount : nat) (l : list Commit) :
  0 < maxCount -> List.length (window maxCount l) <= maxCount.
Proof.
  destruct maxCount; [lia | ]. intros _. unfold window. rewrite length_firstn. lia.
Qed.

(** The filters of [getCommitHistory] only take commits away. *)
Lemma getCommitHistory_narrows
      (g : Git) (branch : string) (limit : nat) (filters : Filters) (b : bool)
      (commits : list Commit) (tr tr' : list Command) :
  SecurityManager.validateGitCommand (Spec.log_command branch) = JS.Return b ->
  getCommitHistory g branch limit filters tr = (JS.Return commits, tr') ->
  List.length commits
  <= List.length (window limit (listing g (Spec.log_options branch filters))).
Proof.
  intros E. unfold getCommitHistory, Spec.log_command in *. rewrite E.
  unfold bind, lift, git_log, issue, ret. cbv beta iota zeta.
  fold (Spec.log_options branch filters).
  set (listed := window limit (listing g (Spec.log_options branch filters))).
  intros Hrun. injection Hrun as <- _.
  assert (forall (l : list Commit) p, List.length l <= List.length listed ->
                                      List.length (filter p l) <= List.length listed)
    as Hfilter.
  { intros l p Hl. pose proof (filter_length_le p l). lia. }
  repeat match goal with
         | |- context [if ?c then _ else _] => destruct c
         end;
    repeat first [ apply Hfilter
                 | eapply Nat.le_trans; [apply filterCommitRange_length | ]
                 | apply Nat.le_refl ].
Qed.

(** X19.  [getCommitHistory] validates the command before anything else:
    when the command is refused it throws that error and git is not
    run.  When it returns commits, it has run [git log] once, with the
    limit as count and the options derived from the branch and the
    filters; the commits are among those git lists for these options,
    and for a limit other than 0 there are at most that many.  With the
    limit 0 no count is passed: without a filter on author, range or
    commit the whole listing is returned. *)
Theorem getCommitHistory_within_limit
        (g : Git) (branch : string) (limit : nat) (filters : Filters) (tr : list Command) :
  (forall e,
      SecurityManager.validateGitCommand (Spec.log_command branch) = JS.Throw e ->
      getCommitHistory g branch limit filters tr = (JS.Throw e, tr))
  /\ (forall commits tr',
         getCommitHistory g branch limit filters tr = (JS.Return commits, tr') ->
         tr' = tr ++ [Log (Spec.log_options branch filters) limit]
         /\ (0 < limit -> List.length commits <= limit)
         /\ incl commits (listing g (Spec.log_options branch filters))
         /\ (limit = 0 ->
             JS.truthy_opt (f_author filters) = false ->
             JS.truthy_opt (fromCommit filters) = false ->
             JS.truthy_opt (toCommit filters) = false ->
             JS.truthy_opt (commit filters) = false ->
             commits = listing g (Spec.log_options branch filters))).
Proof.
  split.
  - intros e E. unfold getCommitHistory, Spec.log_command in *. rewrite E. reflexivity.
  - intros commits tr' Hrun.
    destruct (SecurityManager.validateGitCommand (Spec.log_command branch)) as [b | e] eqn:E.
    + pose proof (@getCommitHistory_narrows g branch limit filters b commits tr tr' E Hrun)
        as Hlen.
      destruct (@getCommitHistory_valid g branch limit filters b E)
        as [listed [Hvalid [Hincl [_ Hall]]]].
      rewrite Hvalid in Hrun. injection Hrun as <- <-.
      split; [reflexivity | ]. split; [ | split].
      * intros Hpos.
        pose proof (@window_length limit (listing g (Spec.log_options branch filters)) Hpos).
        lia.
      * intros c Hc. eapply In_window. apply Hincl. exact Hc.
      * intros -> Ha Hf Ht Hc. rewrite (Hall Ha Hf Ht Hc). reflexivity.
    + unfold getCommitHistory, Spec.log_command in *. rewrite E in Hrun. discriminate Hrun.
Qed.

(** The theorem on the branch main of a repository with 501 commits:
    the limit 2 gives the two most recent ones. *)
Lemma getCommitHistory_within_limit_at_two :
  exists commits,
    fst (getCommitHistory Examples.long_history "main" 2 no_filters []) = JS.Return commits
    /\ map hash commits = ["c0"; "c1"]
    /\ List.length commits <= 2.
Proof.
  destruct (getCommitHistory Examples.long_history "main" 2 no_filters [])
    as [[commits | e] tr'] eqn:Hrun; [ | exfalso; vm_compute in Hrun; discriminate Hrun].
  exists commits. split; [reflexivity | ]. split.
  - vm_compute in Hrun. injection Hrun as <- _. reflexivity.
  - destruct (@getCommitHistory_within_limit Examples.long_history "main" 2 no_filters [])
      as [_ Hreturned].
    destruct (Hreturned commits tr' Hrun) as [_ [Hlen _]].
    apply Hlen. lia.
Defined.

End DiffFiles.

(** *** Line metrics, nesting and maintenance issues *)

Section CodeMetrics.
Import CodeAnalyzer.

Lemma fold_max_bounds (l : list nat) :
  forall init,
    init <= fold_left Nat.max l init
    /\ (forall x, In x l -> x <= fold_left Nat.max l init)
    /\ (fold_left Nat.max l init = init \/ In (fold_left Nat.max l init) l).
Proof.
  induction l as [| y l IH]; intros init; cbn [fold_left].
  - split; [lia | ]. split; [intros x [] | left; reflexivity].
  - destruct (IH (Nat.max init y)) as [H1 [H2 H3]]. split; [lia | ]. split.
    + intros x [<- | Hx]; [lia | apply H2; exact Hx].
    + destruct H3 as [H3 | H3]; [ | right; right; exact H3].
      destruct (Nat.max_spec init y) as [[_ E] | [_ E]]; rewrite E in *.
      * right. left. symmetry. exact H3.
      * left. exact H3.
Qed.

Lemma fold_lengths (l : list string) :
  forall init bound,
    (forall line, In line l -> JS.length line <= bound) ->
    fold_left (fun sum line => sum + JS.length line) l init <= init + List.length l * bound.
Proof.
  induction l as [| y l IH]; intros init bound H; cbn [fold_left List.length].
  - lia.
  - specialize (IH (init + JS.length y) bound (fun line Hl => H line (or_intror Hl))).
    pose proof (H y (or_introl eq_refl)). lia.
Qed.

(** X20.  The line metrics of [calculateMetrics]: every line is a code
    line, a comment line or an empty line; there is at least one line;
    no line is longer than [longestLine], which is the length of some
    line; and the average length of the non-empty lines lies between 0
    and [longestLine]. *)
Theorem calculateMetrics_partition (content : string) :
  let m := calculateMetrics content in
  totalLines m = codeLines m + commentLines m + emptyLines m
  /\ 1 <= totalLines m
  /\ (forall line, In line (JS.lines content) -> JS.length line <= longestLine m)
  /\ (exists line, In line (JS.lines content) /\ JS.length line = longestLine m)
  /\ (0 <= averageLineLength m <= Z.of_nat (longestLine m))%Z.
Proof.
  cbv zeta. unfold calculateMetrics. cbv zeta.
  cbn [totalLines codeLines commentLines emptyLines longestLine averageLineLength].
  set (lines := JS.lines content).
  set (nonEmptyLines := filter non_empty lines).
  set (code := filter _ nonEmptyLines).
  assert (List.length code <= List.length nonEmptyLines) as H1 by apply filter_length_le.
  assert (List.length nonEmptyLines <= List.length lines) as H2 by apply filter_length_le.
  assert (1 <= List.length lines) as H3 by apply split_on_nonempty.
  destruct (fold_max_bounds (map JS.length lines) 0) as [_ [Hmax Hsome]].
  set (longest := fold_left Nat.max (map JS.length lines) 0) in *.
  assert (forall line, In line lines -> JS.length line <= longest) as Hall.
  { intros line Hin. apply Hmax. apply in_map. exact Hin. }
  split; [lia | ]. split; [exact H3 | ]. split; [exact Hall | ]. split.
  { destruct Hsome as [E | Hin].
    - destruct lines as [| line rest] eqn:El; [cbn in H3; lia | ].
      exists line. split; [left; reflexivity | ].
      pose proof (Hall line (or_introl eq_refl)). lia.
    - apply in_map_iff in Hin. destruct Hin as [line [E Hin]].
      exists line. split; assumption. }
  unfold calculateAverageLineLength. cbv zeta. fold lines. fold nonEmptyLines.
  destruct (Nat.eqb_spec (List.length nonEmptyLines) 0) as [E | Hn]; [lia | ].
  set (n := List.length nonEmptyLines) in *.
  set (total := fold_left _ nonEmptyLines 0).
  assert (total <= n * longest) as Ht.
  { assert (total <= 0 + n * longest); [ | lia].
    apply fold_lengths. intros line Hin. apply Hall.
    apply filter_In in Hin. destruct Hin as [Hin _]. exact Hin. }
  unfold JS.Math_round.
  assert (0 <= JS.num total / JS.num n)%Q as Hlow.
  { apply Qle_shift_div_l.
    - unfold JS.num, Qlt. cbn [Qnum Qden inject_Z]. lia.
    - unfold JS.num, Qle. cbn [Qnum Qden inject_Z Qmult]. lia. }
  assert (JS.num total / JS.num n <= inject_Z (Z.of_nat longest))%Q as Hhigh.
  { apply Qle_shift_div_r.
    - unfold JS.num, Qlt. cbn [Qnum Qden inject_Z]. lia.
    - unfold JS.num, Qle. cbn [Qnum Qden inject_Z Qmult].
      change (Z.pos (1 * 1)) with 1%Z. rewrite !Z.mul_1_r.
      apply Nat2Z.inj_le in Ht. rewrite Nat2Z.inj_mul in Ht.
      rewrite Z.mul_comm. exact Ht. }
  split.
  - assert (0 <= Qfloor (JS.num total / JS.num n + (1 # 2)))%Z; [ | lia].
    change 0%Z with (Qfloor 0). apply Qfloor_resp_le. lra.
  - assert (Qfloor (JS.num total / JS.num n + (1 # 2))
            <= Qfloor (inject_Z (Z.of_nat longest) + (1 # 2)))%Z as Hf
      by (apply Qfloor_resp_le; lra).
    assert (Qfloor (inject_Z (Z.of_nat longest) + (1 # 2)) = Z.of_nat longest) as Hround.
    { pose proof (Math_round_nearest (inject_Z (Z.of_nat longest))) as [Ha Hb].
      unfold JS.Math_round in Ha, Hb.
      set (r := Qfloor (inject_Z (Z.of_nat longest) + (1 # 2))) in *.
      unfold Qle, Qlt, Qminus, Qplus, Qopp in Ha, Hb.
      cbn [Qnum Qden inject_Z] in Ha, Hb. lia. }
    lia.
Qed.

(** The loop of [calculateMaxNesting] from any state: the maximum never
    decreases, and it grows by no more than the opening brackets
    read. *)
Lemma nesting_fold (l : list ascii) :
  forall maxNesting currentNesting,
    let st := fold_left nesting_step l (maxNesting, currentNesting) in
    maxNesting <= fst st
    /\ fst st <= Nat.max maxNesting (currentNesting + List.length (filter opening l))
    /\ (existsb opening l = true -> 1 <= fst st).
Proof.
  induction l as [| c l IH]; intros maxNesting currentNesting; cbn [fold_left filter existsb].
  - cbn [fst List.length]. split; [lia | ]. split; [lia | discriminate].
  - change (nesting_step (maxNesting, currentNesting) c)
      with (if opening c then (Nat.max maxNesting (S currentNesting), S currentNesting)
            else if closing c then (maxNesting, Nat.max 0 (currentNesting - 1))
                 else (maxNesting, currentNesting)).
    destruct (opening c) eqn:Ho.
    + specialize (IH (Nat.max maxNesting (S currentNesting)) (S currentNesting)).
      cbv zeta in *. destruct IH as [H1 [H2 H3]]. cbn [List.length orb].
      split; [lia | ]. split; [lia | ]. intros _. lia.
    + cbn [orb]. destruct (closing c).
      * specialize (IH maxNesting (Nat.max 0 (currentNesting - 1))).
        cbv zeta in *. destruct IH as [H1 [H2 H3]].
        split; [lia | ]. split; [lia | exact H3].
      * specialize (IH maxNesting currentNesting).
        cbv zeta in *. destruct IH as [H1 [H2 H3]].
        split; [lia | ]. split; [lia | exact H3].
Qed.

(** X21.  The nesting depth of [calculateMaxNesting] is at most the
    number of opening brackets of the content, and it is zero exactly
    when the content has no opening bracket. *)
Theorem calculateMaxNesting_bounds (content : string) :
  calculateMaxNesting content <= List.length (filter opening (JS.chars content))
  /\ (calculateMaxNesting content = 0 <-> existsb opening (JS.chars content) = false).
Proof.
  unfold calculateMaxNesting.
  destruct (nesting_fold (JS.chars content) 0 0) as [_ [H2 H3]]. cbv zeta in *.
  cbn [Nat.add Nat.max] in H2. split; [exact H2 | ]. split.
  - intros E. destruct (existsb opening (JS.chars content)); [ | reflexivity].
    specialize (H3 eq_refl). lia.
  - intros E.
    assert (List.length (filter opening (JS.chars content)) = 0) as Hz.
    { clear H2 H3. induction (JS.chars content) as [| c l IH]; [reflexivity | ].
      cbn [existsb] in E. apply Bool.orb_false_iff in E. destruct E as [Ec El].
      cbn [filter]. rewrite Ec. apply IH. exact El. }
    lia.
Qed.

(** X22.  Both complexity heuristics start from 1 and only add: the
    complexity of the content classifier and the cyclomatic complexity of
    the static analyser are at least 1, the latter at least 1 more than
    the number of [&&] and [||] in the content. *)
Theorem complexities_start_at_one (content language : string) :
  1 <= FileContentAnalyzer.calculateComplexity content
  /\ 1 + Regex.count Regex.no_flags logicalOperators content
     <= cyclomatic (calculateComplexity content language).
Proof.
  split.
  - unfold FileContentAnalyzer.calculateComplexity. apply fold_left_counts_from.
  - unfold calculateComplexity. cbv zeta. cbn [cyclomatic].
    pose proof (fold_left_counts_from
                  (fun pattern => Regex.count Regex.no_flags pattern content)
                  controlFlowPatterns 1) as H.
    lia.
Qed.

(** X23.  The maintenance issues agree with the quality assessment of
    the same content: there is a high-complexity issue exactly when the
    complexity factor needs improvement and a large-file issue exactly
    when the size factor is large; a score of 100 leaves no maintenance
    issue, and without maintenance issue the score is at least 95. *)
Theorem maintenance_issues_and_quality (content language : string) :
  let found := map i_type (detectMaintenanceIssues content language) in
  let q := assessQuality content language in
  (In "high-complexity" found <-> fc_complexity (factors q) = "needs-improvement")
  /\ (In "large-file" found <-> fc_size (factors q) = "large")
  /\ (score q = 100%Z -> found = [])
  /\ (found = [] -> (95 <= score q)%Z).
Proof.
  cbv zeta. rewrite assessQuality_score.
  unfold detectMaintenanceIssues, assessQuality, Spec.deductions, Spec.clamp. cbv zeta.
  cbn [factors fc_complexity fc_size].
  set (cy := cyclomatic (calculateComplexity content language)).
  set (ne := nesting (calculateComplexity content language)).
  set (tl := totalLines (calculateMetrics content)).
  rewrite !Nat.leb_antisym.
  destruct (Nat.ltb_spec 10 cy), (Nat.ltb_spec 20 cy), (Nat.ltb_spec 5 ne),
    (Nat.ltb_spec 500 tl), (Nat.ltb_spec 1000 tl),
    (Nat.ltb (10 * commentLines (calculateMetrics content))
             (JS.or_one (codeLines (calculateMetrics content))));
    try lia; cbn [issue_if app map i_type In negb];
    repeat split; intros; try discriminate; try lia; try reflexivity;
      try (intuition discriminate); auto.
Qed.

End CodeMetrics.

(** *** The tags and the lists of the content classifier *)

Section ContentTags.
Import Regex FileContentAnalyzer.

(** A chain of [push_if] appends the tags of the rules that hold, in the
    order of the rules. *)
Lemma push_chain (rules : list (bool * string)) :
  forall init : list string,
    fold_left (fun (acc : list string) (rule : bool * string) => push_if (fst rule) (snd rule) acc) rules init
    = init ++ flat_map (fun rule : bool * string => if fst rule then [snd rule] else []) rules.
Proof.
  induction rules as [| [c t] rules IH]; intros init; cbn [fold_left flat_map fst snd].
  - rewrite app_nil_r. reflexivity.
  - rewrite IH. unfold push_if. destruct c.
    + rewrite <- app_assoc. reflexivity.
    + reflexivity.
Qed.

Lemma picked_selection (rules : list (bool * string)) (p : string -> bool) :
  (forall rule, In rule rules -> p (snd rule) = fst rule) ->
  flat_map (fun rule : bool * string => if fst rule then [snd rule] else []) rules
  = filter p (map snd rules).
Proof.
  induction rules as [| [c t] rules IH]; intros H; [reflexivity | ].
  cbn [flat_map map filter fst snd].
  pose proof (H (c, t) (or_introl eq_refl)) as Hc. cbn [fst snd] in Hc. rewrite Hc.
  rewrite IH by (intros rule Hin; apply H; right; exact Hin).
  destruct c; reflexivity.
Qed.

Lemma same_tag_same_rule (rules : list (bool * string)) :
  NoDup (map snd rules) ->
  forall a b, In a rules -> In b rules -> snd a = snd b -> a = b.
Proof.
  induction rules as [| r rules IH]; intros Hnd a b Ha Hb E; [destruct Ha | ].
  cbn [map] in Hnd. inversion Hnd as [| ? ? Hnotin Hrest]; subst.
  destruct Ha as [<- | Ha], Hb as [<- | Hb].
  - reflexivity.
  - exfalso. apply Hnotin. rewrite E. apply in_map. exact Hb.
  - exfalso. apply Hnotin. rewrite <- E. apply in_map. exact Ha.
  - apply IH; assumption.
Qed.

Lemma has_picked (rules : list (bool * string)) :
  NoDup (map snd rules) ->
  forall rule, In rule rules ->
               JS.has (flat_map (fun rule : bool * string => if fst rule then [snd rule] else []) rules)
                      (snd rule)
               = fst rule.
Proof.
  intros Hnd rule Hin.
  destruct (JS.has _ (snd rule)) eqn:Hh.
  - apply has_In in Hh. apply in_flat_map in Hh. destruct Hh as [other [Ho Hs]].
    destruct (fst other) eqn:Hf; [ | destruct Hs].
    destruct Hs as [Hs | []].
    rewrite <- (@same_tag_same_rule rules Hnd other rule Ho Hin Hs). symmetry. exact Hf.
  - destruct (fst rule) eqn:Hf; [ | reflexivity].
    assert (JS.has (flat_map (fun rule : bool * string => if fst rule then [snd rule] else []) rules)
                   (snd rule) = true) as Ht.
    { apply has_In. apply in_flat_map. exists rule. split; [exact Hin | ].
      rewrite Hf. left. reflexivity. }
    congruence.
Qed.

(** The tags a chain of [push_if] collects from rules with different
    tags. *)
Lemma chain_selection (rules : list (bool * string)) :
  nodup string_dec (map snd rules) = map snd rules ->
  let found := fold_left (fun (acc : list string) (rule : bool * string) => push_if (fst rule) (snd rule) acc) rules [] in
  found = filter (fun tag => JS.has found tag) (map snd rules) /\ NoDup found.
Proof.
  intros E. cbv zeta. rewrite push_chain. cbn [app].
  assert (NoDup (map snd rules)) as Hnd by (rewrite <- E; apply NoDup_nodup).
  assert (flat_map (fun rule : bool * string => if fst rule then [snd rule] else []) rules
          = filter (fun tag => JS.has (flat_map (fun rule : bool * string => if fst rule then [snd rule] else [])
                                                rules) tag)
                   (map snd rules)) as H.
  { apply picked_selection. intros rule Hin. apply has_picked; assumption. }
  split; [exact H | ]. rewrite H. apply NoDup_filter. exact Hnd.
Qed.

(** The rules of a chain of [push_if], first rule first. *)
Ltac rules_of chain acc :=
  lazymatch chain with
  | push_if ?c ?t ?inner => rules_of inner constr:((c, t) :: acc)
  | _ => acc
  end.

(** X24.  The purposes that [detectFilePurpose] returns are never empty:
    they are the fallback tag alone, or a selection of the ten purpose
    tags in the order of the rules; no tag is repeated. *)
Theorem detectFilePurpose_tags (filePath content : string) :
  let purposes := detectFilePurpose filePath content in
  let tags := [ "APIエンドポイント"; "UIコンポーネント"; "データモデル"; "ビジネスロジック";
                "ユーティリティ"; "ミドルウェア"; "Reactコンポーネント"; "RESTful API";
                "API通信"; "データベースモデル" ] in
  (purposes = ["汎用モジュール"]
   \/ (purposes <> [] /\ purposes = filter (fun tag => JS.has purposes tag) tags))
  /\ NoDup purposes.
Proof.
  cbv zeta. unfold detectFilePurpose. cbv zeta.
  repeat match goal with
         | |- context [test ?f ?r ?x] => generalize (test f r x); intro
         end.
  match goal with
  | |- context [match ?chain with [] => _ | _ :: _ => _ end] =>
      let rules := rules_of chain constr:(@nil (bool * string)) in
      destruct (@chain_selection rules ltac:(vm_compute; reflexivity)) as [Hsel Hnd];
      cbv zeta in Hsel, Hnd; cbn [fold_left fst snd map] in Hsel, Hnd;
      destruct chain as [| tag more] eqn:E
  end.
  - split; [left; reflexivity | ]. repeat constructor. intros [].
  - split; [right; split; [discriminate | exact Hsel] | exact Hnd].
Qed.

(** X25.  The characteristics that [detectCharacteristics] returns are a
    selection of its ten tags in the order of the rules, none
    repeated. *)
Theorem detectCharacteristics_tags (content language : string) :
  let found := detectCharacteristics content language in
  let tags := [ "非同期処理"; "エラーハンドリング"; "状態管理"; "API通信"; "イベント処理";
                "データベース操作"; "認証・認可"; "バリデーション"; "キャッシュ処理";
                "ログ出力" ] in
  found = filter (fun tag => JS.has found tag) tags /\ NoDup found.
Proof.
  cbv zeta. unfold detectCharacteristics. cbv zeta.
  repeat match goal with
         | |- context [test ?f ?r ?x] => generalize (test f r x); intro
         end.
  match goal with
  | |- ?chain = _ /\ _ =>
      let rules := rules_of chain constr:(@nil (bool * string)) in
      exact (@chain_selection rules ltac:(vm_compute; reflexivity))
  end.
Qed.

(** X26.  The type that [detectFileType] returns is one of the five
    file-name types, a tag of the content patterns, a type of the
    extension table, or unknown. *)
Theorem detectFileType_taxonomy (filePath content : string) :
  In (detectFileType filePath content)
     (["test"; "configuration"; "entry-point"; "stylesheet"; "documentation"]
        ++ tags_of initializePatterns ++ map snd typeMap ++ ["unknown"]).
Proof.
  unfold detectFileType. cbv zeta.
  repeat match goal with
         | |- context [if ?c then _ else _] => destruct c; [cbn [app In]; auto 10 | ]
         end.
  apply in_or_app. right.
  destruct (first_category initializePatterns content) as [tag | ] eqn:Hc.
  - apply in_or_app. left. eapply first_category_tag. exact Hc.
  - apply in_or_app. right.
    destruct (lookup typeMap (NodePath.extname filePath)) as [t | ] eqn:Hl.
    + apply in_or_app. left. eapply lookup_value. exact Hl.
    + apply in_or_app. right. left. reflexivity.
Qed.

Lemma dedupe_from_NoDup (l : list string) :
  forall seen,
    NoDup (JS.dedupe_from seen l)
    /\ forall x, In x (JS.dedupe_from seen l) -> JS.has seen x = false.
Proof.
  induction l as [| y l IH]; intros seen; cbn [JS.dedupe_from].
  - split; [constructor | intros x []].
  - destruct (JS.has seen y) eqn:Hy.
    + apply IH.
    + destruct (IH (y :: seen)) as [Hnd Hout]. split.
      * constructor; [ | exact Hnd]. intros Hin. specialize (Hout y Hin).
        rewrite has_cons, String.eqb_refl in Hout. discriminate Hout.
      * intros x [<- | Hx]; [exact Hy | ]. specialize (Hout x Hx).
        rewrite has_cons in Hout. apply Bool.orb_false_iff in Hout. tauto.
Qed.

(** X27.  [extractDependencies] lists no dependency twice, and for a
    language other than python it lists no module whose name begins with
    a period. *)
Theorem extractDependencies_unique (content language : string) :
  NoDup (extractDependencies content language)
  /\ (language <> "python" ->
      forall dependency,
        In dependency (extractDependencies content language) ->
        JS.startsWith dependency "." = false).
Proof.
  unfold extractDependencies. cbv zeta. split.
  - apply dedupe_from_NoDup.
  - intros Hl dependency Hin. apply incl_new_Set in Hin.
    destruct (String.eqb_spec language "python") as [E | _]; [contradiction | ].
    cbn [app] in Hin. apply in_app_or in Hin.
    destruct Hin as [Hin | Hin]; apply filter_In in Hin; destruct Hin as [_ Hin];
      unfold external in Hin; apply Bool.negb_true_iff in Hin; exact Hin.
Qed.

(** X28.  [extractFunctions] lists the declarations, then the arrow
    functions, then the methods, and never lists [function], [if],
    [for], [while], [switch] or [catch] as the name of a method. *)
Theorem extractFunctions_methods (content language : string) :
  (exists declared arrows methods,
      extractFunctions content language = declared ++ arrows ++ methods
      /\ Forall (fun f => f_kind f = Declaration) declared
      /\ Forall (fun f => f_kind f = Arrow) arrows
      /\ Forall (fun f => f_kind f = Method) methods)
  /\ forall f,
      In f (extractFunctions content language) ->
      f_kind f = Method ->
      ~ In (f_name f) ["function"; "if"; "for"; "while"; "switch"; "catch"].
Proof.
  unfold extractFunctions. cbv zeta. split.
  - eexists _, _, _. split; [rewrite <- app_assoc; reflexivity | ].
    repeat split; apply Forall_forall; intros f Hin; apply in_map_iff in Hin;
      destruct Hin as [m [<- _]]; reflexivity.
  - intros f Hin Hk Hname.
    apply in_app_or in Hin. destruct Hin as [Hin | Hin].
    { apply in_app_or in Hin.
      destruct Hin as [Hin | Hin]; apply in_map_iff in Hin; destruct Hin as [m [<- _]];
        discriminate Hk. }
    apply in_map_iff in Hin. destruct Hin as [m [<- Hm]].
    apply filter_In in Hm. destruct Hm as [_ Hm]. apply Bool.negb_true_iff in Hm.
    apply has_In in Hname. cbn [function_of f_name] in Hname. congruence.
Qed.

Lemma bump_bound (cond : bool) (n : nat) : n <= bump cond n <= S n.
Proof. destruct cond; cbn; lia. Qed.

(** One line raises a counter of [analyzeStructure] by at most one, and
    it is not both empty and a comment. *)
Lemma structure_step_bounds (st : Structure) (line : string) :
  let st' := structure_step st line in
  s_imports st' <= S (s_imports st)
  /\ s_exports st' <= S (s_exports st)
  /\ s_functions st' <= S (s_functions st)
  /\ s_classes st' <= S (s_classes st)
  /\ s_interfaces st' <= S (s_interfaces st)
  /\ s_comments st' + s_emptyLines st' <= S (s_comments st + s_emptyLines st).
Proof.
  cbv zeta. unfold structure_step. cbv zeta.
  cbn [s_imports s_exports s_functions s_classes s_interfaces s_comments s_emptyLines].
  repeat split; try apply bump_bound.
  destruct (String.eqb_spec (JS.trim line) "") as [-> | _].
  - cbn [JS.startsWith String.prefix orb bump]. lia.
  - cbn [bump]. pose proof (bump_bound (JS.startsWith (JS.trim line) "//"
                                        || JS.startsWith (JS.trim line) "/*"
                                        || JS.startsWith (JS.trim line) "*")
                                       (s_comments st)).
    lia.
Qed.

(** The counters of [analyzeStructure] after the lines, from any
    start. *)
Lemma structure_fold (lines : list string) :
  forall st,
    let st' := fold_left structure_step lines st in
    s_imports st' <= s_imports st + List.length lines
    /\ s_exports st' <= s_exports st + List.length lines
    /\ s_functions st' <= s_functions st + List.length lines
    /\ s_classes st' <= s_classes st + List.length lines
    /\ s_interfaces st' <= s_interfaces st + List.length lines
    /\ s_comments st' + s_emptyLines st'
       <= s_comments st + s_emptyLines st + List.length lines.
Proof.
  induction lines as [| line lines IH]; intros st; cbn [fold_left List.length].
  - cbv zeta. lia.
  - specialize (IH (structure_step st line)).
    pose proof (structure_step_bounds st line) as Hs. cbv zeta in *.
    generalize dependent (structure_step st line). intros st1 IH Hs. lia.
Qed.

(** X29.  The line counters of [analyzeStructure] never exceed the
    number of lines: each of the counters of imports, exports,
    functions, classes and interfaces is at most the number of lines,
    and so is the number of comment lines and empty lines together.  The
    language does not enter the count. *)
Theorem analyzeStructure_counters (content language : string) :
  let s := analyzeStructure content language in
  s_lines s = List.length (JS.lines content)
  /\ s_imports s <= s_lines s
  /\ s_exports s <= s_lines s
  /\ s_functions s <= s_lines s
  /\ s_classes s <= s_lines s
  /\ s_interfaces s <= s_lines s
  /\ s_comments s + s_emptyLines s <= s_lines s
  /\ forall other, analyzeStructure content other = s.
Proof.
  cbv zeta. destruct (analyzeStructure_lines content language) as [Hl _].
  rewrite Hl. unfold analyzeStructure. cbv zeta.
  match goal with
  | |- context [fold_left structure_step ?l ?st] =>
      pose proof (structure_fold l st) as H
  end.
  cbv zeta in H.
  cbn [s_imports s_exports s_functions s_classes s_interfaces s_comments s_emptyLines] in H.
  repeat split; try lia.
Qed.

End ContentTags.

(** *** The range of the impact score *)

Section ImpactRange.
Import DiffAnalyzer.

(** X30.  The impact score lies between 0 and 81.  It is 0 exactly when
    the status is none of added, deleted and modified, and the level is
    then low; for these three statuses the score is at least 1. *)
Theorem calculateImpact_range (r : FileAnalysis) :
  (0 <= score (calculateImpact r) <= 81)%Z
  /\ (score (calculateImpact r) = 0%Z
      <-> ~ In (status r) ["added"; "deleted"; "modified"])
  /\ (score (calculateImpact r) = 0%Z -> level (calculateImpact r) = low).
Proof.
  unfold calculateImpact. cbv zeta. cbn [score level In].
  destruct (String.eqb_spec (status r) "added") as [-> | Ha];
    [ | destruct (String.eqb_spec (status r) "deleted") as [-> | Hd];
        [ | destruct (String.eqb_spec (status r) "modified") as [-> | Hm] ] ];
    cbn [String.eqb Ascii.eqb Bool.eqb];
    destruct (JS.includes (path r) "test"), (JS.includes (path r) "config"),
      (JS.includes (path r) "security"), (exceeds (cyclomatic_of (changes r)) 10),
      (exceeds (security_length_of (changes r)) 0);
    cbv -[status]; repeat split; intros; try discriminate; try reflexivity;
    try (intuition congruence).
Qed.

End ImpactRange.
